(** * simplepush: a shallow embedding of [simplepush/__init__.py]

    The development follows the module top-down: byte and hex helpers,
    the primitives the module imports ([hashlib.sha1], AES in CBC mode
    with PKCS#7 padding from [cryptography], URL-safe base64), the
    Python values and exceptions the module manipulates, then the
    functions of the module itself under their own names, and last the
    theorems.

    Conventions of the embedding:
    - a Python [str] is a [string] holding its UTF-8 encoding, so that
      [s.encode('utf-8')] is [list_byte_of_string s]; [bytes] are
      [list byte];
    - a function that may raise returns a [result]; the dict subscript
      [d[k]] raises [KeyError] and [el.keys()] raises [AttributeError] on
      what is not a dict, as in Python;
    - the outside of the module is a [world]: the bytes [os.urandom] will
      give, the readings of [time.time()] (whole seconds), the HTTP
      responses the service will send, and the trace of the events of the
      module ([POST], [GET], sleeps, calls of the callback). Failures of
      the transport itself (no connection, a body that is not JSON) are
      outside the embedding;
    - the imported primitives are written out from their standards and
      checked against the standards' known answers. *)

From Stdlib Require Import ZArith NArith Lia Bool.
From Stdlib Require Import Strings.String Strings.Ascii Strings.Byte.
From stdpp Require Import gmap strings list fin_maps.

#[local] Set Warnings "-register-all,-clear-no-such-hyp".
#[local] Open Scope Z_scope.

(* ===================================================================== *)
(** * Bytes and hexadecimal text *)
(* ===================================================================== *)

Definition byte_of_N (n : N) : byte :=
  match Byte.of_N (n mod 256)%N with
  | Some b => b
  | None => x00
  end.

Definition byte_of_Z (z : Z) : byte := byte_of_N (Z.to_N (z mod 256)).

Definition Z_of_byte (b : byte) : Z := Z.of_N (Byte.to_N b).

(** The 256 bytes in increasing order. *)
Definition all_bytes : list byte :=
  map (fun n => byte_of_N (N.of_nat n)) (seq 0 256).

Definition byte_eqb (a b : byte) : bool := N.eqb (Byte.to_N a) (Byte.to_N b).

(** One lowercase hexadecimal digit, as ["{:x}"] prints a nibble. *)
Definition hex_digit (n : N) : ascii :=
  if (n <? 10)%N then ascii_of_N (48 + n) else ascii_of_N (87 + n).

(** ["{:02x}".format(b)]: two lowercase digits, high nibble first. *)
Definition hex2 (b : byte) : string :=
  let n := Byte.to_N b in
  String (hex_digit (n / 16)) (String (hex_digit (n mod 16)) EmptyString).

(** [bytes.hex()]. *)
Fixpoint hex_of_bytes (bs : list byte) : string :=
  match bs with
  | [] => EmptyString
  | b :: rest => hex2 b +:+ hex_of_bytes rest
  end.

(** [str.upper()] on one character (ASCII letters only change). *)
Definition upper_ascii (c : ascii) : ascii :=
  let n := N_of_ascii c in
  if ((97 <=? n) && (n <=? 122))%N then ascii_of_N (n - 32) else c.

Fixpoint upper (s : string) : string :=
  match s with
  | EmptyString => EmptyString
  | String c rest => String (upper_ascii c) (upper rest)
  end.

(** The value of a hexadecimal digit, either case. *)
Definition hex_value (c : ascii) : option N :=
  let n := N_of_ascii c in
  if ((48 <=? n) && (n <=? 57))%N then Some (n - 48)%N
  else if ((97 <=? n) && (n <=? 102))%N then Some (n - 87)%N
  else if ((65 <=? n) && (n <=? 70))%N then Some (n - 55)%N
  else None.

(** [bytearray.fromhex(s)] on a string of hexadecimal digit pairs;
    [None] stands for the [ValueError] Python raises on anything else. *)
Fixpoint fromhex (s : string) : option (list byte) :=
  match s with
  | EmptyString => Some []
  | String c1 (String c2 rest) =>
      match hex_value c1, hex_value c2, fromhex rest with
      | Some h, Some l, Some bs => Some (byte_of_N (16 * h + l) :: bs)
      | _, _, _ => None
      end
  | String _ EmptyString => None
  end.

(* ===================================================================== *)
(** * SHA-1 (FIPS 180-4), the digest behind [hashlib.sha1] *)
(* ===================================================================== *)

Module Sha1.

Definition wmask : Z := 0xFFFFFFFF.

(** 32-bit addition with wrap-around. *)
Definition add32 (a b : Z) : Z := Z.land (a + b) wmask.

(** Left rotation of a 32-bit word. *)
Definition rotl (n : Z) (x : Z) : Z :=
  Z.land (Z.lor (Z.shiftl x n) (Z.shiftr x (32 - n))) wmask.

(** Big-endian word of four bytes and back. *)
Definition word_of_bytes (b0 b1 b2 b3 : byte) : Z :=
  Z.lor (Z.shiftl (Z_of_byte b0) 24)
    (Z.lor (Z.shiftl (Z_of_byte b1) 16)
       (Z.lor (Z.shiftl (Z_of_byte b2) 8) (Z_of_byte b3))).

Definition bytes_of_word (w : Z) : list byte :=
  [byte_of_Z (Z.shiftr w 24); byte_of_Z (Z.shiftr w 16);
   byte_of_Z (Z.shiftr w 8); byte_of_Z w].

(** The 64-bit big-endian bit length that closes the padding. *)
Definition length_bytes (bits : Z) : list byte :=
  map (fun i => byte_of_Z (Z.shiftr bits (8 * Z.of_nat i)))
      [7; 6; 5; 4; 3; 2; 1; 0]%nat.

(** Message padding: a 1 bit, zeros up to 56 mod 64, the bit length. *)
Definition pad (msg : list byte) : list byte :=
  let len := Z.of_nat (length msg) in
  let zeros := Z.to_nat ((55 - len) mod 64) in
  msg ++ x80 :: repeat x00 zeros ++ length_bytes (8 * len).

Fixpoint words (bs : list byte) : list Z :=
  match bs with
  | b0 :: b1 :: b2 :: b3 :: rest => word_of_bytes b0 b1 b2 b3 :: words rest
  | _ => []
  end.

(** Cut a word list into 16-word blocks; [fuel] bounds the number of
    blocks and is given as the length of the list. *)
Fixpoint blocks (fuel : nat) (ws : list Z) : list (list Z) :=
  match fuel, ws with
  | S fuel', _ :: _ => take 16 ws :: blocks fuel' (drop 16 ws)
  | _, _ => []
  end.

(** Message schedule, most recent word first: [rev_w] holds
    [W(t-1); W(t-2); ...]; the next word is
    [rotl 1 (W(t-3) xor W(t-8) xor W(t-14) xor W(t-16))]. *)
Fixpoint schedule (n : nat) (rev_w : list Z) : list Z :=
  match n with
  | O => rev_w
  | S n' =>
      let w := rotl 1 (Z.lxor (Z.lxor (nth 2 rev_w 0) (nth 7 rev_w 0))
                              (Z.lxor (nth 13 rev_w 0) (nth 15 rev_w 0))) in
      schedule n' (w :: rev_w)
  end.

Definition f (t : nat) (b c d : Z) : Z :=
  if (t <? 20)%nat then Z.lor (Z.land b c) (Z.land (Z.lxor b wmask) d)
  else if (t <? 40)%nat then Z.lxor (Z.lxor b c) d
  else if (t <? 60)%nat then
    Z.lor (Z.lor (Z.land b c) (Z.land b d)) (Z.land c d)
  else Z.lxor (Z.lxor b c) d.

Definition k (t : nat) : Z :=
  if (t <? 20)%nat then 0x5A827999
  else if (t <? 40)%nat then 0x6ED9EBA1
  else if (t <? 60)%nat then 0x8F1BBCDC
  else 0xCA62C1D6.

Record state := State { ha : Z; hb : Z; hc : Z; hd : Z; he : Z }.

Definition init : state :=
  State 0x67452301 0xEFCDAB89 0x98BADCFE 0x10325476 0xC3D2E1F0.

Fixpoint rounds (t : nat) (ws : list Z) (s : state) : state :=
  match ws with
  | [] => s
  | w :: rest =>
      let temp :=
        add32 (add32 (add32 (add32 (rotl 5 (ha s)) (f t (hb s) (hc s) (hd s)))
                            (he s)) (k t)) w in
      rounds (S t) rest (State temp (ha s) (rotl 30 (hb s)) (hc s) (hd s))
  end.

Definition compress (h : state) (block : list Z) : state :=
  let w := rev (schedule 64 (rev block)) in
  let s := rounds 0 w h in
  State (add32 (ha h) (ha s)) (add32 (hb h) (hb s)) (add32 (hc h) (hc s))
        (add32 (hd h) (hd s)) (add32 (he h) (he s)).

(** The 20-byte digest. *)
Definition digest (msg : list byte) : list byte :=
  let ws := words (pad msg) in
  let h := fold_left compress (blocks (length ws) ws) init in
  bytes_of_word (ha h) ++ bytes_of_word (hb h) ++ bytes_of_word (hc h)
    ++ bytes_of_word (hd h) ++ bytes_of_word (he h).

(** [hashlib.sha1(msg).hexdigest()]. *)
Definition hexdigest (msg : list byte) : string := hex_of_bytes (digest msg).

End Sha1.

(* ===================================================================== *)
(** * AES (FIPS 197), the block cipher behind [algorithms.AES] *)
(* ===================================================================== *)

Module Aes.

(** Addition in GF(2^8). *)
Definition bxor (a b : byte) : byte :=
  byte_of_N (N.lxor (Byte.to_N a) (Byte.to_N b)).

(** Multiplication by x, reduced by x^8 + x^4 + x^3 + x + 1. *)
Definition xtime (a : byte) : byte :=
  let n := Byte.to_N a in
  byte_of_N (N.lxor (N.shiftl n 1) (if N.testbit n 7 then 0x11b else 0)).

(** [gmul_bits n c x]: the sum of [x * x^i] over the set bits [i < n]
    of [c]. *)
Fixpoint gmul_bits (n : nat) (c : N) (x : byte) : byte :=
  match n with
  | O => x00
  | S n' =>
      bxor (if N.odd c then x else x00) (gmul_bits n' (N.div2 c) (xtime x))
  end.

(** Multiplication in GF(2^8). *)
Definition gmul (c x : byte) : byte := gmul_bits 8 (Byte.to_N c) x.

Fixpoint gpow (n : nat) (b : byte) : byte :=
  match n with
  | O => x01
  | S n' => gmul b (gpow n' b)
  end.

(** Multiplicative inverse, with 0 mapped to 0: [b^254]. *)
Definition ginv (b : byte) : byte := gpow 254 b.

(** Rotation of the 8 bits of a byte to the left. *)
Definition rotl8 (k : N) (b : byte) : byte :=
  let n := Byte.to_N b in
  byte_of_N (N.lor (N.shiftl n k) (N.shiftr n (8 - k))).

(** The S-box by its definition: inverse, then the affine map. *)
Definition sbox_calc (b : byte) : byte :=
  let i := ginv b in
  bxor (bxor (bxor i (rotl8 1 i)) (bxor (rotl8 2 i) (rotl8 3 i)))
       (bxor (rotl8 4 i) x63).

(** The inverse S-box: the inverse affine map, then the inverse. *)
Definition inv_sbox_calc (b : byte) : byte :=
  ginv (bxor (bxor (rotl8 1 b) (rotl8 3 b)) (bxor (rotl8 6 b) x05)).

Definition sbox_table : list byte :=
  Eval vm_compute in map sbox_calc all_bytes.

Definition inv_sbox_table : list byte :=
  Eval vm_compute in map inv_sbox_calc all_bytes.

Definition sbox (b : byte) : byte :=
  nth (N.to_nat (Byte.to_N b)) sbox_table x00.

Definition inv_sbox (b : byte) : byte :=
  nth (N.to_nat (Byte.to_N b)) inv_sbox_table x00.

(** A word is a column of four bytes; the state is four columns. *)
Definition word : Type := byte * byte * byte * byte.
Definition state : Type := word * word * word * word.

Definition wmap (g : byte -> byte) (w : word) : word :=
  let '(a, b, c, d) := w in (g a, g b, g c, g d).

Definition wxor (v w : word) : word :=
  let '(a, b, c, d) := v in
  let '(e, f, g, h) := w in (bxor a e, bxor b f, bxor c g, bxor d h).

Definition sxor (s t : state) : state :=
  let '(a, b, c, d) := s in
  let '(e, f, g, h) := t in (wxor a e, wxor b f, wxor c g, wxor d h).

Definition smap (g : word -> word) (s : state) : state :=
  let '(a, b, c, d) := s in (g a, g b, g c, g d).

Definition sub_bytes : state -> state := smap (wmap sbox).
Definition inv_sub_bytes : state -> state := smap (wmap inv_sbox).

(** Row [r] moves left by [r] columns. *)
Definition shift_rows (s : state) : state :=
  let '((a0, a1, a2, a3), (b0, b1, b2, b3),
        (c0, c1, c2, c3), (d0, d1, d2, d3)) := s in
  ((a0, b1, c2, d3), (b0, c1, d2, a3), (c0, d1, a2, b3), (d0, a1, b2, c3)).

Definition inv_shift_rows (s : state) : state :=
  let '((a0, a1, a2, a3), (b0, b1, b2, b3),
        (c0, c1, c2, c3), (d0, d1, d2, d3)) := s in
  ((a0, d1, c2, b3), (b0, a1, d2, c3), (c0, b1, a2, d3), (d0, c1, b2, a3)).

Definition word_eqb (v w : word) : bool :=
  let '(a, b, c, d) := v in
  let '(e, f, g, h) := w in
  byte_eqb a e && byte_eqb b f && byte_eqb c g && byte_eqb d h.

Definition mix_column (w : word) : word :=
  let '(a0, a1, a2, a3) := w in
  (bxor (bxor (gmul x02 a0) (gmul x03 a1)) (bxor a2 a3),
   bxor (bxor a0 (gmul x02 a1)) (bxor (gmul x03 a2) a3),
   bxor (bxor a0 a1) (bxor (gmul x02 a2) (gmul x03 a3)),
   bxor (bxor (gmul x03 a0) a1) (bxor a2 (gmul x02 a3))).

Definition inv_mix_column (w : word) : word :=
  let '(a0, a1, a2, a3) := w in
  (bxor (bxor (gmul x0e a0) (gmul x0b a1)) (bxor (gmul x0d a2) (gmul x09 a3)),
   bxor (bxor (gmul x09 a0) (gmul x0e a1)) (bxor (gmul x0b a2) (gmul x0d a3)),
   bxor (bxor (gmul x0d a0) (gmul x09 a1)) (bxor (gmul x0e a2) (gmul x0b a3)),
   bxor (bxor (gmul x0b a0) (gmul x0d a1)) (bxor (gmul x09 a2) (gmul x0e a3))).

Definition mix_columns : state -> state := smap mix_column.
Definition inv_mix_columns : state -> state := smap inv_mix_column.

Definition add_round_key (k s : state) : state := sxor s k.

(** ** Key expansion *)

Definition zero_word : word := (x00, x00, x00, x00).

Definition rot_word (w : word) : word :=
  let '(a, b, c, d) := w in (b, c, d, a).

Definition sub_word : word -> word := wmap sbox.

(** [Rcon[i]] is [x^(i-1)] in the first byte. *)
Definition rcon (i : nat) : word := (gpow (i - 1) x02, x00, x00, x00).

(** [expand fuel nk i w] appends the words [w[i]], [w[i+1]], ... to the
    [i] words in [w], [fuel] of them. *)
Fixpoint expand (fuel nk i : nat) (w : list word) : list word :=
  match fuel with
  | O => w
  | S fuel' =>
      let temp := nth (i - 1) w zero_word in
      let temp' :=
        if (i mod nk =? 0)%nat
        then wxor (sub_word (rot_word temp)) (rcon (i / nk))
        else if ((6 <? nk) && (i mod nk =? 4))%nat then sub_word temp
        else temp in
      expand fuel' nk (S i) (w ++ [wxor (nth (i - nk) w zero_word) temp'])
  end.

Fixpoint words_of_bytes (bs : list byte) : list word :=
  match bs with
  | a :: b :: c :: d :: rest => (a, b, c, d) :: words_of_bytes rest
  | _ => []
  end.

Fixpoint states_of_words (ws : list word) : list state :=
  match ws with
  | a :: b :: c :: d :: rest => (a, b, c, d) :: states_of_words rest
  | _ => []
  end.

(** The round keys of a key of [Nk] words: [Nr + 1 = Nk + 7] of them. *)
Definition key_expansion (key : list byte) : list state :=
  let kw := words_of_bytes key in
  let nk := length kw in
  states_of_words (expand (4 * (nk + 7) - nk) nk nk kw).

(** ** Cipher and inverse cipher *)

Definition round (k s : state) : state :=
  add_round_key k (mix_columns (shift_rows (sub_bytes s))).

Definition final_round (k s : state) : state :=
  add_round_key k (shift_rows (sub_bytes s)).

Fixpoint rounds (rks : list state) (s : state) : state :=
  match rks with
  | [] => s
  | [k] => final_round k s
  | k :: rest => rounds rest (round k s)
  end.

Definition cipher (rks : list state) (s : state) : state :=
  match rks with
  | [] => s
  | k0 :: rest => rounds rest (add_round_key k0 s)
  end.

Definition inv_round (k s : state) : state :=
  inv_mix_columns (add_round_key k (inv_sub_bytes (inv_shift_rows s))).

Definition inv_final_round (k s : state) : state :=
  add_round_key k (inv_sub_bytes (inv_shift_rows s)).

(** The round keys come last first. *)
Fixpoint inv_rounds (rks_rev : list state) (s : state) : state :=
  match rks_rev with
  | [] => s
  | [k] => inv_final_round k s
  | k :: rest => inv_rounds rest (inv_round k s)
  end.

Definition inv_cipher (rks : list state) (s : state) : state :=
  match rev rks with
  | [] => s
  | k :: rest => inv_rounds rest (add_round_key k s)
  end.

(** ** Blocks of 16 bytes *)

Definition bytes_of_word (w : word) : list byte :=
  let '(a, b, c, d) := w in [a; b; c; d].

Definition bytes_of_state (s : state) : list byte :=
  let '(a, b, c, d) := s in
  bytes_of_word a ++ bytes_of_word b ++ bytes_of_word c ++ bytes_of_word d.

Definition bytes_of_blocks (bl : list state) : list byte :=
  concat (map bytes_of_state bl).

(** The state holding the first 16 bytes of [bs], column by column
    (missing bytes read as 0). *)
Definition state_of_bytes (bs : list byte) : state :=
  let b i := nth i bs x00 in
  ((b 0, b 1, b 2, b 3), (b 4, b 5, b 6, b 7),
   (b 8, b 9, b 10, b 11), (b 12, b 13, b 14, b 15))%nat.

(** Cut into 16-byte blocks; [None] when the length is not a multiple
    of the block length. *)
Fixpoint blocks_of_bytes (bs : list byte) : option (list state) :=
  match bs with
  | [] => Some []
  | a0 :: a1 :: a2 :: a3 :: b0 :: b1 :: b2 :: b3
      :: c0 :: c1 :: c2 :: c3 :: d0 :: d1 :: d2 :: d3 :: rest =>
      match blocks_of_bytes rest with
      | Some bl =>
          Some (((a0, a1, a2, a3), (b0, b1, b2, b3),
                 (c0, c1, c2, c3), (d0, d1, d2, d3)) :: bl)
      | None => None
      end
  | _ => None
  end.

(** ** Cipher block chaining *)

Fixpoint cbc_encrypt (rks : list state) (prev : state) (bl : list state)
  : list state :=
  match bl with
  | [] => []
  | p :: rest =>
      let c := cipher rks (sxor p prev) in
      c :: cbc_encrypt rks c rest
  end.

Fixpoint cbc_decrypt (rks : list state) (prev : state) (bl : list state)
  : list state :=
  match bl with
  | [] => []
  | c :: rest => sxor (inv_cipher rks c) prev :: cbc_decrypt rks c rest
  end.

End Aes.

(* ===================================================================== *)
(** * PKCS#7 padding and URL-safe base64 *)
(* ===================================================================== *)

(** [padding.PKCS7(8 * block).padder()]: [n] bytes of value [n], where
    [n] brings the length to the next multiple of [block]; a whole block
    when the length already is one. *)
Definition pkcs7_pad (block : nat) (data : list byte) : list byte :=
  let n := (block - length data mod block)%nat in
  data ++ repeat (byte_of_N (N.of_nat n)) n.

(** The unpadder: the data is whole blocks, its last byte [n] is between
    1 and [block], and the last [n] bytes all are [n]; these are removed.
    [None] stands for the [ValueError] of an invalid padding. *)
Definition pkcs7_unpad (block : nat) (data : list byte) : option (list byte) :=
  match last data with
  | None => None
  | Some b =>
      let n := N.to_nat (Byte.to_N b) in
      if ((length data mod block =? 0) && (1 <=? n) && (n <=? block)
          && forallb (byte_eqb b) (drop (length data - n) data))%nat
      then Some (take (length data - n) data)
      else None
  end.

Module Base64.

(** The URL-safe alphabet of RFC 4648, section 5. *)
Definition char (n : N) : ascii :=
  if (n <? 26)%N then ascii_of_N (65 + n)
  else if (n <? 52)%N then ascii_of_N (71 + n)
  else if (n <? 62)%N then ascii_of_N (n - 4)
  else if (n =? 62)%N then "-"%char
  else "_"%char.

Definition value (c : ascii) : option N :=
  let n := N_of_ascii c in
  if ((65 <=? n) && (n <=? 90))%N then Some (n - 65)%N
  else if ((97 <=? n) && (n <=? 122))%N then Some (n - 71)%N
  else if ((48 <=? n) && (n <=? 57))%N then Some (n + 4)%N
  else if (n =? 45)%N then Some 62%N
  else if (n =? 95)%N then Some 63%N
  else None.

Definition is_pad (c : ascii) : bool := (N_of_ascii c =? 61)%N.

(** [base64.urlsafe_b64encode], the [=] padding kept. *)
Fixpoint urlsafe_b64encode (bs : list byte) : string :=
  match bs with
  | [] => EmptyString
  | [a] =>
      let x := Byte.to_N a in
      String (char (x / 4)) (String (char (x mod 4 * 16)) "==")
  | [a; b] =>
      let x := Byte.to_N a in
      let y := Byte.to_N b in
      String (char (x / 4)) (String (char (x mod 4 * 16 + y / 16))
        (String (char (y mod 16 * 4)) "="))
  | a :: b :: c :: rest =>
      let x := Byte.to_N a in
      let y := Byte.to_N b in
      let z := Byte.to_N c in
      String (char (x / 4)) (String (char (x mod 4 * 16 + y / 16))
        (String (char (y mod 16 * 4 + z / 64)) (String (char (z mod 64))
           (urlsafe_b64encode rest))))
  end%N.

(** Decoding of padded URL-safe base64: groups of four characters, the
    last one closed by [=] or [==]; [None] on any other text. *)
Fixpoint urlsafe_b64decode (s : string) : option (list byte) :=
  match s with
  | EmptyString => Some []
  | String c1 (String c2 (String c3 (String c4 rest))) =>
      match value c1, value c2 with
      | Some v1, Some v2 =>
          let b1 := byte_of_N (v1 * 4 + v2 / 16) in
          if is_pad c3 then
            match rest with
            | EmptyString => if is_pad c4 then Some [b1] else None
            | _ => None
            end
          else
            match value c3 with
            | Some v3 =>
                let b2 := byte_of_N (v2 mod 16 * 16 + v3 / 4) in
                if is_pad c4 then
                  match rest with
                  | EmptyString => Some [b1; b2]
                  | _ => None
                  end
                else
                  match value c4, urlsafe_b64decode rest with
                  | Some v4, Some bs =>
                      Some (b1 :: b2 :: byte_of_N (v3 mod 4 * 64 + v4) :: bs)
                  | _, _ => None
                  end
            | None => None
            end
      | _, _ => None
      end
  | _ => None
  end%N.

End Base64.

(* ===================================================================== *)
(** * Python values, exceptions and the world around the module *)
(* ===================================================================== *)

(** The values that reach the module as arguments or as parsed JSON. *)
Inductive pyval : Type :=
  | PNone
  | PBool (b : bool)
  | PInt (z : Z)
  | PStr (s : string)
  | PList (l : list pyval)
  | PDict (d : gmap string pyval).

(** [bool(v)]. *)
Definition truthy (v : pyval) : bool :=
  match v with
  | PNone => false
  | PBool b => b
  | PInt z => negb (z =? 0)
  | PStr s => negb (String.eqb s "")
  | PList l => match l with [] => false | _ => true end
  | PDict d => negb (size d =? 0)%nat
  end.

(** Truth of an argument that is [None] or a [str]. *)
Definition truthy_str (o : option string) : bool :=
  match o with
  | Some s => negb (String.eqb s "")
  | None => false
  end.

(** [v == s] for a string literal [s]. *)
Definition eq_str (v : pyval) (s : string) : bool :=
  match v with
  | PStr t => String.eqb t s
  | _ => false
  end.

Definition isinstance_list (v : pyval) : bool :=
  match v with PList _ => true | _ => false end.

Definition isinstance_str (v : pyval) : bool :=
  match v with PStr _ => true | _ => false end.

(** The exceptions of the module and those its subscripts, attribute
    accesses and library calls raise. *)
Inductive exn : Type :=
  | ValueError (msg : string)
  | TypeError (msg : string)
  | KeyError (key : string)
  | AttributeError (attr : string)
  | UnsupportedAlgorithm
  | HTTPError
  | BadRequest
  | UnknownError
  | FeedbackActionError (msg : string)
  | FeedbackActionTimeout (msg : string).

Inductive result (A : Type) : Type :=
  | Ok (a : A)
  | Raise (e : exn).
Arguments Ok {A} a.
Arguments Raise {A} e.

#[global] Instance result_ret : MRet result := fun A a => Ok a.
#[global] Instance result_bind : MBind result := fun A B k m =>
  match m with
  | Ok a => k a
  | Raise e => Raise e
  end.

(** [d[key]]. *)
Definition getitem (d : gmap string pyval) (key : string) : result pyval :=
  match d !! key with
  | Some v => Ok v
  | None => Raise (KeyError key)
  end.

(** [key in el.keys()]; only a dict has [keys]. *)
Definition in_keys (key : string) (el : pyval) : result bool :=
  match el with
  | PDict d => Ok (bool_decide (is_Some (d !! key)))
  | _ => Raise (AttributeError "keys")
  end.

(** The callback the caller hands over; calling it is an event. *)
Inductive callback : Type := Callback (name : string).

(** What the module does to the outside, in order. *)
Inductive event : Type :=
  | Post (url : string) (json : gmap string pyval)
  | Get (url : string)
  | Sleep (seconds : Z)
  | Call (cb : callback) (selected selected_at delivered_at : pyval)
         (feedback_id : string).

(** An HTTP response: whether its status is below 400, and its JSON. *)
Record response : Type := Response {
  resp_ok : bool;
  resp_json : gmap string pyval
}.

(** The outside: the bytes [os.urandom] will hand out, the readings
    [time.time()] will give (in seconds), the response to the [POST], the
    responses to the successive feedback [GET]s, and the events so far. *)
Record world : Type := World {
  entropy : nat -> byte;
  clock : nat -> Z;
  send_response : response;
  feedback_responses : list response;
  trace : list event
}.

Definition log (e : event) (w : world) : world :=
  World (entropy w) (clock w) (send_response w) (feedback_responses w)
        (trace w ++ [e]).

(** [os.urandom(n)]. *)
Definition urandom (n : nat) (w : world) : list byte * world :=
  (map (entropy w) (seq 0 n),
   World (fun i => entropy w (n + i)%nat) (clock w) (send_response w)
         (feedback_responses w) (trace w)).

(** [time.time()]. *)
Definition time (w : world) : Z * world :=
  (clock w O,
   World (entropy w) (fun i => clock w (S i)) (send_response w)
         (feedback_responses w) (trace w)).

(* ===================================================================== *)
(** * The module [simplepush] *)
(* ===================================================================== *)

Definition DEFAULT_TIMEOUT : Z := 5.

Definition SALT : string := "1789F0B8C4A051E5".

Definition SIMPLEPUSH_URL : string := "https://api.simplepush.io".

(** [algorithms.AES.block_size], in bits. *)
Definition AES_block_size : nat := 128.

(** [_generate_iv]: [os.urandom(algorithms.AES.block_size // 8)]. *)
Definition _generate_iv (w : world) : list byte * world :=
  urandom (AES_block_size / 8) w.

(** [_generate_encryption_key(password, salt=None)]. *)
Definition _generate_encryption_key (password : string) (salt : option string)
  : result (list byte) :=
  let salted_password :=
    if truthy_str salt then password +:+ default EmptyString salt
    else password +:+ SALT in
  let hex_str :=
    substring 0 32 (Sha1.hexdigest (list_byte_of_string salted_password)) in
  match fromhex hex_str with
  | Some byte_str => Ok byte_str
  | None => Raise (ValueError "non-hexadecimal number found in fromhex()")
  end.

(** [algorithms.AES(key)]: the round keys of a 128, 192 or 256 bit key.
    A 512 bit key passes the constructor but no CBC cipher exists for it. *)
Definition aes_round_keys (key : list byte) : result (list Aes.state) :=
  let bits := (8 * length key)%nat in
  if ((bits =? 128) || (bits =? 192) || (bits =? 256))%nat
  then Ok (Aes.key_expansion key)
  else if (bits =? 512)%nat then Raise UnsupportedAlgorithm
  else Raise (ValueError "Invalid key size for AES.").

(** [modes.CBC(iv)] checked against the block size of the algorithm. *)
Definition cbc_iv (iv : list byte) : result Aes.state :=
  if (8 * length iv =? AES_block_size)%nat then Ok (Aes.state_of_bytes iv)
  else Raise (ValueError "Invalid IV size for CBC.").

(** [_encrypt(encryption_key, iv, data)]. *)
Definition _encrypt (encryption_key iv : list byte) (data : string)
  : result string :=
  let padded := pkcs7_pad (AES_block_size / 8) (list_byte_of_string data) in
  rks ← aes_round_keys encryption_key;
  prev ← cbc_iv iv;
  match Aes.blocks_of_bytes padded with
  | Some blocks =>
      Ok (Base64.urlsafe_b64encode
            (Aes.bytes_of_blocks (Aes.cbc_encrypt rks prev blocks)))
  | None =>
      Raise (ValueError
        "The length of the provided data is not a multiple of the block length.")
  end.

(** [all(isinstance(el, str) for el in actions)]. *)
Definition all_str (els : list pyval) : bool := forallb isinstance_str els.

(** [all('name' in el.keys() and 'url' in el.keys() for el in actions)]:
    the elements are visited in order, the visit stops at the first one
    that fails the test, and [el.keys()] raises on an element that is not
    a dict. *)
Fixpoint all_name_url (els : list pyval) : result bool :=
  match els with
  | [] => Ok true
  | el :: rest =>
      has_name ← in_keys "name" el;
      has_url ← (if has_name then in_keys "url" el else Ok false);
      if has_name && has_url then all_name_url rest else Ok false
  end.

(** [_check_actions(actions)]. *)
Definition _check_actions (actions : pyval) : result unit :=
  match actions with
  | PNone => Ok tt
  | PList els =>
      match els with
      | [] => Ok tt
      | first :: _ =>
          if isinstance_str first then
            if negb (all_str els)
            then Raise (ValueError "Feedback actions malformed")
            else Ok tt
          else
            ok ← all_name_url els;
            if negb ok then Raise (ValueError "Get actions malformed")
            else Ok tt
      end
  | _ => Raise (ValueError "Actions malformed")
  end.

(** The loop over the bytes of the iv in [_generate_payload]:
    [iv_hex += "{:02x}".format(ord(iv[c_idx:c_idx+1]))]. *)
Definition iv_hex_loop (iv : list byte) : string :=
  fold_left (fun iv_hex b => iv_hex +:+ hex2 b) iv EmptyString.

(** [payload.update({'title': title})] when the title is truthy. *)
Definition update_opt (key : string) (v : option string)
  (payload : gmap string pyval) : gmap string pyval :=
  match v with
  | Some s => if negb (String.eqb s "") then <[key := PStr s]> payload
              else payload
  | None => payload
  end.

(** [_generate_payload(key, title, message, event=None, actions=None,
    password=None, salt=None)]. *)
Definition _generate_payload (key : string) (title : option string)
  (message : string) (event : option string) (actions : pyval)
  (password salt : option string) (w : world)
  : result (gmap string pyval) * world :=
  let payload : gmap string pyval := {[ "key" := PStr key ]} in
  let '(r, w) :=
    if negb (truthy_str password) then
      let payload := <["msg" := PStr message]> payload in
      let payload := update_opt "title" title payload in
      let payload := update_opt "event" event payload in
      (Ok payload, w)
    else
      match _generate_encryption_key (default EmptyString password) salt with
      | Raise e => (Raise e, w)
      | Ok encryption_key =>
          let '(iv, w) := _generate_iv w in
          let iv_hex := upper (iv_hex_loop iv) in
          let payload :=
            <["iv" := PStr iv_hex]> (<["encrypted" := PStr "true"]> payload) in
          (payload ←
             (if truthy_str title then
                title ← _encrypt encryption_key iv (default EmptyString title);
                Ok (<["title" := PStr title]> payload)
              else Ok payload);
           let payload := update_opt "event" event payload in
           message ← _encrypt encryption_key iv message;
           Ok (<["msg" := PStr message]> payload), w)
      end in
  (payload ← r;
   Ok (if truthy actions then <["actions" := actions]> payload else payload),
   w).

(** How one turn of the polling loop ends. *)
Inductive turn : Type :=
  | Again
  | Stop
  | Throw (e : exn).

(** The body of [while not stop] in [_query_feedback_endpoint], after the
    [GET] has returned [resp]. *)
Definition poll_turn (feedback_id : string) (cb : callback)
  (timeout : option Z) (start n : Z) (resp : response) (w : world)
  : turn * world :=
  let json := resp_json resp in
  match (if resp_ok resp then
           success ← getitem json "success"; Ok (truthy success)
         else Ok false) with
  | Raise e => (Throw e, w)
  | Ok false =>
      (Throw (FeedbackActionError "Failed to reach feedback API."), w)
  | Ok true =>
      match getitem json "action_selected" with
      | Raise e => (Throw e, w)
      | Ok selected =>
          if truthy selected then
            match getitem json "action_selected_at",
                  getitem json "action_delivered_at" with
            | Ok selected_at, Ok delivered_at =>
                (Stop,
                 log (Call cb selected selected_at delivered_at feedback_id) w)
            | Raise e, _ => (Throw e, w)
            | _, Raise e => (Throw e, w)
            end
          else
            let '(timed_out, w) :=
              match timeout with
              | Some t =>
                  if negb (t =? 0) then
                    let '(now, w) := time w in (now >? start + t, w)
                  else (false, w)
              | None => (false, w)
              end in
            if timed_out then
              (Throw (FeedbackActionTimeout
                        ("Feedback Action ID: " +:+ feedback_id)), w)
            else if n <? 60 then (Again, log (Sleep 1) w)
            else if n <? 260 then (Again, log (Sleep 3) w)
            else (Again, log (Sleep 5) w)
      end
  end.

(** How a run of the loop ends: it returns, it raises, or it is still
    polling when the responses the world holds are used up. *)
Inductive outcome : Type :=
  | Returns
  | Raises (e : exn)
  | Polling.

(** The loop itself; [n] and [start] are the variables of the source,
    and no turn assigns to them. *)
Fixpoint poll_loop (feedback_id : string) (cb : callback)
  (timeout : option Z) (start n : Z) (resps : list response) (w : world)
  : outcome * world :=
  match resps with
  | [] => (Polling, w)
  | resp :: rest =>
      let w := log (Get (SIMPLEPUSH_URL +:+ "/1/feedback/" +:+ feedback_id)) w in
      match poll_turn feedback_id cb timeout start n resp w with
      | (Again, w) => poll_loop feedback_id cb timeout start n rest w
      | (Stop, w) => (Returns, w)
      | (Throw e, w) => (Raises e, w)
      end
  end.

(** [_query_feedback_endpoint(feedback_id, callback, timeout)]. *)
Definition _query_feedback_endpoint (feedback_id : string) (cb : callback)
  (timeout : option Z) (w : world) : outcome * world :=
  let n := 0 in
  let '(start, w) := time w in
  poll_loop feedback_id cb timeout start n (feedback_responses w) w.

(** The part [_handle_response] and [_handle_response_aio] share: the
    tests on the envelope, then the feedback poll. A [feedbackId] that is
    not a string cannot be appended to the URL of the first [GET]. *)
Definition handle_envelope (json : gmap string pyval)
  (feedback_callback : option callback) (feedback_callback_timeout : option Z)
  (w : world) : outcome * world :=
  match (status ← getitem json "status";
         if eq_str status "BadRequest" then
           message ← getitem json "message";
           Ok (eq_str message "Title or message too long")
         else Ok false) with
  | Raise e => (Raises e, w)
  | Ok true => (Raises BadRequest, w)
  | Ok false =>
      match getitem json "status" with
      | Raise e => (Raises e, w)
      | Ok status =>
          if negb (eq_str status "OK") then (Raises UnknownError, w)
          else
            match json !! "feedbackId", feedback_callback with
            | Some (PStr feedback_id), Some cb =>
                _query_feedback_endpoint feedback_id cb
                  feedback_callback_timeout w
            | Some _, Some _ =>
                let '(_, w) := time w in
                (Raises (TypeError "can only concatenate str to str"), w)
            | _, _ => (Returns, w)
            end
      end
  end.

(** [_handle_response_aio(json_response, feedback_callback,
    feedback_callback_timeout)]. *)
Definition _handle_response_aio (json_response : gmap string pyval)
  (feedback_callback : option callback) (feedback_callback_timeout : option Z)
  (w : world) : outcome * world :=
  handle_envelope json_response feedback_callback feedback_callback_timeout w.

(** [_handle_response(response, feedback_callback,
    feedback_callback_timeout)]: as above on [response.json()], closed by
    [response.raise_for_status()]. *)
Definition _handle_response (resp : response)
  (feedback_callback : option callback) (feedback_callback_timeout : option Z)
  (w : world) : outcome * world :=
  match handle_envelope (resp_json resp) feedback_callback
          feedback_callback_timeout w with
  | (Returns, w) => if resp_ok resp then (Returns, w) else (Raises HTTPError, w)
  | other => other
  end.

(** [requests.post(url, json=payload, timeout=DEFAULT_TIMEOUT)]: the
    request is an event, the response is the one the world holds. *)
Definition requests_post (url : string) (json : gmap string pyval)
  (timeout : Z) (w : world) : response * world :=
  (send_response w, log (Post url json) w).

(** [session.post(url, json=payload)] in a session opened with
    [raise_for_status=True]: a response of status 400 or more raises
    before its JSON is read. *)
Definition session_post (url : string) (json : gmap string pyval) (w : world)
  : result (gmap string pyval) * world :=
  let w' := log (Post url json) w in
  if resp_ok (send_response w) then (Ok (resp_json (send_response w)), w')
  else (Raise HTTPError, w').

(** [send(key, message, title=None, event=None, actions=None,
    feedback_callback=None, feedback_callback_timeout=60)]. *)
Definition send (key message title event : option string) (actions : pyval)
  (feedback_callback : option callback) (feedback_callback_timeout : option Z)
  (w : world) : outcome * world :=
  if negb (truthy_str key) || negb (truthy_str message) then
    (Raises (ValueError "Key and message argument must be set"), w)
  else
    match _check_actions actions with
    | Raise e => (Raises e, w)
    | Ok _ =>
        match _generate_payload (default EmptyString key) title
                (default EmptyString message) event actions None None w with
        | (Raise e, w) => (Raises e, w)
        | (Ok payload, w) =>
            let '(r, w) :=
              requests_post (SIMPLEPUSH_URL +:+ "/send") payload
                DEFAULT_TIMEOUT w in
            _handle_response r feedback_callback feedback_callback_timeout w
        end
    end.

(** [send_encrypted(key, password, salt, message, title=None, event=None,
    actions=None, feedback_callback=None, feedback_callback_timeout=60)]. *)
Definition send_encrypted (key password salt message title event
  : option string) (actions : pyval) (feedback_callback : option callback)
  (feedback_callback_timeout : option Z) (w : world) : outcome * world :=
  if negb (truthy_str key) || negb (truthy_str message)
     || negb (truthy_str password) then
    (Raises (ValueError "Key, message and password arguments must be set"), w)
  else
    match _check_actions actions with
    | Raise e => (Raises e, w)
    | Ok _ =>
        match _generate_payload (default EmptyString key) title
                (default EmptyString message) event actions password salt w with
        | (Raise e, w) => (Raises e, w)
        | (Ok payload, w) =>
            let '(r, w) :=
              requests_post (SIMPLEPUSH_URL +:+ "/send") payload
                DEFAULT_TIMEOUT w in
            _handle_response r feedback_callback feedback_callback_timeout w
        end
    end.

(** [async_send(key, message, title=None, event=None, actions=None,
    feedback_callback=None, feedback_callback_timeout=60)]. *)
Definition async_send (key message title event : option string)
  (actions : pyval) (feedback_callback : option callback)
  (feedback_callback_timeout : option Z) (w : world) : outcome * world :=
  if negb (truthy_str key) || negb (truthy_str message) then
    (Raises (ValueError "Key and message argument must be set"), w)
  else
    match _check_actions actions with
    | Raise e => (Raises e, w)
    | Ok _ =>
        match _generate_payload (default EmptyString key) title
                (default EmptyString message) event actions None None w with
        | (Raise e, w) => (Raises e, w)
        | (Ok payload, w) =>
            match session_post (SIMPLEPUSH_URL +:+ "/send") payload w with
            | (Raise e, w) => (Raises e, w)
            | (Ok json, w) =>
                _handle_response_aio json feedback_callback
                  feedback_callback_timeout w
            end
        end
    end.

(** [async_send_encrypted(key, password, salt, message, title=None,
    event=None, actions=None, feedback_callback=None,
    feedback_callback_timeout=60)]. *)
Definition async_send_encrypted (key password salt message title event
  : option string) (actions : pyval) (feedback_callback : option callback)
  (feedback_callback_timeout : option Z) (w : world) : outcome * world :=
  if negb (truthy_str key) || negb (truthy_str message)
     || negb (truthy_str password) then
    (Raises (ValueError "Key, message and password arguments must be set"), w)
  else
    match _check_actions actions with
    | Raise e => (Raises e, w)
    | Ok _ =>
        match _generate_payload (default EmptyString key) title
                (default EmptyString message) event actions password salt w with
        | (Raise e, w) => (Raises e, w)
        | (Ok payload, w) =>
            match session_post (SIMPLEPUSH_URL +:+ "/send") payload w with
            | (Raise e, w) => (Raises e, w)
            | (Ok json, w) =>
                _handle_response_aio json feedback_callback
                  feedback_callback_timeout w
            end
        end
    end.

(* ===================================================================== *)
(** * The specification's side of the claims *)
(* ===================================================================== *)

(** The salt [_generate_encryption_key] appends: the one given when it is
    not empty, the constant otherwise. *)
Definition effective_salt (salt : option string) : string :=
  match salt with
  | Some s => if String.eqb s "" then SALT else s
  | None => SALT
  end.

(** Key derivation in the words of the specification: the bytes decoded
    from the first 32 hexadecimal characters of the SHA-1 digest of the
    password followed by [salt_used]. *)
Definition derived_key (password salt_used : string) : option (list byte) :=
  fromhex (substring 0 32
             (Sha1.hexdigest (list_byte_of_string (password +:+ salt_used)))).

(** The salt the specification names: the one given, the constant when
    none is given. *)
Definition salt_as_stated (salt : option string) : string :=
  match salt with
  | Some s => s
  | None => SALT
  end.

(** The receiving side, which the module does not contain, in the words
    of the specification: URL-safe base64 decoding, AES decryption in CBC
    mode under the key and iv, removal of the PKCS#7 padding; the bytes
    left are the UTF-8 text of the plaintext. *)
Definition decrypt (encryption_key iv : list byte) (ciphertext : string)
  : result string :=
  rks ← aes_round_keys encryption_key;
  prev ← cbc_iv iv;
  match Base64.urlsafe_b64decode ciphertext with
  | None => Raise (ValueError "Incorrect padding")
  | Some raw =>
      match Aes.blocks_of_bytes raw with
      | None =>
          Raise (ValueError
            "The length of the provided data is not a multiple of the block length.")
      | Some blocks =>
          match pkcs7_unpad (AES_block_size / 8)
                  (Aes.bytes_of_blocks (Aes.cbc_decrypt rks prev blocks)) with
          | Some data => Ok (string_of_list_byte data)
          | None => Raise (ValueError "Invalid padding bytes.")
          end
      end
  end.

(** The last step of [_generate_payload]: the actions are added when
    they are truthy. *)
Definition with_actions (actions : pyval) (payload : gmap string pyval)
  : gmap string pyval :=
  if truthy actions then <["actions" := actions]> payload else payload.

(** What a call of [_generate_payload] leaves under [key] in the payload
    it returns: [Ok None] when the payload has no such key. *)
Definition payload_field (key : string)
  (r : result (gmap string pyval) * world) : result (option pyval) :=
  payload ← r.1; Ok (payload !! key).

(** A world for examples: zero bytes of entropy, a clock that stays at 0,
    the given responses and no event yet. *)
Definition quiet_world (sent : response) (polls : list response) : world :=
  World (fun _ => x00) (fun _ => 0) sent polls [].

(** A feedback response while the user has not chosen: status below 400,
    a truthy [success] and an [action_selected] that is not truthy. *)
Definition pending (resp : response) : bool :=
  resp_ok resp
  && match resp_json resp !! "success", resp_json resp !! "action_selected" with
     | Some success, Some selected => truthy success && negb (truthy selected)
     | _, _ => false
     end.

(** The URL of the feedback [GET]. *)
Definition feedback_url (feedback_id : string) : string :=
  SIMPLEPUSH_URL +:+ "/1/feedback/" +:+ feedback_id.

(** The sleeps among some events, in order. *)
Definition sleeps (evs : list event) : list Z :=
  omap (fun e => match e with Sleep s => Some s | _ => None end) evs.

(** The calls of the callback among some events, in order. *)
Definition calls (evs : list event) : list event :=
  omap (fun e => match e with Call _ _ _ _ _ => Some e | _ => None end) evs.

(** An action that is a dict with both keys. *)
Definition has_name_url (el : pyval) : Prop :=
  exists d : gmap string pyval,
    el = PDict d /\ is_Some (d !! "name") /\ is_Some (d !! "url").

(** A timeout that [if timeout:] takes as set. *)
Definition timeout_set (timeout : option Z) : bool :=
  match timeout with
  | Some t => negb (t =? 0)
  | None => false
  end.

(** The message of [FeedbackActionTimeout]. *)
Definition timeout_message (feedback_id : string) : string :=
  "Feedback Action ID: " +:+ feedback_id.

(** The sleep the three branches on [n] choose. *)
Definition scheduled_sleep (n : Z) : Z :=
  if n <? 60 then 1 else if n <? 260 then 3 else 5.

(** A feedback response with no action chosen yet, as the service sends
    it. *)
Definition pending_response : response :=
  Response true
    {[ "success" := PBool true; "action_selected" := PNone;
       "action_selected_at" := PNone; "action_delivered_at" := PNone ]}.

(** The actions [_check_actions] lets through: [None], a list of
    strings, or a list of dicts that each hold ['name'] and ['url']. *)
Definition well_formed_actions (actions : pyval) : Prop :=
  actions = PNone
  \/ exists els : list pyval,
       actions = PList els
       /\ (Forall (fun el => isinstance_str el = true) els
           \/ Forall has_name_url els).

(** The URLs of the [GET]s among some events, in order. *)
Definition gets (evs : list event) : list string :=
  omap (fun e => match e with Get url => Some url | _ => None end) evs.

(** The [POST]s among some events, in order. *)
Definition posts (evs : list event) : list (string * gmap string pyval) :=
  omap (fun e => match e with Post url json => Some (url, json) | _ => None end)
       evs.

(** A character of URL-safe base64 text: a letter, a digit, [-], [_], or
    the padding [=]. *)
Definition url_safe_char (c : ascii) : bool :=
  let n := N_of_ascii c in
  (((65 <=? n) && (n <=? 90)) || ((97 <=? n) && (n <=? 122))
   || ((48 <=? n) && (n <=? 57)) || (n =? 45) || (n =? 95) || (n =? 61))%N.

(** An uppercase hexadecimal digit. *)
Definition upper_hex_char (c : ascii) : bool :=
  let n := N_of_ascii c in
  (((48 <=? n) && (n <=? 57)) || ((65 <=? n) && (n <=? 70)))%N.

(** All the characters of a string pass a test. *)
Fixpoint string_forall (p : ascii -> bool) (s : string) : bool :=
  match s with
  | EmptyString => true
  | String c rest => p c && string_forall p rest
  end.

(** The keys a payload holds for a title, an event or the actions that
    are truthy. *)
Definition optional_keys (title event : option string) (actions : pyval)
  : gset string :=
  (if truthy_str title then {[ "title" ]} else ∅)
  ∪ (if truthy_str event then {[ "event" ]} else ∅)
  ∪ (if truthy actions then {[ "actions" ]} else ∅).

(** The clock read at each of the first [k] turns of the polling stays
    within the timeout, when one is set: reading 0 is the start, reading
    [i] is the one of turn [i]. *)
Definition within_timeout (timeout : option Z) (w : world) (k : nat) : Prop :=
  timeout_set timeout = true ->
  forall i : nat, (1 <= i <= k)%nat -> clock w i <= clock w 0 + default 0 timeout.

(** The world [k] pending turns after [_query_feedback_endpoint] was
    entered in [w]: the start was read from the clock, each turn added a
    [GET] and a sleep of one second, and read the clock when a timeout is
    set. *)
Definition after_pending (feedback_id : string) (timeout : option Z)
  (k : nat) (w : world) : world :=
  World (entropy w)
    (fun i => clock w (S ((if timeout_set timeout then k else 0) + i)))
    (send_response w) (feedback_responses w)
    (trace w ++ concat (replicate k [Get (feedback_url feedback_id); Sleep 1])).

(** [missing_key json key]: [key] is the first subscript of a turn that
    fails on [json], the subscripts being taken in the order of the
    source and as far as the tests let the turn go. *)
Definition missing_key (json : gmap string pyval) (key : string) : Prop :=
  (key = "success"%string /\ json !! "success" = None)
  \/ (exists success : pyval,
        json !! "success" = Some success /\ truthy success = true
        /\ ((key = "action_selected"%string /\ json !! "action_selected" = None)
            \/ exists selected : pyval,
                 json !! "action_selected" = Some selected
                 /\ truthy selected = true
                 /\ ((key = "action_selected_at"%string
                      /\ json !! "action_selected_at" = None)
                     \/ (key = "action_delivered_at"%string
                         /\ is_Some (json !! "action_selected_at")
                         /\ json !! "action_delivered_at" = None)))).

(* ===================================================================== *)
(** * Theorems *)
(* ===================================================================== *)

(** ** Known answers of the primitives *)

Example aes128_fips197_c1 :
  hex_of_bytes (Aes.bytes_of_state
    (Aes.cipher
       (Aes.key_expansion
          (default [] (fromhex "000102030405060708090a0b0c0d0e0f")))
       (Aes.state_of_bytes
          (default [] (fromhex "00112233445566778899aabbccddeeff")))))
  = "69c4e0d86a7b0430d8cdb78070b4c55a"%string.
Proof. vm_compute. reflexivity. Qed.

Example aes192_fips197_c2 :
  hex_of_bytes (Aes.bytes_of_state
    (Aes.cipher
       (Aes.key_expansion
          (default [] (fromhex
             "000102030405060708090a0b0c0d0e0f1011121314151617")))
       (Aes.state_of_bytes
          (default [] (fromhex "00112233445566778899aabbccddeeff")))))
  = "dda97ca4864cdfe06eaf70a0ec0d7191"%string.
Proof. vm_compute. reflexivity. Qed.

Example aes256_fips197_c3 :
  hex_of_bytes (Aes.bytes_of_state
    (Aes.cipher
       (Aes.key_expansion
          (default [] (fromhex
             "000102030405060708090a0b0c0d0e0f101112131415161718191a1b1c1d1e1f")))
       (Aes.state_of_bytes
          (default [] (fromhex "00112233445566778899aabbccddeeff")))))
  = "8ea2b7ca516745bfeafc49904b496089"%string.
Proof. vm_compute. reflexivity. Qed.

Example aes128_inverse_fips197_c1 :
  hex_of_bytes (Aes.bytes_of_state
    (Aes.inv_cipher
       (Aes.key_expansion
          (default [] (fromhex "000102030405060708090a0b0c0d0e0f")))
       (Aes.state_of_bytes
          (default [] (fromhex "69c4e0d86a7b0430d8cdb78070b4c55a")))))
  = "00112233445566778899aabbccddeeff"%string.
Proof. vm_compute. reflexivity. Qed.

Example sha1_abc :
  Sha1.hexdigest (list_byte_of_string "abc")
  = "a9993e364706816aba3e25717850c26c9cd0d89d"%string.
Proof. vm_compute. reflexivity. Qed.

Example sha1_empty :
  Sha1.hexdigest [] = "da39a3ee5e6b4b0d3255bfef95601890afd80709"%string.
Proof. vm_compute. reflexivity. Qed.

Example sha1_two_blocks :
  Sha1.hexdigest (list_byte_of_string
    "abcdbcdecdefdefgefghfghighijhijkijkljklmklmnlmnomnopnopq")
  = "84983e441c3bd26ebaae4aa1f95129e5e54670f1"%string.
Proof. vm_compute. reflexivity. Qed.

(** CBC-AES128.Encrypt of NIST SP 800-38A, F.2.1, first two blocks. *)
Example cbc_aes128_sp800_38a :
  hex_of_bytes (Aes.bytes_of_blocks
    (Aes.cbc_encrypt
       (Aes.key_expansion
          (default [] (fromhex "2b7e151628aed2a6abf7158809cf4f3c")))
       (Aes.state_of_bytes
          (default [] (fromhex "000102030405060708090a0b0c0d0e0f")))
       (default [] (Aes.blocks_of_bytes
          (default [] (fromhex
             "6bc1bee22e409f96e93d7e117393172aae2d8a571e03ac9c9eb76fac45af8e51"))))))
  = "7649abac8119b246cee98e9b12e9197d5086cb9b507219ee95db113a917678b2"%string.
Proof. vm_compute. reflexivity. Qed.

(** [_encrypt] on a short text and on a text of one whole block, which
    gets a block of padding. *)
Example encrypt_known_answers :
  _encrypt (default [] (fromhex "2b7e151628aed2a6abf7158809cf4f3c"))
           (default [] (fromhex "000102030405060708090a0b0c0d0e0f")) "hello"
  = Ok "2GZuqKrWXMCDVLS8Q9T_Vg=="%string
  /\ _encrypt (default [] (fromhex "2b7e151628aed2a6abf7158809cf4f3c"))
              (default [] (fromhex "000102030405060708090a0b0c0d0e0f"))
              "0123456789abcdef"
     = Ok "ZHaFSAB67589JY5cNM3CG94KEmhDbhWUNPwh3jaW2Sg="%string.
Proof. split; vm_compute; reflexivity. Qed.

(** [_generate_encryption_key] without and with a salt. *)
Example generate_encryption_key_known_answers :
  _generate_encryption_key "a" None
  = Ok (default [] (fromhex "d6bc522fab06b2dc393737b9719fd046"))
  /\ _generate_encryption_key "password" (Some "salt"%string)
     = Ok (default [] (fromhex "c88e9c67041a74e0357befdff93f87dd")).
Proof. split; vm_compute; reflexivity. Qed.

(** ** Bytes *)

Lemma byte_of_N_to_N (b : byte) : byte_of_N (Byte.to_N b) = b.
Proof.
  unfold byte_of_N.
  rewrite N.mod_small by (pose proof (Byte.to_N_bounded b); lia).
  by rewrite Byte.of_to_N.
Qed.

Lemma to_N_byte_of_N (n : N) : (n < 256)%N -> Byte.to_N (byte_of_N n) = n.
Proof.
  intros Hn. unfold byte_of_N. rewrite N.mod_small by done.
  destruct (Byte.of_N n) as [b|] eqn:E.
  - by apply Byte.to_of_N.
  - apply Byte.of_N_None_iff in E. lia.
Qed.

Lemma to_N_inj (a b : byte) : Byte.to_N a = Byte.to_N b -> a = b.
Proof.
  intros H. rewrite <- (byte_of_N_to_N a), <- (byte_of_N_to_N b). by rewrite H.
Qed.

Lemma byte_eqb_eq (a b : byte) : byte_eqb a b = true <-> a = b.
Proof.
  unfold byte_eqb. rewrite N.eqb_eq. split; [apply to_N_inj | by intros ->].
Qed.

Lemma byte_eqb_refl (a : byte) : byte_eqb a a = true.
Proof. by apply byte_eqb_eq. Qed.

Lemma all_bytes_complete (b : byte) : In b all_bytes.
Proof.
  unfold all_bytes. apply in_map_iff.
  exists (N.to_nat (Byte.to_N b)). split.
  - rewrite N2Nat.id. apply byte_of_N_to_N.
  - apply in_seq. pose proof (Byte.to_N_bounded b). lia.
Qed.

(** A property checked on the 256 bytes holds of every byte. *)
Lemma forall_byte (P : byte -> bool) :
  forallb P all_bytes = true -> forall b, P b = true.
Proof.
  intros H b. rewrite forallb_forall in H. apply H, all_bytes_complete.
Qed.

Lemma forall_byte2 (P : byte -> byte -> bool) :
  forallb (fun a => forallb (P a) all_bytes) all_bytes = true ->
  forall a b, P a b = true.
Proof.
  intros H a b. apply (forall_byte (P a)). by apply (forall_byte _ H).
Qed.

(** An equation between bytes, words or numbers that is about one or two
    bytes and holds of all of them is settled by running it on all of
    them. *)
Ltac by_all_bytes :=
  first [apply byte_eqb_eq | apply N.eqb_eq | idtac];
  repeat match goal with b : byte |- _ => revert b end;
  first [apply forall_byte2 | apply forall_byte];
  vm_compute; reflexivity.

(** ** Hexadecimal text *)

Lemma append_cons (c : ascii) (s t : string) :
  String c s +:+ t = String c (s +:+ t).
Proof. reflexivity. Qed.

Lemma append_nil (t : string) : "" +:+ t = t.
Proof. reflexivity. Qed.

Lemma length_hex_of_bytes (bs : list byte) :
  String.length (hex_of_bytes bs) = (2 * length bs)%nat.
Proof.
  induction bs as [|b bs IH]; [done|].
  cbn [hex_of_bytes length]. unfold hex2.
  rewrite !append_cons, append_nil. cbn [String.length]. rewrite IH. lia.
Qed.

Lemma hex_of_bytes_app (a b : list byte) :
  hex_of_bytes (a ++ b) = hex_of_bytes a +:+ hex_of_bytes b.
Proof.
  induction a as [|x a IH]; [done|].
  cbn [app hex_of_bytes]. unfold hex2.
  rewrite !append_cons, !append_nil. by rewrite IH.
Qed.

Lemma hex2_digits (b : byte) :
  hex_value (hex_digit (Byte.to_N b / 16)) = Some (Byte.to_N b / 16)%N
  /\ hex_value (hex_digit (Byte.to_N b mod 16)) = Some (Byte.to_N b mod 16)%N.
Proof. destruct b; vm_compute; done. Qed.

Lemma fromhex_hex_of_bytes (bs : list byte) : fromhex (hex_of_bytes bs) = Some bs.
Proof.
  induction bs as [|b bs IH]; [done|].
  cbn [hex_of_bytes]. unfold hex2.
  rewrite !append_cons, append_nil. cbn [fromhex].
  destruct (hex2_digits b) as [-> ->]. rewrite IH.
  rewrite <- N.div_mod' . by rewrite byte_of_N_to_N.
Qed.

Lemma substring_prefix (s t : string) :
  substring 0 (String.length s) (s +:+ t) = s.
Proof.
  induction s as [|c s IH]; [by destruct t|].
  rewrite append_cons. cbn [String.length substring]. by rewrite IH.
Qed.

(** ** SHA-1 *)

Lemma length_sha1_digest (msg : list byte) : length (Sha1.digest msg) = 20%nat.
Proof. unfold Sha1.digest. by rewrite !length_app. Qed.

(** The text [hexdigest()[0:32]] is the hexadecimal of the first 16 bytes. *)
Lemma hexdigest_prefix (msg : list byte) :
  substring 0 32 (Sha1.hexdigest msg) = hex_of_bytes (take 16 (Sha1.digest msg)).
Proof.
  unfold Sha1.hexdigest.
  rewrite <- (take_drop 16 (Sha1.digest msg)) at 1.
  rewrite hex_of_bytes_app.
  assert (H : String.length (hex_of_bytes (take 16 (Sha1.digest msg))) = 32%nat).
  { rewrite length_hex_of_bytes, length_take, length_sha1_digest. done. }
  rewrite <- H at 1. apply substring_prefix.
Qed.

Lemma generate_encryption_key_eq (password : string) (salt : option string) :
  _generate_encryption_key password salt
  = Ok (take 16 (Sha1.digest
                   (list_byte_of_string (password +:+ effective_salt salt)))).
Proof.
  unfold _generate_encryption_key, effective_salt, truthy_str.
  destruct salt as [s|]; [destruct (String.eqb s "")|]; cbn [negb default];
    by rewrite hexdigest_prefix, fromhex_hex_of_bytes.
Qed.

(** ** GF(2^8) *)

Section FieldFacts.
Import Aes.

Lemma to_N_bxor (a b : byte) :
  Byte.to_N (bxor a b) = N.lxor (Byte.to_N a) (Byte.to_N b).
Proof. by_all_bytes. Qed.

Lemma bxor_comm (a b : byte) : bxor a b = bxor b a.
Proof. apply to_N_inj. rewrite !to_N_bxor. apply N.lxor_comm. Qed.

Lemma bxor_assoc (a b c : byte) : bxor a (bxor b c) = bxor (bxor a b) c.
Proof. apply to_N_inj. rewrite !to_N_bxor. symmetry. apply N.lxor_assoc. Qed.

Lemma bxor_nilpotent (a : byte) : bxor a a = x00.
Proof. apply to_N_inj. rewrite to_N_bxor. apply N.lxor_nilpotent. Qed.

Lemma bxor_0_r (a : byte) : bxor a x00 = a.
Proof. apply to_N_inj. rewrite to_N_bxor. apply N.lxor_0_r. Qed.

Lemma bxor_0_l (a : byte) : bxor x00 a = a.
Proof. by rewrite bxor_comm, bxor_0_r. Qed.

Lemma bxor_cancel_r (a b : byte) : bxor (bxor a b) b = a.
Proof. by rewrite <- bxor_assoc, bxor_nilpotent, bxor_0_r. Qed.

(** The sum of two sums, term by term. *)
Lemma bxor_interchange (a b c d : byte) :
  bxor (bxor a b) (bxor c d) = bxor (bxor a c) (bxor b d).
Proof.
  rewrite <- !bxor_assoc. f_equal.
  rewrite !bxor_assoc. f_equal. apply bxor_comm.
Qed.

Lemma xtime_linear (a b : byte) : xtime (bxor a b) = bxor (xtime a) (xtime b).
Proof. by_all_bytes. Qed.

Lemma gmul_bits_linear (n : nat) (c : N) (a b : byte) :
  gmul_bits n c (bxor a b) = bxor (gmul_bits n c a) (gmul_bits n c b).
Proof.
  revert c a b. induction n as [|n IH]; intros c a b; cbn [gmul_bits].
  - by rewrite bxor_0_r.
  - rewrite xtime_linear, IH, <- bxor_interchange.
    destruct (N.odd c); [done | by rewrite bxor_0_r].
Qed.

(** Multiplication by a constant distributes over addition. *)
Lemma gmul_linear (c a b : byte) :
  gmul c (bxor a b) = bxor (gmul c a) (gmul c b).
Proof. apply gmul_bits_linear. Qed.

Lemma gmul_0_r (c : byte) : gmul c x00 = x00.
Proof. by_all_bytes. Qed.

Lemma inv_sbox_sbox (b : byte) : inv_sbox (sbox b) = b.
Proof. by_all_bytes. Qed.

End FieldFacts.

Section CipherFacts.
Import Aes.

(** The tables hold the S-box of the definition. *)
Lemma sbox_is_sbox_calc (b : byte) : sbox b = sbox_calc b.
Proof. by_all_bytes. Qed.

Lemma inv_sbox_is_inv_sbox_calc (b : byte) : inv_sbox b = inv_sbox_calc b.
Proof. by_all_bytes. Qed.

Lemma wxor_cancel_r (v w : word) : wxor (wxor v w) w = v.
Proof.
  destruct v as [[[a b] c] d], w as [[[e f] g] h].
  cbv beta iota zeta delta [wxor]. by rewrite !bxor_cancel_r.
Qed.

Lemma sxor_cancel_r (s t : state) : sxor (sxor s t) t = s.
Proof.
  destruct s as [[[a b] c] d], t as [[[e f] g] h].
  cbv beta iota zeta delta [sxor]. by rewrite !wxor_cancel_r.
Qed.

Lemma add_round_key_involutive (k s : state) :
  add_round_key k (add_round_key k s) = s.
Proof. apply sxor_cancel_r. Qed.

Lemma inv_sub_bytes_sub_bytes (s : state) : inv_sub_bytes (sub_bytes s) = s.
Proof.
  destruct s as [[[[[[a0 a1] a2] a3] [[[b0 b1] b2] b3]]
                    [[[c0 c1] c2] c3]] [[[d0 d1] d2] d3]].
  cbv beta iota zeta delta [inv_sub_bytes sub_bytes smap wmap].
  by rewrite !inv_sbox_sbox.
Qed.

Lemma inv_shift_rows_shift_rows (s : state) :
  inv_shift_rows (shift_rows s) = s.
Proof.
  by destruct s as [[[[[[a0 a1] a2] a3] [[[b0 b1] b2] b3]]
                       [[[c0 c1] c2] c3]] [[[d0 d1] d2] d3]].
Qed.

Lemma bxor_interchange4 (a b c d e f g h : byte) :
  bxor (bxor (bxor a e) (bxor b f)) (bxor (bxor c g) (bxor d h))
  = bxor (bxor (bxor a b) (bxor c d)) (bxor (bxor e f) (bxor g h)).
Proof.
  rewrite (bxor_interchange a e b f), (bxor_interchange c g d h).
  apply bxor_interchange.
Qed.

Lemma word_eq (a b c d a' b' c' d' : byte) :
  a = a' -> b = b' -> c = c' -> d = d' -> (a, b, c, d) = (a', b', c', d').
Proof. congruence. Qed.

(** The two column maps are linear. *)
Lemma mix_column_linear (v w : word) :
  mix_column (wxor v w) = wxor (mix_column v) (mix_column w).
Proof.
  destruct v as [[[a b] c] d], w as [[[e f] g] h].
  cbv beta iota zeta delta [mix_column wxor]. rewrite !gmul_linear.
  apply word_eq; apply bxor_interchange4.
Qed.

Lemma inv_mix_column_linear (v w : word) :
  inv_mix_column (wxor v w) = wxor (inv_mix_column v) (inv_mix_column w).
Proof.
  destruct v as [[[a b] c] d], w as [[[e f] g] h].
  cbv beta iota zeta delta [inv_mix_column wxor]. rewrite !gmul_linear.
  apply word_eq; apply bxor_interchange4.
Qed.

Lemma word_eqb_eq (v w : word) : word_eqb v w = true -> v = w.
Proof.
  destruct v as [[[a b] c] d], w as [[[e f] g] h]. unfold word_eqb.
  rewrite !andb_true_iff, !byte_eqb_eq. intros [[[-> ->] ->] ->]. done.
Qed.

(** On a column with one byte set, [inv_mix_column] undoes
    [mix_column]: one check per byte and position. *)
Lemma inv_mix_mix_0 (a : byte) :
  inv_mix_column (mix_column (a, x00, x00, x00)) = (a, x00, x00, x00).
Proof. apply word_eqb_eq. by_all_bytes. Qed.

Lemma inv_mix_mix_1 (a : byte) :
  inv_mix_column (mix_column (x00, a, x00, x00)) = (x00, a, x00, x00).
Proof. apply word_eqb_eq. by_all_bytes. Qed.

Lemma inv_mix_mix_2 (a : byte) :
  inv_mix_column (mix_column (x00, x00, a, x00)) = (x00, x00, a, x00).
Proof. apply word_eqb_eq. by_all_bytes. Qed.

Lemma inv_mix_mix_3 (a : byte) :
  inv_mix_column (mix_column (x00, x00, x00, a)) = (x00, x00, x00, a).
Proof. apply word_eqb_eq. by_all_bytes. Qed.

Lemma word_split (a b c d : byte) :
  (a, b, c, d)
  = wxor (wxor (a, x00, x00, x00) (x00, b, x00, x00))
         (wxor (x00, x00, c, x00) (x00, x00, x00, d)).
Proof.
  cbv beta iota zeta delta [wxor].
  by rewrite ?bxor_0_r, ?bxor_0_l, ?bxor_nilpotent, ?bxor_0_r.
Qed.

Lemma inv_mix_column_mix_column (w : word) :
  inv_mix_column (mix_column w) = w.
Proof.
  destruct w as [[[a b] c] d].
  rewrite (word_split a b c d) at 1.
  rewrite !mix_column_linear, !inv_mix_column_linear.
  rewrite inv_mix_mix_0, inv_mix_mix_1, inv_mix_mix_2, inv_mix_mix_3.
  symmetry. apply word_split.
Qed.

Lemma inv_mix_columns_mix_columns (s : state) :
  inv_mix_columns (mix_columns s) = s.
Proof.
  destruct s as [[[a b] c] d].
  cbv beta iota zeta delta [inv_mix_columns mix_columns smap].
  by rewrite !inv_mix_column_mix_column.
Qed.

(** ** The inverse cipher undoes the cipher, whatever the round keys *)

Create Rewrite HintDb aes_inverse.
#[local] Hint Rewrite inv_shift_rows_shift_rows inv_sub_bytes_sub_bytes
  add_round_key_involutive inv_mix_columns_mix_columns : aes_inverse.

Lemma rounds_snoc (mids : list state) (kl s : state) :
  rounds (mids ++ [kl]) s
  = final_round kl (fold_left (fun s k => round k s) mids s).
Proof.
  revert s. induction mids as [|k mids IH]; intros s; [done|].
  cbn [app fold_left]. rewrite <- IH.
  by destruct mids.
Qed.

Lemma inv_rounds_snoc (mids : list state) (k0 s : state) :
  inv_rounds (mids ++ [k0]) s
  = inv_final_round k0 (fold_left (fun s k => inv_round k s) mids s).
Proof.
  revert s. induction mids as [|k mids IH]; intros s; [done|].
  cbn [app fold_left]. rewrite <- IH.
  by destruct mids.
Qed.

Lemma inv_round_round (k s : state) :
  inv_round k (shift_rows (sub_bytes (round k s))) = shift_rows (sub_bytes s).
Proof.
  unfold inv_round, round. by autorewrite with aes_inverse.
Qed.

(** Undoing the middle rounds, last one first. *)
Lemma inv_rounds_rounds (mids : list state) (s : state) :
  inv_sub_bytes (inv_shift_rows
    (fold_left (fun s k => inv_round k s) (rev mids)
       (shift_rows (sub_bytes (fold_left (fun s k => round k s) mids s)))))
  = s.
Proof.
  induction mids as [|k mids IH] using rev_ind.
  - cbn [rev fold_left]. by autorewrite with aes_inverse.
  - rewrite rev_app_distr, (fold_left_app _ mids [k]).
    cbn [rev app fold_left]. rewrite inv_round_round. apply IH.
Qed.

Theorem inv_cipher_cipher (rks : list state) (s : state) :
  inv_cipher rks (cipher rks s) = s.
Proof.
  destruct rks as [|k0 rest]; [done|].
  destruct rest as [|k rest _] using rev_ind.
  - cbn. apply add_round_key_involutive.
  - unfold inv_cipher, cipher.
    change (k0 :: rest ++ [k]) with ([k0] ++ rest ++ [k]).
    rewrite !rev_app_distr. cbn [rev app].
    rewrite rounds_snoc, inv_rounds_snoc.
    unfold final_round at 1. rewrite add_round_key_involutive.
    unfold inv_final_round. rewrite inv_rounds_rounds.
    apply add_round_key_involutive.
Qed.

(** ** Cipher block chaining *)

Lemma cbc_decrypt_encrypt (rks : list state) (iv : state) (bl : list state) :
  cbc_decrypt rks iv (cbc_encrypt rks iv bl) = bl.
Proof.
  revert iv. induction bl as [|p bl IH]; intros iv; [done|].
  cbn [cbc_encrypt cbc_decrypt].
  by rewrite inv_cipher_cipher, sxor_cancel_r, IH.
Qed.

(** ** Blocks and bytes *)

Lemma blocks_of_bytes_of_blocks (bl : list state) :
  blocks_of_bytes (bytes_of_blocks bl) = Some bl.
Proof.
  induction bl as [|s bl IH]; [done|].
  destruct s as [[[[[[a0 a1] a2] a3] [[[b0 b1] b2] b3]]
                    [[[c0 c1] c2] c3]] [[[d0 d1] d2] d3]].
  unfold bytes_of_blocks in *. cbn [map concat bytes_of_state bytes_of_word app].
  cbn [blocks_of_bytes]. by rewrite IH.
Qed.

Lemma bytes_of_blocks_of_bytes (bs : list byte) (bl : list state) :
  blocks_of_bytes bs = Some bl -> bytes_of_blocks bl = bs.
Proof.
  revert bl. induction bs as [bs IH] using (induction_ltof1 _ (@length byte)).
  unfold ltof in IH. intros bl.
  do 16 (destruct bs as [|? bs]; [by (intros [= <-] || intros [=])|]).
  cbn [blocks_of_bytes].
  destruct (blocks_of_bytes bs) as [bl'|] eqn:E; [|done].
  intros [= <-]. unfold bytes_of_blocks.
  cbn [map concat bytes_of_state bytes_of_word app].
  do 16 f_equal. apply IH; [cbn [length]; lia | done].
Qed.

(** Data of a whole number of blocks cuts into blocks. *)
Lemma blocks_of_bytes_total (bs : list byte) :
  (length bs mod 16 = 0)%nat -> is_Some (blocks_of_bytes bs).
Proof.
  induction bs as [bs IH] using (induction_ltof1 _ (@length byte)).
  unfold ltof in IH. intros Hlen.
  destruct (decide (length bs < 16)%nat) as [Hlt|Hge].
  - rewrite Nat.mod_small in Hlen by done.
    destruct bs; [by eexists | done].
  - do 16 (destruct bs as [|? bs]; [cbn [length] in Hge; lia|]).
    cbn [blocks_of_bytes].
    destruct (IH bs) as [bl ->]; [cbn [length]; lia | | by eexists].
    cbn [length] in Hlen.
    replace (S (S (S (S (S (S (S (S (S (S (S (S (S (S (S (S (length bs)))))))))))))))))
      with (length bs + 1 * 16)%nat in Hlen by lia.
    by rewrite Nat.Div0.mod_add in Hlen.
Qed.

End CipherFacts.

(** ** PKCS#7 *)

Lemma length_pkcs7_pad (block : nat) (data : list byte) :
  (0 < block)%nat ->
  exists q, length (pkcs7_pad block data) = (q * block)%nat.
Proof.
  intros Hb. unfold pkcs7_pad. rewrite length_app, repeat_length.
  exists (S (length data / block)).
  pose proof (Nat.div_mod_eq (length data) block) as E.
  pose proof (Nat.mod_upper_bound (length data) block). nia.
Qed.

Lemma pkcs7_pad_whole_blocks (data : list byte) :
  (length (pkcs7_pad 16 data) mod 16 = 0)%nat.
Proof.
  destruct (length_pkcs7_pad 16 data) as [q ->]; [lia|].
  apply Nat.Div0.mod_mul.
Qed.

Lemma last_app_repeat {A} (l : list A) (x : A) (n : nat) :
  (0 < n)%nat -> last (l ++ repeat x n) = Some x.
Proof.
  intros Hn. destruct n as [|n]; [lia|].
  replace (repeat x (S n)) with (repeat x n ++ [x]).
  - by rewrite app_assoc, last_snoc.
  - clear. induction n as [|n IH]; [done|]. cbn [repeat app] in *. by rewrite IH.
Qed.

Lemma forallb_repeat {A} (p : A -> bool) (x : A) (n : nat) :
  p x = true -> forallb p (repeat x n) = true.
Proof. intros Hp. induction n as [|n IH]; [done|]. cbn. by rewrite Hp, IH. Qed.

(** Unpadding undoes padding, for every block length a byte can count. *)
Lemma pkcs7_unpad_pad (block : nat) (data : list byte) :
  (0 < block < 256)%nat ->
  pkcs7_unpad block (pkcs7_pad block data) = Some data.
Proof.
  intros Hb.
  destruct (length_pkcs7_pad block data) as [q Hq]; [lia|].
  unfold pkcs7_unpad. rewrite Hq, Nat.Div0.mod_mul.
  unfold pkcs7_pad in *.
  pose proof (Nat.mod_upper_bound (length data) block) as Hm.
  set (n := (block - length data mod block)%nat) in *.
  assert (Hn : (1 <= n <= block)%nat) by lia.
  rewrite last_app_repeat by lia.
  rewrite to_N_byte_of_N by lia. rewrite Nat2N.id.
  rewrite <- Hq, length_app, repeat_length.
  replace (length data + n - n)%nat with (length data) by lia.
  rewrite drop_app_length, take_app_length.
  rewrite forallb_repeat by apply byte_eqb_refl.
  replace (1 <=? n)%nat with true by (symmetry; apply Nat.leb_le; lia).
  replace (n <=? block)%nat with true by (symmetry; apply Nat.leb_le; lia).
  done.
Qed.

(** ** Base64 *)

Section Base64Facts.
Import Base64.

Lemma value_char (n : N) :
  (n < 64)%N -> value (char n) = Some n /\ is_pad (char n) = false.
Proof.
  intros Hn.
  assert (H : forall b : byte,
    (if (Byte.to_N b <? 64)%N
     then match value (char (Byte.to_N b)) with
          | Some v => (v =? Byte.to_N b)%N
          | None => false
          end && negb (is_pad (char (Byte.to_N b)))
     else true) = true).
  { apply forall_byte. vm_compute. reflexivity. }
  specialize (H (byte_of_N n)).
  rewrite to_N_byte_of_N in H by lia.
  apply N.ltb_lt in Hn. rewrite Hn in H.
  destruct (value (char n)) as [v|]; [|done].
  apply andb_true_iff in H as [H1 H2].
  apply N.eqb_eq in H1. apply negb_true_iff in H2. by subst.
Qed.

Lemma sextets_bound (x y z : N) :
  (x < 256 -> y < 256 -> z < 256 ->
   x / 4 < 64 /\ x mod 4 * 16 + y / 16 < 64
   /\ y mod 16 * 4 + z / 64 < 64 /\ z mod 64 < 64
   /\ x mod 4 * 16 < 64 /\ y mod 16 * 4 < 64)%N.
Proof. intros. repeat split; zify; Z.to_euclidean_division_equations; lia. Qed.

Lemma sextets_join (x y z : N) :
  (x < 256 -> y < 256 -> z < 256 ->
   x / 4 * 4 + (x mod 4 * 16 + y / 16) / 16 = x
   /\ (x mod 4 * 16 + y / 16) mod 16 * 16 + (y mod 16 * 4 + z / 64) / 4 = y
   /\ (y mod 16 * 4 + z / 64) mod 4 * 64 + z mod 64 = z)%N.
Proof. intros. repeat split; zify; Z.to_euclidean_division_equations; lia. Qed.

Lemma urlsafe_b64decode_encode (bs : list byte) :
  urlsafe_b64decode (urlsafe_b64encode bs) = Some bs.
Proof.
  induction bs as [bs IH] using (induction_ltof1 _ (@length byte)).
  unfold ltof in IH.
  destruct bs as [|a [|b [|c rest]]]; [done| | |].
  - pose proof (Byte.to_N_bounded a) as Ba.
    destruct (sextets_bound (Byte.to_N a) 0 0) as (H1 & H2 & _); [lia..|].
    destruct (sextets_join (Byte.to_N a) 0 0) as (J1 & _); [lia..|].
    rewrite N.add_0_r in H2, J1.
    cbn [urlsafe_b64encode urlsafe_b64decode].
    destruct (value_char _ H1) as [-> _], (value_char _ H2) as [-> _].
    change (is_pad "=") with true. cbv iota.
    by rewrite J1, byte_of_N_to_N.
  - pose proof (Byte.to_N_bounded a) as Ba. pose proof (Byte.to_N_bounded b) as Bb.
    destruct (sextets_bound (Byte.to_N a) (Byte.to_N b) 0)
      as (H1 & H2 & H3 & _); [lia..|].
    destruct (sextets_join (Byte.to_N a) (Byte.to_N b) 0)
      as (J1 & J2 & _); [lia..|].
    rewrite N.add_0_r in H3, J2.
    cbn [urlsafe_b64encode urlsafe_b64decode].
    destruct (value_char _ H1) as [-> _], (value_char _ H2) as [-> _],
             (value_char _ H3) as [-> ->].
    change (is_pad "=") with true. cbv iota.
    by rewrite J1, J2, !byte_of_N_to_N.
  - pose proof (Byte.to_N_bounded a) as Ba. pose proof (Byte.to_N_bounded b) as Bb.
    pose proof (Byte.to_N_bounded c) as Bc.
    destruct (sextets_bound (Byte.to_N a) (Byte.to_N b) (Byte.to_N c))
      as (H1 & H2 & H3 & H4 & _); [lia..|].
    destruct (sextets_join (Byte.to_N a) (Byte.to_N b) (Byte.to_N c))
      as (J1 & J2 & J3); [lia..|].
    cbn [urlsafe_b64encode urlsafe_b64decode].
    destruct (value_char _ H1) as [-> _], (value_char _ H2) as [-> _],
             (value_char _ H3) as [-> ->], (value_char _ H4) as [-> ->].
    rewrite IH by (cbn [length]; lia).
    by rewrite J1, J2, J3, !byte_of_N_to_N.
Qed.

End Base64Facts.

(** ** Key derivation *)

Lemma derived_key_eq (password salt_used : string) :
  derived_key password salt_used
  = Some (take 16 (Sha1.digest (list_byte_of_string (password +:+ salt_used)))).
Proof. unfold derived_key. by rewrite hexdigest_prefix, fromhex_hex_of_bytes. Qed.

Lemma length_derived_key (password salt_used : string) (key : list byte) :
  derived_key password salt_used = Some key -> length key = 16%nat.
Proof.
  rewrite derived_key_eq. intros H. apply (inj Some) in H. subst key.
  by rewrite length_take, length_sha1_digest.
Qed.

Lemma generate_encryption_key_derived (password : string) (salt : option string) :
  exists key : list byte,
    _generate_encryption_key password salt = Ok key
    /\ length key = 16%nat
    /\ derived_key password (effective_salt salt) = Some key.
Proof.
  exists (take 16 (Sha1.digest
                     (list_byte_of_string (password +:+ effective_salt salt)))).
  split; [apply generate_encryption_key_eq|].
  split; [|apply derived_key_eq].
  by rewrite length_take, length_sha1_digest.
Qed.

(** C2, as amended. For every password and every optional salt the key
    derivation returns a key (it raises nothing), the key is 16 bytes
    long, and it is the bytes decoded from the first 32 hexadecimal
    characters of the SHA-1 digest of the password followed by the salt
    when a non-empty salt is given, and by the constant [SALT] when the
    salt is absent or empty. The key is a function of the password and
    the salt alone: the embedding takes nothing else. *)
Theorem generate_encryption_key_spec (password : string) (salt : option string) :
  exists key : list byte,
    _generate_encryption_key password salt = Ok key
    /\ length key = 16%nat
    /\ derived_key password (effective_salt salt) = Some key.
Proof. apply generate_encryption_key_derived. Qed.

(** C2, as stated, fails on the empty salt: the claim appends the salt
    given, which is empty, and the code appends [SALT]; the two keys
    differ. *)
Lemma generate_encryption_key_empty_salt :
  exists key_of_code key_of_claim : list byte,
    _generate_encryption_key "a" (Some EmptyString) = Ok key_of_code
    /\ derived_key "a" SALT = Some key_of_code
    /\ derived_key "a" (salt_as_stated (Some EmptyString)) = Some key_of_claim
    /\ key_of_code <> key_of_claim.
Proof.
  eexists _, _. split; [vm_compute; reflexivity|].
  split; [vm_compute; reflexivity|].
  split; [vm_compute; reflexivity|].
  discriminate.
Qed.

(** C10. The empty salt gives the key that no salt gives; both are the
    16 bytes derived from the password followed by [SALT]; and a salt of
    at least one character is the one appended. *)
Theorem falsy_salt_selects_fallback (password : string) :
  _generate_encryption_key password (Some EmptyString)
  = _generate_encryption_key password None
  /\ (exists key : list byte,
        _generate_encryption_key password None = Ok key
        /\ length key = 16%nat
        /\ derived_key password SALT = Some key)
  /\ (forall (c : ascii) (s : string),
        exists key : list byte,
          _generate_encryption_key password (Some (String c s)) = Ok key
          /\ length key = 16%nat
          /\ derived_key password (String c s) = Some key).
Proof.
  split; [reflexivity|]. split.
  - apply (generate_encryption_key_derived password None).
  - intros c s.
    apply (generate_encryption_key_derived password (Some (String c s))).
Qed.

(** ** Encryption *)

Lemma aes_round_keys_16 (key : list byte) :
  length key = 16%nat -> aes_round_keys key = Ok (Aes.key_expansion key).
Proof. intros H. unfold aes_round_keys. by rewrite H. Qed.

Lemma cbc_iv_16 (iv : list byte) :
  length iv = 16%nat -> cbc_iv iv = Ok (Aes.state_of_bytes iv).
Proof. intros H. unfold cbc_iv. by rewrite H. Qed.

(** With a key and an iv that the cipher accepts, [_encrypt] returns the
    base64 text of the chained encryption of the padded data. *)
Lemma encrypt_eq (key iv : list byte) (rks : list Aes.state) (prev : Aes.state)
  (data : string) :
  aes_round_keys key = Ok rks -> cbc_iv iv = Ok prev ->
  exists blocks : list Aes.state,
    Aes.blocks_of_bytes (pkcs7_pad 16 (list_byte_of_string data)) = Some blocks
    /\ _encrypt key iv data
       = Ok (Base64.urlsafe_b64encode
               (Aes.bytes_of_blocks (Aes.cbc_encrypt rks prev blocks))).
Proof.
  intros Hk Hiv.
  destruct (blocks_of_bytes_total (pkcs7_pad 16 (list_byte_of_string data)))
    as [blocks Hb]; [apply pkcs7_pad_whole_blocks|].
  exists blocks. split; [done|].
  unfold _encrypt. rewrite Hk, Hiv. cbn [mbind result_bind].
  change (AES_block_size / 8)%nat with 16%nat. by rewrite Hb.
Qed.

(** Decryption undoes [_encrypt], for every key and iv the cipher accepts
    and every plaintext. *)
Lemma decrypt_encrypt (key iv : list byte) (rks : list Aes.state)
  (prev : Aes.state) (data : string) :
  aes_round_keys key = Ok rks -> cbc_iv iv = Ok prev ->
  exists ciphertext : string,
    _encrypt key iv data = Ok ciphertext
    /\ decrypt key iv ciphertext = Ok data.
Proof.
  intros Hk Hiv.
  destruct (encrypt_eq key iv rks prev data Hk Hiv) as (blocks & Hb & ->).
  eexists. split; [reflexivity|].
  unfold decrypt. rewrite Hk, Hiv. cbn [mbind result_bind].
  rewrite urlsafe_b64decode_encode, blocks_of_bytes_of_blocks.
  rewrite cbc_decrypt_encrypt, (bytes_of_blocks_of_bytes _ _ Hb).
  change (AES_block_size / 8)%nat with 16%nat.
  rewrite pkcs7_unpad_pad by lia.
  by rewrite string_of_list_byte_of_string.
Qed.

(** C3. For every key of 16 bytes, every iv of 16 bytes and every
    plaintext whose UTF-8 text is 0, 1, 15, 16 or 17 bytes long,
    [_encrypt] returns a ciphertext, and decrypting it (URL-safe base64
    decoding, AES-128-CBC decryption under the same key and iv, removal of
    the PKCS#7 padding) gives back the plaintext. *)
Theorem encrypt_then_decrypt (key iv : list byte) (plaintext : string) :
  length key = 16%nat ->
  length iv = 16%nat ->
  length (list_byte_of_string plaintext) ∈ [0; 1; 15; 16; 17]%nat ->
  exists ciphertext : string,
    _encrypt key iv plaintext = Ok ciphertext
    /\ decrypt key iv ciphertext = Ok plaintext.
Proof.
  intros Hk Hiv _.
  eapply decrypt_encrypt; [by apply aes_round_keys_16 | by apply cbc_iv_16].
Qed.

Lemma encrypt_then_decrypt_witness :
  exists ciphertext : string,
    _encrypt (repeat x2a 16) (repeat x07 16) "fifteen bytes.." = Ok ciphertext
    /\ decrypt (repeat x2a 16) (repeat x07 16) ciphertext = Ok "fifteen bytes.."%string.
Proof.
  apply (encrypt_then_decrypt (repeat x2a 16) (repeat x07 16) "fifteen bytes..").
  - reflexivity.
  - reflexivity.
  - vm_compute. repeat constructor.
Defined.

(** ** The payload *)

Lemma encrypt_ok (key iv : list byte) (data : string) :
  length key = 16%nat -> length iv = 16%nat ->
  exists ciphertext : string, _encrypt key iv data = Ok ciphertext.
Proof.
  intros Hk Hiv.
  destruct (encrypt_eq key iv _ _ data (aes_round_keys_16 _ Hk) (cbc_iv_16 _ Hiv))
    as (blocks & _ & ->).
  by eexists.
Qed.

Lemma append_nil_r (s : string) : s +:+ "" = s.
Proof. induction s as [|c s IH]; [done|]. by rewrite append_cons, IH. Qed.

Lemma append_assoc (s t u : string) : (s +:+ t) +:+ u = s +:+ (t +:+ u).
Proof. induction s as [|c s IH]; [done|]. by rewrite !append_cons, IH. Qed.

Lemma iv_hex_loop_eq (iv : list byte) : iv_hex_loop iv = hex_of_bytes iv.
Proof.
  unfold iv_hex_loop.
  assert (H : forall acc, fold_left (fun iv_hex b => iv_hex +:+ hex2 b) iv acc
                          = acc +:+ hex_of_bytes iv).
  { induction iv as [|b iv IH]; intros acc; cbn [fold_left hex_of_bytes].
    - by rewrite append_nil_r.
    - by rewrite IH, append_assoc. }
  by rewrite H.
Qed.

Lemma length_upper (s : string) : String.length (upper s) = String.length s.
Proof. induction s as [|c s IH]; [done|]. cbn. by rewrite IH. Qed.

Lemma upper_hex2_digits (b : byte) :
  hex_value (upper_ascii (hex_digit (Byte.to_N b / 16)))
  = Some (Byte.to_N b / 16)%N
  /\ hex_value (upper_ascii (hex_digit (Byte.to_N b mod 16)))
     = Some (Byte.to_N b mod 16)%N.
Proof. destruct b; vm_compute; done. Qed.

(** The uppercase hexadecimal text of some bytes decodes to them. *)
Lemma fromhex_upper_hex_of_bytes (bs : list byte) :
  fromhex (upper (hex_of_bytes bs)) = Some bs.
Proof.
  induction bs as [|b bs IH]; [done|].
  cbn [hex_of_bytes]. unfold hex2.
  rewrite !append_cons, append_nil. cbn [upper fromhex].
  destruct (upper_hex2_digits b) as [-> ->]. rewrite IH.
  rewrite <- N.div_mod'. by rewrite byte_of_N_to_N.
Qed.

Lemma generate_iv_eq (w : world) :
  _generate_iv w = (map (entropy w) (seq 0 16), (urandom 16 w).2).
Proof. reflexivity. Qed.

Lemma length_generate_iv (w : world) : length (_generate_iv w).1 = 16%nat.
Proof. rewrite generate_iv_eq. cbn [fst]. by rewrite length_map, length_seq. Qed.

Lemma truthy_str_true (o : option string) :
  truthy_str o = true <-> exists s, o = Some s /\ s <> EmptyString.
Proof.
  destruct o as [s|]; cbn.
  - rewrite negb_true_iff. split.
    + intros H. exists s. split; [done|]. by apply String.eqb_neq.
    + intros (s' & [= <-] & Hs). by apply String.eqb_neq.
  - split; [done | by intros (s & [=] & _)].
Qed.

Lemma update_opt_lookup_ne (k k' : string) (v : option string)
  (m : gmap string pyval) :
  k <> k' -> update_opt k v m !! k' = m !! k'.
Proof.
  intros Hk. unfold update_opt.
  destruct v as [s|]; [|done]. destruct (negb _); [|done].
  by rewrite lookup_insert_ne.
Qed.

Lemma update_opt_lookup (k : string) (s : string) (m : gmap string pyval) :
  s <> EmptyString -> update_opt k (Some s) m !! k = Some (PStr s).
Proof.
  intros Hs. unfold update_opt. apply String.eqb_neq in Hs. rewrite Hs.
  cbn [negb]. by rewrite lookup_insert_eq.
Qed.

Lemma update_opt_falsy (k : string) (v : option string) (m : gmap string pyval) :
  truthy_str v = false -> update_opt k v m = m.
Proof.
  unfold update_opt, truthy_str. destruct v as [s|]; [|done]. by intros ->.
Qed.

(** The payload of the encrypted branch, one update after the other. *)
Lemma generate_payload_encrypted (key : string) (title : option string)
  (message : string) (event : option string) (actions : pyval)
  (password : string) (salt : option string) (w : world) :
  password <> EmptyString ->
  exists (encryption_key : list byte) (c_msg : string) (with_title :
    gmap string pyval),
    let iv := (_generate_iv w).1 in
    let base : gmap string pyval :=
      <["iv" := PStr (upper (hex_of_bytes iv))]>
        (<["encrypted" := PStr "true"]> {[ "key" := PStr key ]}) in
    _generate_encryption_key password salt = Ok encryption_key
    /\ _encrypt encryption_key iv message = Ok c_msg
    /\ (if truthy_str title
        then exists c_title,
               _encrypt encryption_key iv (default EmptyString title)
               = Ok c_title
               /\ with_title = <["title" := PStr c_title]> base
        else with_title = base)
    /\ _generate_payload key title message event actions (Some password) salt w
       = (Ok (with_actions actions
                (<["msg" := PStr c_msg]> (update_opt "event" event with_title))),
          (_generate_iv w).2).
Proof.
  intros Hpw.
  destruct (generate_encryption_key_derived password salt) as (k & Hk & Hlen & _).
  pose proof (length_generate_iv w) as Hiv.
  destruct (encrypt_ok k (_generate_iv w).1 message Hlen Hiv) as [c_msg Hm].
  destruct (encrypt_ok k (_generate_iv w).1 (default EmptyString title) Hlen Hiv)
    as [c_title Ht].
  exists k, c_msg.
  exists (if truthy_str title
          then <["title" := PStr c_title]>
                 (<["iv" := PStr (upper (hex_of_bytes (_generate_iv w).1))]>
                    (<["encrypted" := PStr "true"]> {[ "key" := PStr key ]}))
          else <["iv" := PStr (upper (hex_of_bytes (_generate_iv w).1))]>
                 (<["encrypted" := PStr "true"]> {[ "key" := PStr key ]})).
  cbv zeta. split; [done|]. split; [done|].
  unfold _generate_payload.
  assert (Htr : truthy_str (Some password) = true).
  { apply truthy_str_true. by exists password. }
  rewrite Htr. cbn [negb].
  change (default EmptyString (Some password)) with password. rewrite Hk.
  rewrite (surjective_pairing (_generate_iv w)).
  rewrite iv_hex_loop_eq, Hm.
  destruct (truthy_str title) eqn:Etitle.
  - rewrite Ht. cbn [mbind result_bind]. split; [|reflexivity].
    exists c_title. split; [done | reflexivity].
  - cbn [mbind result_bind]. split; reflexivity.
Qed.

(** The payload of the plain branch. *)
Lemma generate_payload_plain (key : string) (title : option string)
  (message : string) (event : option string) (actions : pyval)
  (password salt : option string) (w : world) :
  truthy_str password = false ->
  _generate_payload key title message event actions password salt w
  = (Ok (with_actions actions
           (update_opt "event" event
              (update_opt "title" title
                 (<["msg" := PStr message]> {[ "key" := PStr key ]})))), w).
Proof. intros H. unfold _generate_payload. by rewrite H. Qed.

Lemma with_actions_lookup_ne (k : string) (actions : pyval)
  (m : gmap string pyval) :
  k <> "actions"%string -> with_actions actions m !! k = m !! k.
Proof.
  intros Hk. unfold with_actions.
  destruct (truthy actions); [|done]. by rewrite lookup_insert_ne.
Qed.

(** [_generate_payload] always returns a payload. *)
Lemma generate_payload_ok (key : string) (title : option string)
  (message : string) (event : option string) (actions : pyval)
  (password salt : option string) (w : world) :
  exists (payload : gmap string pyval) (w' : world),
    _generate_payload key title message event actions password salt w
    = (Ok (with_actions actions payload), w').
Proof.
  destruct (truthy_str password) eqn:E.
  - apply truthy_str_true in E as (pw & -> & Hpw).
    destruct (generate_payload_encrypted key title message event actions
                pw salt w Hpw) as (k & c & wt & _ & _ & _ & ->).
    by do 2 eexists.
  - rewrite generate_payload_plain by done. by do 2 eexists.
Qed.

(** C4, as amended. When a non-empty password is given, [_generate_payload]
    draws one iv of 16 bytes from [os.urandom] (the world it leaves is the
    one after that single draw) and returns a payload in which
    ['encrypted'] is ["true"]; ['iv'] is the uppercase hexadecimal text of
    that iv, 32 characters that decode to it; ['msg'] is the message
    encrypted under the derived key and that iv; ['title'], when a
    non-empty title is given, is the title encrypted under the same key
    and iv; and ['event'], when a non-empty event is given, is the event
    itself. *)
Theorem generate_payload_encrypted_fields (key : string)
  (title : option string) (message : string) (event : option string)
  (actions : pyval) (password : string) (salt : option string) (w : world) :
  password <> EmptyString ->
  exists (payload : gmap string pyval) (encryption_key iv : list byte),
    _generate_payload key title message event actions (Some password) salt w
    = (Ok payload, (urandom 16 w).2)
    /\ iv = (urandom 16 w).1
    /\ length iv = 16%nat
    /\ _generate_encryption_key password salt = Ok encryption_key
    /\ payload !! "encrypted" = Some (PStr "true")
    /\ (exists iv_hex : string,
          payload !! "iv" = Some (PStr iv_hex)
          /\ iv_hex = upper (hex_of_bytes iv)
          /\ String.length iv_hex = 32%nat
          /\ fromhex iv_hex = Some iv)
    /\ (exists c_msg : string,
          _encrypt encryption_key iv message = Ok c_msg
          /\ payload !! "msg" = Some (PStr c_msg))
    /\ (forall t : string,
          title = Some t -> t <> EmptyString ->
          exists c_title : string,
            _encrypt encryption_key iv t = Ok c_title
            /\ payload !! "title" = Some (PStr c_title))
    /\ (forall e : string,
          event = Some e -> e <> EmptyString ->
          payload !! "event" = Some (PStr e)).
Proof.
  intros Hpw.
  destruct (generate_payload_encrypted key title message event actions
              password salt w Hpw) as (k & c_msg & wt & Hk & Hm & Ht & Hp).
  cbv zeta in *. change (_generate_iv w) with (urandom 16 w) in *.
  pose proof (length_generate_iv w) as Hlen.
  change (_generate_iv w) with (urandom 16 w) in Hlen.
  set (iv := (urandom 16 w).1) in *.
  eexists _, k, iv. split; [exact Hp|].
  do 3 (split; [done|]).
  assert (Hbase : forall f : string,
            f <> "title"%string -> wt !! f
            = (<["iv" := PStr (upper (hex_of_bytes iv))]>
                 (<["encrypted" := PStr "true"]>
                    ({[ "key" := PStr key ]} : gmap string pyval))) !! f).
  { intros f Hf. destruct (truthy_str title).
    - destruct Ht as (c & _ & ->). by rewrite lookup_insert_ne.
    - by rewrite Ht. }
  split; [|split; [|split; [|split]]].
  - rewrite with_actions_lookup_ne, lookup_insert_ne by done.
    rewrite update_opt_lookup_ne, Hbase by done. done.
  - exists (upper (hex_of_bytes iv)). split; [|split; [done|split]].
    + rewrite with_actions_lookup_ne, lookup_insert_ne by done.
      rewrite update_opt_lookup_ne, Hbase by done. done.
    + by rewrite length_upper, length_hex_of_bytes, Hlen.
    + apply fromhex_upper_hex_of_bytes.
  - exists c_msg. split; [done|].
    rewrite with_actions_lookup_ne by done. by rewrite lookup_insert_eq.
  - intros t -> Hne.
    assert (Htr : truthy_str (Some t) = true).
    { apply truthy_str_true. by exists t. }
    rewrite Htr in Ht. destruct Ht as (c & Hc & ->).
    exists c. split; [done|].
    rewrite with_actions_lookup_ne, lookup_insert_ne by done.
    rewrite update_opt_lookup_ne by done. by rewrite lookup_insert_eq.
  - intros e -> Hne.
    rewrite with_actions_lookup_ne, lookup_insert_ne by done.
    by rewrite update_opt_lookup.
Qed.

Lemma generate_payload_encrypted_fields_witness :
  exists (payload : gmap string pyval) (encryption_key iv : list byte),
    _generate_payload "k" (Some "t"%string) "m" (Some "e"%string) PNone
      (Some "p"%string) None (quiet_world (Response true ∅) [])
    = (Ok payload, (urandom 16 (quiet_world (Response true ∅) [])).2)
    /\ iv = (urandom 16 (quiet_world (Response true ∅) [])).1
    /\ length iv = 16%nat
    /\ _generate_encryption_key "p" None = Ok encryption_key
    /\ payload !! "encrypted" = Some (PStr "true")
    /\ (exists iv_hex : string,
          payload !! "iv" = Some (PStr iv_hex)
          /\ iv_hex = upper (hex_of_bytes iv)
          /\ String.length iv_hex = 32%nat
          /\ fromhex iv_hex = Some iv)
    /\ (exists c_msg : string,
          _encrypt encryption_key iv "m" = Ok c_msg
          /\ payload !! "msg" = Some (PStr c_msg))
    /\ (forall t : string,
          Some "t"%string = Some t -> t <> EmptyString ->
          exists c_title : string,
            _encrypt encryption_key iv t = Ok c_title
            /\ payload !! "title" = Some (PStr c_title))
    /\ (forall e : string,
          Some "e"%string = Some e -> e <> EmptyString ->
          payload !! "event" = Some (PStr e)).
Proof.
  apply (generate_payload_encrypted_fields "k" (Some "t"%string) "m"
           (Some "e"%string) PNone "p" None (quiet_world (Response true ∅) [])).
  discriminate.
Defined.

(** C4, as stated, fails on empty strings: with an empty title and an
    empty event given, the payload has neither key; with an empty password
    given, the payload is the plain one. *)
Lemma generate_payload_empty_strings :
  payload_field "title"
    (_generate_payload "k" (Some EmptyString) "m" (Some EmptyString) PNone
       (Some "p"%string) None (quiet_world (Response true ∅) []))
  = Ok None
  /\ payload_field "event"
       (_generate_payload "k" (Some EmptyString) "m" (Some EmptyString) PNone
          (Some "p"%string) None (quiet_world (Response true ∅) []))
     = Ok None
  /\ payload_field "encrypted"
       (_generate_payload "k" None "m" None PNone
          (Some EmptyString) None (quiet_world (Response true ∅) []))
     = Ok None
  /\ payload_field "msg"
       (_generate_payload "k" None "m" None PNone
          (Some EmptyString) None (quiet_world (Response true ∅) []))
     = Ok (Some (PStr "m")).
Proof. repeat split; vm_compute; reflexivity. Qed.

(** C9, as amended. For every request whose actions pass [_check_actions]
    and are a non-empty list, [_generate_payload] returns a payload whose
    ['actions'] is that list, unchanged. *)
Theorem generate_payload_actions (key : string) (title : option string)
  (message : string) (event : option string) (first : pyval)
  (others : list pyval) (password salt : option string) (w : world) :
  _check_actions (PList (first :: others)) = Ok tt ->
  payload_field "actions"
    (_generate_payload key title message event (PList (first :: others))
       password salt w)
  = Ok (Some (PList (first :: others))).
Proof.
  intros _.
  destruct (generate_payload_ok key title message event
              (PList (first :: others)) password salt w) as (p & w' & ->).
  unfold payload_field, with_actions. cbn [fst truthy mbind result_bind].
  by rewrite lookup_insert_eq.
Qed.

Lemma generate_payload_actions_witness :
  payload_field "actions"
    (_generate_payload "k" None "m" None (PList [PStr "yes"; PStr "no"])
       None None (quiet_world (Response true ∅) []))
  = Ok (Some (PList [PStr "yes"; PStr "no"])).
Proof.
  apply (generate_payload_actions "k" None "m" None (PStr "yes") [PStr "no"]
           None None (quiet_world (Response true ∅) [])).
  reflexivity.
Defined.

(** C9, as stated, fails on the empty list, which passes the check and
    leaves no ['actions'] in the payload. *)
Lemma generate_payload_empty_actions :
  _check_actions (PList []) = Ok tt
  /\ payload_field "actions"
       (_generate_payload "k" None "m" None (PList []) None None
          (quiet_world (Response true ∅) []))
     = Ok None.
Proof. split; vm_compute; reflexivity. Qed.

(** ** The check of the actions *)

Lemma check_actions_none : _check_actions PNone = Ok tt.
Proof. reflexivity. Qed.

Lemma check_actions_empty : _check_actions (PList []) = Ok tt.
Proof. reflexivity. Qed.

(** Whatever is neither [None] nor a list is refused. *)
Lemma check_actions_not_list (actions : pyval) :
  actions <> PNone -> isinstance_list actions = false ->
  _check_actions actions = Raise (ValueError "Actions malformed").
Proof. by destruct actions. Qed.

(** A list that starts with a string passes when all its elements are
    strings, and is refused otherwise. *)
Lemma check_actions_string_first (s : string) (rest : list pyval) :
  _check_actions (PList (PStr s :: rest))
  = if all_str rest then Ok tt
    else Raise (ValueError "Feedback actions malformed").
Proof.
  unfold _check_actions, all_str. cbn [isinstance_str forallb andb].
  by destruct (forallb isinstance_str rest).
Qed.

Lemma check_actions_strings (els : list pyval) :
  Forall (fun el => isinstance_str el = true) els ->
  _check_actions (PList els) = Ok tt.
Proof.
  intros H. destruct H as [|el els Hel Hels]; [done|].
  destruct el; try done. rewrite check_actions_string_first.
  replace (all_str els) with true; [done|].
  symmetry. apply forallb_forall. intros x Hx.
  rewrite Forall_forall in Hels. apply Hels. by apply list_elem_of_In.
Qed.

Lemma all_name_url_mappings (els : list pyval) :
  Forall has_name_url els -> all_name_url els = Ok true.
Proof.
  induction 1 as [|el els (d & -> & Hn & Hu) _ IH]; [done|].
  cbn [all_name_url in_keys mbind result_bind].
  rewrite !bool_decide_eq_true_2 by done. cbn [mbind result_bind andb]. done.
Qed.

Lemma check_actions_mappings (els : list pyval) :
  Forall has_name_url els -> _check_actions (PList els) = Ok tt.
Proof.
  intros H. pose proof (all_name_url_mappings els H) as Hall.
  destruct H as [|el els (d & -> & _) _]; [done|].
  cbn [_check_actions isinstance_str]. by rewrite Hall.
Qed.

(** On dicts the test of the keys raises nothing, and a list of dicts one
    of which lacks a key is refused. *)
Lemma all_name_url_dicts (ds : list (gmap string pyval)) :
  all_name_url (PDict <$> ds)
  = Ok (forallb (fun d => bool_decide (is_Some (d !! "name"))
                          && bool_decide (is_Some (d !! "url"))) ds).
Proof.
  induction ds as [|d ds IH]; [done|].
  cbn [fmap list_fmap all_name_url in_keys mbind result_bind forallb].
  destruct (bool_decide (is_Some (d !! "name"))); cbn [mbind result_bind andb];
    [|done].
  destruct (bool_decide (is_Some (d !! "url"))); cbn [mbind result_bind andb];
    [|done].
  apply IH.
Qed.

Lemma check_actions_dicts (d : gmap string pyval) (ds : list (gmap string pyval)) :
  _check_actions (PList (PDict <$> d :: ds))
  = if forallb (fun d => bool_decide (is_Some (d !! "name"))
                         && bool_decide (is_Some (d !! "url"))) (d :: ds)
    then Ok tt else Raise (ValueError "Get actions malformed").
Proof.
  change (PDict <$> d :: ds) with (PDict d :: (PDict <$> ds)).
  cbn [_check_actions isinstance_str].
  change (PDict d :: (PDict <$> ds)) with (PDict <$> d :: ds).
  rewrite all_name_url_dicts. cbn [mbind result_bind].
  by destruct (forallb _ _).
Qed.

(** C5 at its failing input: a list whose first element is a mapping with
    both keys and whose second element is a string is not refused with
    [ValueError]: the test of the keys raises [AttributeError] on the
    string. *)
Theorem check_actions_mapping_then_string :
  _check_actions
    (PList [PDict {[ "name" := PStr "n"; "url" := PStr "u" ]}; PStr "a"])
  = Raise (AttributeError "keys").
Proof. vm_compute. reflexivity. Qed.

Example check_actions_number :
  _check_actions (PList [PInt 5]) = Raise (AttributeError "keys").
Proof. reflexivity. Qed.

(** The examples of the specification. *)
Example check_actions_spec_examples :
  _check_actions PNone = Ok tt
  /\ _check_actions (PList []) = Ok tt
  /\ _check_actions (PList [PStr "a"; PStr "b"]) = Ok tt
  /\ _check_actions (PList [PDict {[ "name" := PStr "n"; "url" := PStr "u" ]}])
     = Ok tt
  /\ _check_actions (PStr "not-a-list") = Raise (ValueError "Actions malformed")
  /\ _check_actions
       (PList [PStr "a"; PDict {[ "name" := PStr "n"; "url" := PStr "u" ]}])
     = Raise (ValueError "Feedback actions malformed")
  /\ _check_actions (PList [PDict {[ "name" := PStr "n" ]}])
     = Raise (ValueError "Get actions malformed").
Proof. repeat split; vm_compute; reflexivity. Qed.

(** ** The response to the [POST] *)

Lemma handle_envelope_bad_request (json : gmap string pyval)
  (cb : option callback) (timeout : option Z) (w : world) :
  json !! "status" = Some (PStr "BadRequest") ->
  json !! "message" = Some (PStr "Title or message too long") ->
  handle_envelope json cb timeout w = (Raises BadRequest, w).
Proof.
  intros Hs Hm. unfold handle_envelope, getitem. by rewrite Hs, Hm.
Qed.

(** Any other status than ["OK"] gives [UnknownError], provided the
    envelope holds a message when its status is ["BadRequest"]. *)
Lemma handle_envelope_unknown_error (json : gmap string pyval)
  (status : pyval) (cb : option callback) (timeout : option Z) (w : world) :
  json !! "status" = Some status ->
  eq_str status "OK" = false ->
  (eq_str status "BadRequest" = true ->
   exists message, json !! "message" = Some message
                   /\ eq_str message "Title or message too long" = false) ->
  handle_envelope json cb timeout w = (Raises UnknownError, w).
Proof.
  intros Hs Hok Hm. unfold handle_envelope, getitem. rewrite Hs.
  cbn [mbind result_bind].
  destruct (eq_str status "BadRequest").
  - destruct Hm as (m & Hm1 & Hm2); [done|].
    rewrite Hm1. cbn [mbind result_bind]. rewrite Hm2. by rewrite Hok.
  - by rewrite Hok.
Qed.

(** C6 at its failing input: on the envelope [{"status": "BadRequest"}],
    which holds no message, neither handler raises [UnknownError]: the
    subscript [['message']] raises [KeyError], and so does [send]. *)
Theorem handle_response_bad_request_without_message :
  forall (cb : option callback) (timeout : option Z) (w : world) (ok : bool),
    _handle_response_aio {[ "status" := PStr "BadRequest" ]} cb timeout w
    = (Raises (KeyError "message"), w)
    /\ _handle_response (Response ok {[ "status" := PStr "BadRequest" ]})
         cb timeout w
       = (Raises (KeyError "message"), w)
    /\ (send (Some "k"%string) (Some "m"%string) None None PNone cb timeout
          (quiet_world (Response ok {[ "status" := PStr "BadRequest" ]}) [])).1
       = Raises (KeyError "message").
Proof.
  intros cb timeout w ok. repeat split.
Qed.

(** ** The polling loop *)

(** One turn on a pending response: the clock is read when a timeout is
    set, and the turn either raises the timeout or sleeps. *)
Lemma poll_turn_pending (feedback_id : string) (cb : callback)
  (timeout : option Z) (start n : Z) (resp : response) (w : world) :
  pending resp = true ->
  poll_turn feedback_id cb timeout start n resp w
  = if timeout_set timeout then
      if (time w).1 >? start + default 0 timeout
      then (Throw (FeedbackActionTimeout (timeout_message feedback_id)),
            (time w).2)
      else (Again, log (Sleep (scheduled_sleep n)) (time w).2)
    else (Again, log (Sleep (scheduled_sleep n)) w).
Proof.
  unfold pending, poll_turn, getitem. intros H.
  apply andb_true_iff in H as [-> H].
  destruct (resp_json resp !! "success") as [success|]; [|done].
  destruct (resp_json resp !! "action_selected") as [selected|]; [|done].
  apply andb_true_iff in H as [Hs H]. apply negb_true_iff in H.
  cbn [mbind result_bind]. rewrite Hs, H.
  unfold timeout_set, scheduled_sleep, timeout_message.
  destruct timeout as [t|].
  - change (default 0 (Some t)) with t.
    destruct (negb (t =? 0)); cbn [time fst snd].
    + destruct (clock w 0 >? start + t); [done|].
      by destruct (n <? 60), (n <? 260).
    + by destruct (n <? 60), (n <? 260).
  - by destruct (n <? 60), (n <? 260).
Qed.

(** While the responses are pending and no timeout is set, the loop only
    asks and sleeps, the sleep being the one of turn [n], which no turn
    changes. *)
Lemma poll_loop_pending_no_timeout (feedback_id : string) (cb : callback)
  (timeout : option Z) (start n : Z) (resps : list response) (w : world) :
  timeout_set timeout = false ->
  Forall (fun r => pending r = true) resps ->
  poll_loop feedback_id cb timeout start n resps w
  = (Polling,
     World (entropy w) (clock w) (send_response w) (feedback_responses w)
       (trace w ++ flat_map
          (fun _ => [Get (feedback_url feedback_id); Sleep (scheduled_sleep n)])
          resps)).
Proof.
  intros Ht H. revert w.
  induction H as [|r resps Hr _ IH]; intros w; cbn [poll_loop flat_map].
  - rewrite app_nil_r. by destruct w.
  - rewrite poll_turn_pending, Ht by done. rewrite IH.
    unfold log. cbn [entropy clock send_response feedback_responses trace].
    by rewrite <- !app_assoc.
Qed.

Lemma sleeps_app (a b : list event) : sleeps (a ++ b) = sleeps a ++ sleeps b.
Proof. apply omap_app. Qed.

Lemma sleeps_turns (url : string) (s : Z) (resps : list response) :
  sleeps (flat_map (fun _ => [Get url; Sleep s]) resps)
  = repeat s (length resps).
Proof. induction resps as [|r resps IH]; [done|]. cbn. by rewrite <- IH. Qed.

(** C1 on the code: as long as the responses are pending and no timeout
    is set, every sleep of [_query_feedback_endpoint] is one second,
    however many turns went before: [n] stays 0. *)
Theorem query_feedback_sleeps_one_second (feedback_id : string) (cb : callback)
  (w : world) :
  Forall (fun r => pending r = true) (feedback_responses w) ->
  exists w' : world,
    _query_feedback_endpoint feedback_id cb None w = (Polling, w')
    /\ sleeps (trace w')
       = sleeps (trace w) ++ repeat 1 (length (feedback_responses w)).
Proof.
  intros H. unfold _query_feedback_endpoint. cbn [time].
  rewrite poll_loop_pending_no_timeout by done.
  eexists. split; [reflexivity|].
  cbn [trace]. by rewrite sleeps_app, sleeps_turns.
Qed.

(** The failing input: after 61 pending responses the 61 sleeps all are
    of one second, the last one included. *)
Lemma query_feedback_sleeps_one_second_witness :
  exists w' : world,
    _query_feedback_endpoint "abc" (Callback "cb") None
      (quiet_world (Response true ∅) (repeat pending_response 61))
    = (Polling, w')
    /\ sleeps (trace w') = [] ++ repeat 1 61.
Proof.
  apply (query_feedback_sleeps_one_second "abc" (Callback "cb")
           (quiet_world (Response true ∅) (repeat pending_response 61))).
  apply Forall_forall. intros r Hr.
  apply list_elem_of_In, repeat_spec in Hr. subst r. reflexivity.
Defined.

(** C7. With the response [{"status": "OK", "feedbackId": "abc"}] to the
    [POST] and a callback, and the first feedback response being
    [{"success": true, "action_selected": "yes", "action_selected_at":
    100, "action_delivered_at": 90}], both handlers return normally after
    one [GET] and one call of the callback, with the arguments
    [("yes", 100, 90, "abc")]; whatever the timeout, the clock, and the
    responses the world holds after the first. *)
Theorem feedback_callback_called_once (cb : callback) (timeout : option Z)
  (e : nat -> byte) (c : nat -> Z) (sent : response) (later : list response)
  (before : list event) :
  let envelope : gmap string pyval :=
    {[ "status" := PStr "OK"; "feedbackId" := PStr "abc" ]} in
  let poll : response :=
    Response true
      {[ "success" := PBool true; "action_selected" := PStr "yes";
         "action_selected_at" := PInt 100; "action_delivered_at" := PInt 90 ]} in
  let w := World e c sent (poll :: later) before in
  let done := [Get (feedback_url "abc");
               Call cb (PStr "yes") (PInt 100) (PInt 90) "abc"] in
  exists w' : world,
    _handle_response_aio envelope (Some cb) timeout w = (Returns, w')
    /\ _handle_response (Response true envelope) (Some cb) timeout w
       = (Returns, w')
    /\ trace w' = before ++ done
    /\ calls done = [Call cb (PStr "yes") (PInt 100) (PInt 90) "abc"].
Proof.
  cbv zeta. eexists. split; [reflexivity|]. split; [reflexivity|].
  split; [|reflexivity].
  unfold log. cbn [trace]. by rewrite <- app_assoc.
Qed.

(** A turn raises the timeout only when a timeout is set. *)
Lemma poll_turn_no_timeout (feedback_id : string) (cb : callback)
  (timeout : option Z) (start n : Z) (resp : response) (w : world)
  (msg : string) :
  timeout_set timeout = false ->
  (poll_turn feedback_id cb timeout start n resp w).1
  <> Throw (FeedbackActionTimeout msg).
Proof.
  intros Ht. unfold poll_turn, getitem.
  destruct (resp_ok resp); [|done].
  destruct (_ !! "success") as [success|]; cbn [mbind result_bind]; [|done].
  destruct (truthy success); [|done].
  destruct (_ !! "action_selected") as [selected|]; [|done].
  destruct (truthy selected).
  - destruct (_ !! "action_selected_at"); [|done].
    by destruct (_ !! "action_delivered_at").
  - unfold timeout_set in Ht. destruct timeout as [t|].
    + rewrite Ht. by destruct (n <? 60), (n <? 260).
    + by destruct (n <? 60), (n <? 260).
Qed.

Lemma poll_loop_no_timeout (feedback_id : string) (cb : callback)
  (timeout : option Z) (start n : Z) (resps : list response) (w : world)
  (msg : string) :
  timeout_set timeout = false ->
  (poll_loop feedback_id cb timeout start n resps w).1
  <> Raises (FeedbackActionTimeout msg).
Proof.
  intros Ht. revert w. induction resps as [|r resps IH]; intros w; [done|].
  cbn [poll_loop].
  pose proof (poll_turn_no_timeout feedback_id cb timeout start n r
                (log (Get (feedback_url feedback_id)) w) msg Ht) as Hturn.
  change (SIMPLEPUSH_URL +:+ "/1/feedback/" +:+ feedback_id)
    with (feedback_url feedback_id).
  destruct (poll_turn _ _ _ _ _ _ _) as [[| |e] w1]; cbn [fst] in *.
  - apply IH.
  - done.
  - congruence.
Qed.

(** The turn at which the timeout is found exceeded: [k] pending
    responses whose clock readings stay within the timeout, then a pending
    response whose reading is beyond it. *)
Lemma poll_loop_timeout (feedback_id : string) (cb : callback) (t start n : Z)
  (k : nat) (resps later : list response) (w : world) :
  t <> 0 ->
  length resps = S k ->
  Forall (fun r => pending r = true) resps ->
  (forall i : nat, (i < k)%nat -> clock w i <= start + t) ->
  start + t < clock w k ->
  exists w' : world,
    poll_loop feedback_id cb (Some t) start n (resps ++ later) w
    = (Raises (FeedbackActionTimeout (timeout_message feedback_id)), w')
    /\ calls (trace w') = calls (trace w).
Proof.
  intros Ht. revert resps w.
  assert (Hset : timeout_set (Some t) = true).
  { cbn. apply negb_true_iff. by apply Z.eqb_neq. }
  induction k as [|k IH]; intros resps w Hlen Hp Hin Hout;
    destruct resps as [|r resps]; try done;
    apply Forall_cons in Hp as [Hr Hp];
    cbn [app poll_loop];
    rewrite poll_turn_pending, Hset by done;
    change (default 0 (Some t)) with t; cbn [time log fst snd clock].
  - replace (clock w 0 >? start + t) with true
      by (symmetry; apply Z.gtb_lt; lia).
    eexists. split; [reflexivity|].
    unfold log. cbn [trace]. unfold calls. rewrite omap_app. cbn.
    by rewrite app_nil_r.
  - replace (clock w 0 >? start + t) with false.
    2:{ symmetry. rewrite Z.gtb_ltb. apply Z.ltb_ge, Hin. lia. }
    edestruct (IH resps) as (w' & -> & Hcalls).
    + cbn [length] in Hlen. lia.
    + done.
    + intros i Hi. cbn [clock]. apply Hin. lia.
    + cbn [clock]. done.
    + eexists. split; [reflexivity|]. rewrite Hcalls.
      unfold log. cbn [trace].
      unfold calls. rewrite !omap_app. cbn. by rewrite !app_nil_r.
Qed.

(** X25. (1) With a timeout that is set, when the feedback responses stay
    pending (status below 400, a truthy ['success'], and an
    ['action_selected'] that is in the response and not truthy) and the
    clock, read at each of them, is found beyond the start of the polling
    plus the timeout, the call raises [FeedbackActionTimeout] with the
    feedback id in its message, and the callback has not been called.
    (2) With a timeout that is not set ([None] or 0) no run raises
    [FeedbackActionTimeout], whatever the responses and the clock. *)
Theorem feedback_timeout :
  (forall (feedback_id : string) (cb : callback) (t : Z) (k : nat)
          (resps later : list response) (w : world),
      t <> 0 ->
      feedback_responses w = resps ++ later ->
      length resps = S k ->
      Forall (fun r => pending r = true) resps ->
      (forall i : nat, (1 <= i <= k)%nat -> clock w i - clock w 0 <= t) ->
      clock w (S k) - clock w 0 > t ->
      exists w' : world,
        _query_feedback_endpoint feedback_id cb (Some t) w
        = (Raises (FeedbackActionTimeout ("Feedback Action ID: " +:+ feedback_id)),
           w')
        /\ calls (trace w') = calls (trace w))
  /\ (forall (feedback_id : string) (cb : callback) (timeout : option Z)
             (w : world) (msg : string),
        timeout = None \/ timeout = Some 0 ->
        (_query_feedback_endpoint feedback_id cb timeout w).1
        <> Raises (FeedbackActionTimeout msg)).
Proof.
  split.
  - intros feedback_id cb t k resps later w Ht Hresps Hlen Hp Hin Hout.
    unfold _query_feedback_endpoint. cbn [time feedback_responses].
    rewrite Hresps.
    edestruct (poll_loop_timeout feedback_id cb t (clock w 0) 0 k resps later)
      as (w' & -> & Hcalls); [done..| | |].
    + intros i Hi. cbn [clock]. specialize (Hin (S i)). lia.
    + cbn [clock]. lia.
    + by eexists.
  - intros feedback_id cb timeout w msg Ht.
    unfold _query_feedback_endpoint. cbn [time].
    apply poll_loop_no_timeout. by destruct Ht as [-> | ->].
Qed.

Lemma feedback_timeout_witness :
  (exists w' : world,
     _query_feedback_endpoint "abc" (Callback "cb") (Some 60)
       (World (fun _ => x00) (fun i => 1000 + 40 * Z.of_nat i) (Response true ∅)
          (repeat pending_response 5) [])
     = (Raises (FeedbackActionTimeout "Feedback Action ID: abc"), w')
     /\ calls (trace w') = [])
  /\ (_query_feedback_endpoint "abc" (Callback "cb") (Some 0)
        (World (fun _ => x00) (fun i => 1000 + 40 * Z.of_nat i) (Response true ∅)
           (repeat pending_response 5) [])).1
     <> Raises (FeedbackActionTimeout "Feedback Action ID: abc").
Proof.
  split.
  - apply (proj1 feedback_timeout "abc" (Callback "cb") 60 1%nat
             (repeat pending_response 2) (repeat pending_response 3)).
    + discriminate.
    + reflexivity.
    + reflexivity.
    + repeat constructor.
    + intros i Hi. assert (i = 1%nat) as -> by lia. vm_compute. discriminate.
    + reflexivity.
  - apply (proj2 feedback_timeout). by right.
Defined.

(** C8 at its failing input: on the feedback response [{"success": true}],
    which reports success and holds no ['action_selected'], the timeout
    is never reached: whatever the timeout and however late the clock,
    the subscript [['action_selected']] raises [KeyError] right after the
    first [GET], so the call does not fail with [FeedbackActionTimeout];
    with a timeout of 60 seconds and a clock that is 100 seconds further
    at each reading, the same. *)
Theorem feedback_timeout_action_selected_absent :
  forall (cb : callback) (timeout : option Z) (e : nat -> byte) (c : nat -> Z)
         (sent : response) (later : list response) (before : list event),
    (exists w' : world,
       _query_feedback_endpoint "abc" cb timeout
         (World e c sent (Response true {[ "success" := PBool true ]} :: later)
            before)
       = (Raises (KeyError "action_selected"), w')
       /\ trace w' = before ++ [Get (feedback_url "abc")])
    /\ pending (Response true {[ "success" := PBool true ]}) = false
    /\ (_query_feedback_endpoint "abc" cb (Some 60)
          (World e (fun i => 1000 + 100 * Z.of_nat i) sent
             (repeat (Response true {[ "success" := PBool true ]}) 5) before)).1
       <> Raises (FeedbackActionTimeout "Feedback Action ID: abc").
Proof.
  intros cb timeout e c sent later before.
  split; [|split; [reflexivity | discriminate]].
  eexists. split; reflexivity.
Qed.

(* ===================================================================== *)
(** * Further properties of the code *)

(** ** The entry points: what happens before the request *)

(** X1. [send] and [async_send] called with a key or a message that is
    [None] or empty raise [ValueError] at once: the actions are not
    looked at, nothing is posted, the world is left as it was. *)
Theorem send_requires_key_and_message (key message title event : option string)
  (actions : pyval) (cb : option callback) (timeout : option Z) (w : world) :
  truthy_str key = false \/ truthy_str message = false ->
  send key message title event actions cb timeout w
  = (Raises (ValueError "Key and message argument must be set"), w)
  /\ async_send key message title event actions cb timeout w
     = (Raises (ValueError "Key and message argument must be set"), w).
Proof.
  intros H. unfold send, async_send.
  assert (E : negb (truthy_str key) || negb (truthy_str message) = true).
  { destruct H as [-> | ->]; [done | apply orb_true_r]. }
  by rewrite E.
Qed.

Lemma send_requires_key_and_message_witness :
  send (Some "k"%string) (Some EmptyString) None None (PStr "x") None None
    (quiet_world (Response true ∅) [])
  = (Raises (ValueError "Key and message argument must be set"),
     quiet_world (Response true ∅) [])
  /\ async_send (Some "k"%string) (Some EmptyString) None None (PStr "x")
       None None (quiet_world (Response true ∅) [])
     = (Raises (ValueError "Key and message argument must be set"),
        quiet_world (Response true ∅) []).
Proof.
  apply (send_requires_key_and_message (Some "k"%string) (Some EmptyString)).
  right. reflexivity.
Defined.

(** X2. [send_encrypted] and [async_send_encrypted] called with a key, a
    message or a password that is [None] or empty raise [ValueError] at
    once, the world left as it was: no key is derived and no iv drawn. *)
Theorem send_encrypted_requires_password (key password salt message title event
  : option string) (actions : pyval) (cb : option callback)
  (timeout : option Z) (w : world) :
  truthy_str key = false \/ truthy_str message = false
  \/ truthy_str password = false ->
  send_encrypted key password salt message title event actions cb timeout w
  = (Raises (ValueError "Key, message and password arguments must be set"), w)
  /\ async_send_encrypted key password salt message title event actions cb
       timeout w
     = (Raises (ValueError "Key, message and password arguments must be set"),
        w).
Proof.
  intros H. unfold send_encrypted, async_send_encrypted.
  assert (E : negb (truthy_str key) || negb (truthy_str message)
              || negb (truthy_str password) = true).
  { destruct H as [-> | [-> | ->]]; [done | | ].
    - by rewrite orb_true_r.
    - by rewrite orb_true_r. }
  by rewrite E.
Qed.

Lemma send_encrypted_requires_password_witness :
  send_encrypted (Some "k"%string) None (Some "s"%string) (Some "m"%string)
    None None PNone None None (quiet_world (Response true ∅) [])
  = (Raises (ValueError "Key, message and password arguments must be set"),
     quiet_world (Response true ∅) [])
  /\ async_send_encrypted (Some "k"%string) None (Some "s"%string)
       (Some "m"%string) None None PNone None None
       (quiet_world (Response true ∅) [])
     = (Raises (ValueError "Key, message and password arguments must be set"),
        quiet_world (Response true ∅) []).
Proof.
  apply (send_encrypted_requires_password (Some "k"%string) None).
  right. right. reflexivity.
Defined.

(** X3. With the key, the message and (for the encrypted forms) the
    password set, actions that [_check_actions] refuses make each of the
    four entry points raise the exception of the check, before any payload
    is built: nothing is posted and no iv is drawn. *)
Theorem entry_points_check_actions_first (key password salt message title event
  : option string) (actions : pyval) (cb : option callback)
  (timeout : option Z) (w : world) (e : exn) :
  truthy_str key = true -> truthy_str message = true ->
  _check_actions actions = Raise e ->
  send key message title event actions cb timeout w = (Raises e, w)
  /\ async_send key message title event actions cb timeout w = (Raises e, w)
  /\ (truthy_str password = true ->
      send_encrypted key password salt message title event actions cb
        timeout w = (Raises e, w)
      /\ async_send_encrypted key password salt message title event actions
           cb timeout w = (Raises e, w)).
Proof.
  intros Hk Hm He.
  unfold send, async_send, send_encrypted, async_send_encrypted.
  rewrite Hk, Hm, He. cbn [negb orb].
  split; [done|]. split; [done|]. intros Hp. by rewrite Hp.
Qed.

Lemma entry_points_check_actions_first_witness :
  send (Some "k"%string) (Some "m"%string) None None (PStr "not-a-list")
    None None (quiet_world (Response true ∅) [])
  = (Raises (ValueError "Actions malformed"), quiet_world (Response true ∅) [])
  /\ async_send (Some "k"%string) (Some "m"%string) None None
       (PStr "not-a-list") None None (quiet_world (Response true ∅) [])
     = (Raises (ValueError "Actions malformed"),
        quiet_world (Response true ∅) [])
  /\ (truthy_str (Some "p"%string) = true ->
      send_encrypted (Some "k"%string) (Some "p"%string) None
        (Some "m"%string) None None (PStr "not-a-list") None None
        (quiet_world (Response true ∅) [])
      = (Raises (ValueError "Actions malformed"),
         quiet_world (Response true ∅) [])
      /\ async_send_encrypted (Some "k"%string) (Some "p"%string) None
           (Some "m"%string) None None (PStr "not-a-list") None None
           (quiet_world (Response true ∅) [])
         = (Raises (ValueError "Actions malformed"),
            quiet_world (Response true ∅) [])).
Proof.
  apply (entry_points_check_actions_first (Some "k"%string) (Some "p"%string)
           None (Some "m"%string) None None (PStr "not-a-list") None None
           (quiet_world (Response true ∅) []) (ValueError "Actions malformed"));
    reflexivity.
Defined.

(** ** The check of the actions, in full *)

Lemma all_str_Forall (els : list pyval) :
  all_str els = true <-> Forall (fun el => isinstance_str el = true) els.
Proof.
  unfold all_str. rewrite forallb_forall, Forall_forall.
  split; intros H x Hx; apply H; by apply list_elem_of_In.
Qed.

Lemma has_name_url_in_keys (el : pyval) :
  has_name_url el <-> in_keys "name" el = Ok true /\ in_keys "url" el = Ok true.
Proof.
  split.
  - intros (d & -> & Hn & Hu). cbn [in_keys].
    by rewrite !bool_decide_eq_true_2.
  - destruct el; cbn [in_keys]; try by intros [[=] _].
    intros [[= Hn] [= Hu]]. exists d.
    apply bool_decide_eq_true in Hn, Hu. done.
Qed.

Lemma all_name_url_true (els : list pyval) :
  all_name_url els = Ok true <-> Forall has_name_url els.
Proof.
  split; [|apply all_name_url_mappings].
  induction els as [|el els IH]; [constructor|].
  cbn [all_name_url]. intros H.
  destruct (in_keys "name" el) as [[|]|] eqn:En; cbn [mbind result_bind] in H;
    try done.
  destruct (in_keys "url" el) as [[|]|] eqn:Eu; cbn [mbind result_bind andb] in H;
    try done.
  constructor; [by apply has_name_url_in_keys | by apply IH].
Qed.

(** X4. [_check_actions] returns normally exactly on [None], on a list of
    strings, and on a list of dicts that each hold ['name'] and ['url']
    (the empty list is both). *)
Theorem check_actions_accepts_iff (actions : pyval) :
  _check_actions actions = Ok tt <-> well_formed_actions actions.
Proof.
  split.
  - destruct actions as [| | | |els|]; try done; [by left|].
    intros H. right. exists els. split; [done|].
    destruct els as [|first rest]; [left; constructor|].
    cbn [_check_actions] in H.
    destruct (isinstance_str first).
    + left. apply all_str_Forall.
      by destruct (all_str (first :: rest)).
    + right. apply all_name_url_true.
      destruct (all_name_url (first :: rest)) as [[|]|]; by cbn in H.
  - intros [-> | (els & -> & [H | H])];
      [done | by apply check_actions_strings | by apply check_actions_mappings].
Qed.

(** X5. In a list that does not start with a string, the elements are
    tested in order up to the first one that is not a dict holding both
    keys: when that one is a dict the check raises
    [ValueError("Get actions malformed")], when it is anything else (a
    string after well-formed dicts included) the check raises
    [AttributeError]; the elements after it play no part. The list
    starts with a string only when no well-formed dict comes before the
    bad element and that element is a string. *)
Theorem check_actions_first_bad_element (good : list pyval) (bad : pyval)
  (rest : list pyval) :
  Forall has_name_url good ->
  ~ has_name_url bad ->
  (good = [] -> isinstance_str bad = false) ->
  _check_actions (PList (good ++ bad :: rest))
  = Raise (match bad with
           | PDict _ => ValueError "Get actions malformed"
           | _ => AttributeError "keys"
           end).
Proof.
  intros Hgood Hbad Hstr.
  assert (Hall : all_name_url (good ++ bad :: rest)
                 = match bad with
                   | PDict _ => Ok false
                   | _ => Raise (AttributeError "keys")
                   end).
  { clear Hstr. induction Hgood as [|el good (d & -> & Hn & Hu) _ IH].
    - cbn [app all_name_url].
      destruct bad as [| | | | |d]; try done.
      cbn [in_keys mbind result_bind].
      destruct (bool_decide (is_Some (d !! "name"))) eqn:En;
        cbn [mbind result_bind andb]; [|done].
      destruct (bool_decide (is_Some (d !! "url"))) eqn:Eu;
        cbn [mbind result_bind andb]; [|done].
      exfalso. apply Hbad. exists d.
      apply bool_decide_eq_true in En, Eu. done.
    - cbn [app all_name_url in_keys].
      rewrite !bool_decide_eq_true_2 by done.
      cbn [mbind result_bind andb]. apply IH. }
  assert (Hfirst : exists first others,
            good ++ bad :: rest = first :: others
            /\ isinstance_str first = false).
  { destruct Hgood as [|el good (d & -> & _) _];
      [exists bad, rest; split; [done | by apply Hstr] | by do 2 eexists]. }
  destruct Hfirst as (first & others & E & Hf).
  rewrite E in *. cbn [_check_actions]. rewrite Hf, Hall.
  by destruct bad.
Qed.

Lemma check_actions_first_bad_element_witness :
  _check_actions
    (PList ([PDict {[ "name" := PStr "n"; "url" := PStr "u" ]}]
            ++ PStr "a" :: [PInt 7]))
  = Raise (AttributeError "keys").
Proof.
  apply (check_actions_first_bad_element
           [PDict {[ "name" := PStr "n"; "url" := PStr "u" ]}]
           (PStr "a") [PInt 7]).
  - repeat constructor. eexists. split; [reflexivity|]. split; by eexists.
  - intros (d & Hd & _). discriminate Hd.
  - intros Hnil. discriminate Hnil.
Defined.

(** X6. A list that starts with a string is refused exactly when it
    holds something that is not a string, and then always with
    [ValueError("Feedback actions malformed")]: the elements are tested
    with [isinstance], so nothing else is raised. *)
Theorem check_actions_string_list (s : string) (rest : list pyval) :
  (_check_actions (PList (PStr s :: rest)) = Ok tt
   <-> Forall (fun el => isinstance_str el = true) rest)
  /\ (_check_actions (PList (PStr s :: rest)) <> Ok tt ->
      _check_actions (PList (PStr s :: rest))
      = Raise (ValueError "Feedback actions malformed")).
Proof.
  rewrite check_actions_string_first, <- all_str_Forall.
  destruct (all_str rest); split; done.
Qed.

(** ** The payload, key by key *)

Lemma dom_update_opt (k : string) (v : option string) (m : gmap string pyval) :
  dom (update_opt k v m) = (if truthy_str v then {[ k ]} else ∅) ∪ dom m.
Proof.
  unfold update_opt, truthy_str. destruct v as [s|]; [|set_solver].
  destruct (negb (String.eqb s "")); [|set_solver].
  by rewrite dom_insert_L.
Qed.

Lemma dom_with_actions (actions : pyval) (m : gmap string pyval) :
  dom (with_actions actions m)
  = (if truthy actions then {[ "actions" ]} else ∅) ∪ dom m.
Proof.
  unfold with_actions. destruct (truthy actions); [|set_solver].
  by rewrite dom_insert_L.
Qed.

Lemma with_actions_lookup (actions : pyval) (m : gmap string pyval) :
  truthy actions = true -> with_actions actions m !! "actions" = Some actions.
Proof. intros H. unfold with_actions. rewrite H. apply lookup_insert_eq. Qed.

(** X7. Without a password (absent or empty) [_generate_payload] draws
    nothing from [os.urandom] and returns a payload that holds the key
    and the message as given, the title and the event when they are not
    empty, the actions when they are truthy, and no other key: neither
    ['encrypted'] nor ['iv']; the salt plays no part. *)
Theorem generate_payload_plain_fields (key : string) (title : option string)
  (message : string) (event : option string) (actions : pyval)
  (password salt : option string) (w : world) :
  truthy_str password = false ->
  exists payload : gmap string pyval,
    _generate_payload key title message event actions password salt w
    = (Ok payload, w)
    /\ dom payload = {[ "key"; "msg" ]} ∪ optional_keys title event actions
    /\ payload !! "key" = Some (PStr key)
    /\ payload !! "msg" = Some (PStr message)
    /\ (forall t : string, title = Some t -> t <> EmptyString ->
        payload !! "title" = Some (PStr t))
    /\ (forall e : string, event = Some e -> e <> EmptyString ->
        payload !! "event" = Some (PStr e))
    /\ (truthy actions = true -> payload !! "actions" = Some actions).
Proof.
  intros Hp. eexists. split; [by apply generate_payload_plain|].
  split; [|split; [|split; [|split; [|split]]]].
  - rewrite dom_with_actions, !dom_update_opt, dom_insert_L, dom_singleton_L.
    unfold optional_keys. set_solver.
  - rewrite with_actions_lookup_ne, !update_opt_lookup_ne by done.
    by rewrite lookup_insert_ne, lookup_singleton_eq.
  - rewrite with_actions_lookup_ne, !update_opt_lookup_ne by done.
    by rewrite lookup_insert_eq.
  - intros t -> Ht.
    rewrite with_actions_lookup_ne, update_opt_lookup_ne by done.
    by apply update_opt_lookup.
  - intros e -> He. rewrite with_actions_lookup_ne by done.
    by apply update_opt_lookup.
  - apply with_actions_lookup.
Qed.

Lemma generate_payload_plain_fields_witness :
  exists payload : gmap string pyval,
    _generate_payload "k" (Some "t"%string) "m" None (PList [PStr "yes"])
      (Some EmptyString) (Some "s"%string) (quiet_world (Response true ∅) [])
    = (Ok payload, quiet_world (Response true ∅) [])
    /\ dom payload
       = {[ "key"; "msg" ]}
         ∪ optional_keys (Some "t"%string) None (PList [PStr "yes"])
    /\ payload !! "key" = Some (PStr "k")
    /\ payload !! "msg" = Some (PStr "m")
    /\ (forall t : string, Some "t"%string = Some t -> t <> EmptyString ->
        payload !! "title" = Some (PStr t))
    /\ (forall e : string, None = Some e -> e <> EmptyString ->
        payload !! "event" = Some (PStr e))
    /\ (truthy (PList [PStr "yes"]) = true ->
        payload !! "actions" = Some (PList [PStr "yes"])).
Proof.
  apply (generate_payload_plain_fields "k" (Some "t"%string) "m" None
           (PList [PStr "yes"]) (Some EmptyString) (Some "s"%string)
           (quiet_world (Response true ∅) [])).
  reflexivity.
Defined.

(** The text [upper] makes of the hexadecimal of some bytes. *)
Lemma upper_hex_digit (n : N) :
  (n < 16)%N -> upper_hex_char (upper_ascii (hex_digit n)) = true.
Proof.
  intros Hn.
  assert (H : forall b : byte,
            (if (Byte.to_N b <? 16)%N
             then upper_hex_char (upper_ascii (hex_digit (Byte.to_N b)))
             else true) = true).
  { apply forall_byte. vm_compute. reflexivity. }
  specialize (H (byte_of_N n)). rewrite to_N_byte_of_N in H by lia.
  apply N.ltb_lt in Hn. by rewrite Hn in H.
Qed.

Lemma upper_hex_of_bytes_chars (bs : list byte) :
  string_forall upper_hex_char (upper (hex_of_bytes bs)) = true.
Proof.
  induction bs as [|b bs IH]; [done|].
  cbn [hex_of_bytes]. unfold hex2. rewrite !append_cons, append_nil.
  cbn [upper string_forall]. rewrite IH.
  pose proof (Byte.to_N_bounded b).
  rewrite !upper_hex_digit; [done | |].
  - apply N.mod_lt. lia.
  - apply N.Div0.div_lt_upper_bound. lia.
Qed.

(** The base of the encrypted payload, and what looking it up gives. *)
Lemma generate_payload_encrypted_lookups (key : string) (title : option string)
  (message : string) (event : option string) (actions : pyval)
  (password : string) (salt : option string) (w : world) :
  password <> EmptyString ->
  exists (payload : gmap string pyval) (encryption_key : list byte)
         (c_msg : string),
    let iv := (urandom 16 w).1 in
    _generate_payload key title message event actions (Some password) salt w
    = (Ok payload, (urandom 16 w).2)
    /\ length iv = 16%nat
    /\ _generate_encryption_key password salt = Ok encryption_key
    /\ length encryption_key = 16%nat
    /\ _encrypt encryption_key iv message = Ok c_msg
    /\ dom payload
       = {[ "key"; "encrypted"; "iv"; "msg" ]}
         ∪ optional_keys title event actions
    /\ payload !! "key" = Some (PStr key)
    /\ payload !! "iv" = Some (PStr (upper (hex_of_bytes iv)))
    /\ payload !! "msg" = Some (PStr c_msg)
    /\ (forall t : string, title = Some t -> t <> EmptyString ->
        exists c_title : string,
          _encrypt encryption_key iv t = Ok c_title
          /\ payload !! "title" = Some (PStr c_title))
    /\ (truthy actions = true -> payload !! "actions" = Some actions).
Proof.
  intros Hpw.
  destruct (generate_payload_encrypted key title message event actions
              password salt w Hpw) as (k & c_msg & wt & Hk & Hm & Ht & Hp).
  cbv zeta in *. change (_generate_iv w) with (urandom 16 w) in *.
  pose proof (length_generate_iv w) as Hlen.
  change (_generate_iv w) with (urandom 16 w) in Hlen.
  destruct (generate_encryption_key_derived password salt)
    as (k' & Hk' & Hlenk & _).
  rewrite Hk in Hk'. injection Hk' as <-.
  set (iv := (urandom 16 w).1) in *.
  set (base := <["iv" := PStr (upper (hex_of_bytes iv))]>
                 (<["encrypted" := PStr "true"]>
                    ({[ "key" := PStr key ]} : gmap string pyval))) in *.
  assert (Hdom : dom wt = (if truthy_str title then {[ "title" ]} else ∅)
                          ∪ {[ "key"; "encrypted"; "iv" ]}).
  { destruct (truthy_str title).
    - destruct Ht as (c & _ & ->). subst base.
      rewrite !dom_insert_L, dom_singleton_L. set_solver.
    - rewrite Ht. subst base.
      rewrite !dom_insert_L, dom_singleton_L. set_solver. }
  assert (Hbase : forall f : string,
            f <> "title"%string -> wt !! f = base !! f).
  { intros f Hf. destruct (truthy_str title).
    - destruct Ht as (c & _ & ->). by rewrite lookup_insert_ne.
    - by rewrite Ht. }
  eexists _, k, c_msg. split; [exact Hp|].
  do 4 (split; [done|]).
  split; [|split; [|split; [|split; [|split]]]].
  - rewrite dom_with_actions, dom_insert_L, dom_update_opt, Hdom.
    unfold optional_keys. set_solver.
  - rewrite with_actions_lookup_ne, lookup_insert_ne by done.
    rewrite update_opt_lookup_ne, Hbase by done. done.
  - rewrite with_actions_lookup_ne, lookup_insert_ne by done.
    rewrite update_opt_lookup_ne, Hbase by done. done.
  - rewrite with_actions_lookup_ne by done. by rewrite lookup_insert_eq.
  - intros t -> Hne.
    assert (Htr : truthy_str (Some t) = true).
    { apply truthy_str_true. by exists t. }
    rewrite Htr in Ht. destruct Ht as (c & Hc & ->).
    exists c. split; [done|].
    rewrite with_actions_lookup_ne, lookup_insert_ne by done.
    rewrite update_opt_lookup_ne by done. by rewrite lookup_insert_eq.
  - apply with_actions_lookup.
Qed.

(** X8. With a non-empty password the payload holds ['key'],
    ['encrypted'], ['iv'] and ['msg'], the title and the event when they
    are not empty, the actions when they are truthy, and no other key; the
    key is the one given, in clear; the iv is 32 characters, each an
    uppercase hexadecimal digit; truthy actions are attached as they are. *)
Theorem generate_payload_encrypted_keys (key : string) (title : option string)
  (message : string) (event : option string) (actions : pyval)
  (password : string) (salt : option string) (w : world) :
  password <> EmptyString ->
  exists (payload : gmap string pyval) (iv_hex : string),
    (_generate_payload key title message event actions (Some password) salt
       w).1 = Ok payload
    /\ dom payload
       = {[ "key"; "encrypted"; "iv"; "msg" ]}
         ∪ optional_keys title event actions
    /\ payload !! "key" = Some (PStr key)
    /\ payload !! "iv" = Some (PStr iv_hex)
    /\ String.length iv_hex = 32%nat
    /\ string_forall upper_hex_char iv_hex = true
    /\ (truthy actions = true -> payload !! "actions" = Some actions).
Proof.
  intros Hpw.
  destruct (generate_payload_encrypted_lookups key title message event actions
              password salt w Hpw)
    as (payload & k & c & Hp & Hlen & _ & _ & _ & Hdom & Hkey & Hiv & _ & _ & Ha).
  cbv zeta in *. exists payload, (upper (hex_of_bytes (urandom 16 w).1)).
  rewrite Hp. do 4 (split; [done|]).
  split; [by rewrite length_upper, length_hex_of_bytes, Hlen|].
  split; [apply upper_hex_of_bytes_chars | done].
Qed.

Lemma generate_payload_encrypted_keys_witness :
  exists (payload : gmap string pyval) (iv_hex : string),
    (_generate_payload "k" (Some "t"%string) "m" None PNone (Some "p"%string)
       None (quiet_world (Response true ∅) [])).1 = Ok payload
    /\ dom payload
       = {[ "key"; "encrypted"; "iv"; "msg" ]}
         ∪ optional_keys (Some "t"%string) None PNone
    /\ payload !! "key" = Some (PStr "k")
    /\ payload !! "iv" = Some (PStr iv_hex)
    /\ String.length iv_hex = 32%nat
    /\ string_forall upper_hex_char iv_hex = true
    /\ (truthy PNone = true -> payload !! "actions" = Some PNone).
Proof.
  apply (generate_payload_encrypted_keys "k" (Some "t"%string) "m" None PNone
           "p" None (quiet_world (Response true ∅) [])).
  discriminate.
Defined.

Lemma decrypt_of_encrypt (key iv : list byte) (data ciphertext : string) :
  length key = 16%nat -> length iv = 16%nat ->
  _encrypt key iv data = Ok ciphertext ->
  decrypt key iv ciphertext = Ok data.
Proof.
  intros Hk Hiv He.
  destruct (decrypt_encrypt key iv _ _ data (aes_round_keys_16 _ Hk)
              (cbc_iv_16 _ Hiv)) as (c & Hc & Hd).
  rewrite He in Hc. by injection Hc as ->.
Qed.

(** X9. What [_generate_payload] sends under a non-empty password can be
    read back by whoever knows the password and the salt: the ['iv'] of
    the payload decodes to 16 bytes, and decrypting ['msg'] (and
    ['title'], when a non-empty title was given) under the key derived
    from the password and the salt and that iv gives back the message
    (and the title). *)
Theorem generate_payload_decrypts (key : string) (title : option string)
  (message : string) (event : option string) (actions : pyval)
  (password : string) (salt : option string) (w : world) :
  password <> EmptyString ->
  exists (payload : gmap string pyval) (encryption_key iv : list byte)
         (iv_hex c_msg : string),
    (_generate_payload key title message event actions (Some password) salt
       w).1 = Ok payload
    /\ _generate_encryption_key password salt = Ok encryption_key
    /\ payload !! "iv" = Some (PStr iv_hex)
    /\ fromhex iv_hex = Some iv
    /\ payload !! "msg" = Some (PStr c_msg)
    /\ decrypt encryption_key iv c_msg = Ok message
    /\ (forall t : string, title = Some t -> t <> EmptyString ->
        exists c_title : string,
          payload !! "title" = Some (PStr c_title)
          /\ decrypt encryption_key iv c_title = Ok t).
Proof.
  intros Hpw.
  destruct (generate_payload_encrypted_lookups key title message event actions
              password salt w Hpw)
    as (payload & k & c & Hp & Hlen & Hk & Hlenk & Hm & _ & _ & Hiv & Hmsg
        & Ht & _).
  cbv zeta in *.
  exists payload, k, (urandom 16 w).1, (upper (hex_of_bytes (urandom 16 w).1)), c.
  rewrite Hp. do 3 (split; [done|]).
  split; [apply fromhex_upper_hex_of_bytes|].
  split; [done|]. split; [by apply decrypt_of_encrypt|].
  intros t Et Hne. destruct (Ht t Et Hne) as (ct & Hct & Hl).
  exists ct. split; [done | by apply decrypt_of_encrypt].
Qed.

Lemma generate_payload_decrypts_witness :
  exists (payload : gmap string pyval) (encryption_key iv : list byte)
         (iv_hex c_msg : string),
    (_generate_payload "k" (Some "t"%string) "m" None PNone (Some "p"%string)
       (Some "s"%string) (quiet_world (Response true ∅) [])).1 = Ok payload
    /\ _generate_encryption_key "p" (Some "s"%string) = Ok encryption_key
    /\ payload !! "iv" = Some (PStr iv_hex)
    /\ fromhex iv_hex = Some iv
    /\ payload !! "msg" = Some (PStr c_msg)
    /\ decrypt encryption_key iv c_msg = Ok "m"%string
    /\ (forall t : string, Some "t"%string = Some t -> t <> EmptyString ->
        exists c_title : string,
          payload !! "title" = Some (PStr c_title)
          /\ decrypt encryption_key iv c_title = Ok t).
Proof.
  apply (generate_payload_decrypts "k" (Some "t"%string) "m" None PNone "p"
           (Some "s"%string) (quiet_world (Response true ∅) [])).
  discriminate.
Defined.

(** ** The text [_encrypt] returns *)

Lemma url_safe_char_char (n : N) : url_safe_char (Base64.char n) = true.
Proof.
  destruct (n <? 64)%N eqn:E.
  - assert (H : forall b : byte,
              (if (Byte.to_N b <? 64)%N
               then url_safe_char (Base64.char (Byte.to_N b)) else true) = true).
    { apply forall_byte. vm_compute. reflexivity. }
    specialize (H (byte_of_N n)). apply N.ltb_lt in E.
    rewrite to_N_byte_of_N in H by lia. apply N.ltb_lt in E. by rewrite E in H.
  - apply N.ltb_ge in E. unfold Base64.char.
    replace (n <? 26)%N with false by (symmetry; apply N.ltb_ge; lia).
    replace (n <? 52)%N with false by (symmetry; apply N.ltb_ge; lia).
    replace (n <? 62)%N with false by (symmetry; apply N.ltb_ge; lia).
    replace (n =? 62)%N with false by (symmetry; apply N.eqb_neq; lia).
    reflexivity.
Qed.

Lemma urlsafe_b64encode_chars (bs : list byte) :
  string_forall url_safe_char (Base64.urlsafe_b64encode bs) = true.
Proof.
  induction bs as [bs IH] using (induction_ltof1 _ (@length byte)).
  unfold ltof in IH.
  destruct bs as [|a [|b [|c rest]]]; [done| | |];
    cbn [Base64.urlsafe_b64encode string_forall];
    rewrite ?url_safe_char_char; [done | done |].
  rewrite IH by (cbn [length]; lia). done.
Qed.

Lemma length_urlsafe_b64encode (bs : list byte) :
  String.length (Base64.urlsafe_b64encode bs) = (4 * ((length bs + 2) / 3))%nat.
Proof.
  induction bs as [bs IH] using (induction_ltof1 _ (@length byte)).
  unfold ltof in IH.
  destruct bs as [|a [|b [|c rest]]]; [done | done | done |].
  cbn [Base64.urlsafe_b64encode String.length length].
  rewrite IH by (cbn [length]; lia).
  replace (S (S (S (length rest))) + 2)%nat
    with (length rest + 2 + 1 * 3)%nat by lia.
  rewrite Nat.div_add by lia. lia.
Qed.

Lemma length_bytes_of_blocks (bl : list Aes.state) :
  length (Aes.bytes_of_blocks bl) = (16 * length bl)%nat.
Proof.
  induction bl as [|s bl IH]; [done|].
  destruct s as [[[[[[a0 a1] a2] a3] [[[b0 b1] b2] b3]]
                    [[[c0 c1] c2] c3]] [[[d0 d1] d2] d3]].
  unfold Aes.bytes_of_blocks in *.
  cbn [map concat Aes.bytes_of_state Aes.bytes_of_word app length].
  rewrite IH. lia.
Qed.

Lemma length_cbc_encrypt (rks : list Aes.state) (prev : Aes.state)
  (bl : list Aes.state) :
  length (Aes.cbc_encrypt rks prev bl) = length bl.
Proof.
  revert prev. induction bl as [|p bl IH]; intros prev; [done|].
  cbn [Aes.cbc_encrypt length]. by rewrite IH.
Qed.

Lemma length_pkcs7_pad_16 (data : list byte) :
  length (pkcs7_pad 16 data) = (16 * (length data / 16 + 1))%nat.
Proof.
  unfold pkcs7_pad. rewrite length_app, repeat_length.
  pose proof (Nat.div_mod_eq (length data) 16).
  pose proof (Nat.mod_upper_bound (length data) 16). lia.
Qed.

(** X10. Whenever [_encrypt] returns, the text it returns is made of
    URL-safe base64 characters only (letters, digits, [-], [_], and the
    padding [=]), and its length follows from the length [n] of the UTF-8
    text of the data alone: the base64 length of [16 * (n / 16 + 1)]
    bytes, so a text of whole blocks grows by one block. *)
Theorem encrypt_output_format (key iv : list byte) (data ciphertext : string) :
  _encrypt key iv data = Ok ciphertext ->
  string_forall url_safe_char ciphertext = true
  /\ String.length ciphertext
     = (4 * ((16 * (length (list_byte_of_string data) / 16 + 1) + 2) / 3))%nat.
Proof.
  unfold _encrypt.
  destruct (aes_round_keys key) as [rks|]; [|done].
  destruct (cbc_iv iv) as [prev|]; [|done]. cbn [mbind result_bind].
  change (AES_block_size / 8)%nat with 16%nat.
  destruct (Aes.blocks_of_bytes _) as [blocks|] eqn:E; [|done].
  intros [= <-]. split; [apply urlsafe_b64encode_chars|].
  rewrite length_urlsafe_b64encode, length_bytes_of_blocks, length_cbc_encrypt.
  apply bytes_of_blocks_of_bytes in E.
  rewrite <- (length_bytes_of_blocks blocks), E, length_pkcs7_pad_16. done.
Qed.

Lemma encrypt_output_format_witness :
  string_forall url_safe_char "ZHaFSAB67589JY5cNM3CG94KEmhDbhWUNPwh3jaW2Sg="
  = true
  /\ String.length "ZHaFSAB67589JY5cNM3CG94KEmhDbhWUNPwh3jaW2Sg="
     = (4 * ((16 * (length (list_byte_of_string "0123456789abcdef") / 16 + 1)
              + 2) / 3))%nat.
Proof.
  apply (encrypt_output_format
           (default [] (fromhex "2b7e151628aed2a6abf7158809cf4f3c"))
           (default [] (fromhex "000102030405060708090a0b0c0d0e0f"))
           "0123456789abcdef").
  vm_compute. reflexivity.
Defined.

(** ** The handlers of the response *)

Lemma handle_response_ok (json : gmap string pyval) (cb : option callback)
  (timeout : option Z) (w : world) :
  _handle_response (Response true json) cb timeout w
  = handle_envelope json cb timeout w.
Proof.
  unfold _handle_response. cbn [resp_json resp_ok].
  by destruct (handle_envelope json cb timeout w) as [[| |] ?].
Qed.

(** X11. On the envelope whose status is ["BadRequest"] and whose message
    is ["Title or message too long"] both handlers raise [BadRequest],
    whatever else the envelope holds and whatever the HTTP status: the
    feedback is not polled, the callback is not called, the world is
    left as it was. *)
Theorem handlers_bad_request (json : gmap string pyval) (http_ok : bool)
  (cb : option callback) (timeout : option Z) (w : world) :
  json !! "status" = Some (PStr "BadRequest") ->
  json !! "message" = Some (PStr "Title or message too long") ->
  _handle_response (Response http_ok json) cb timeout w = (Raises BadRequest, w)
  /\ _handle_response_aio json cb timeout w = (Raises BadRequest, w).
Proof.
  intros Hs Hm. unfold _handle_response, _handle_response_aio.
  cbn [resp_json]. by rewrite (handle_envelope_bad_request _ _ _ _ Hs Hm).
Qed.

Lemma handlers_bad_request_witness :
  _handle_response
    (Response false
       {[ "status" := PStr "BadRequest";
          "message" := PStr "Title or message too long";
          "feedbackId" := PStr "abc" ]})
    (Some (Callback "cb")) (Some 60) (quiet_world (Response true ∅) [])
  = (Raises BadRequest, quiet_world (Response true ∅) [])
  /\ _handle_response_aio
       {[ "status" := PStr "BadRequest";
          "message" := PStr "Title or message too long";
          "feedbackId" := PStr "abc" ]}
       (Some (Callback "cb")) (Some 60) (quiet_world (Response true ∅) [])
     = (Raises BadRequest, quiet_world (Response true ∅) []).
Proof.
  apply (handlers_bad_request
           {[ "status" := PStr "BadRequest";
              "message" := PStr "Title or message too long";
              "feedbackId" := PStr "abc" ]}
           false (Some (Callback "cb")) (Some 60)
           (quiet_world (Response true ∅) [])); reflexivity.
Defined.

(** X12. On an envelope whose status is anything but ["OK"] (a string or
    not), and which holds a message other than the one above when its
    status is ["BadRequest"], both handlers raise [UnknownError], whatever
    the HTTP status, without polling and without calling the callback. *)
Theorem handlers_unknown_error (json : gmap string pyval) (status : pyval)
  (http_ok : bool) (cb : option callback) (timeout : option Z) (w : world) :
  json !! "status" = Some status ->
  eq_str status "OK" = false ->
  (eq_str status "BadRequest" = true ->
   exists message : pyval,
     json !! "message" = Some message
     /\ eq_str message "Title or message too long" = false) ->
  _handle_response (Response http_ok json) cb timeout w = (Raises UnknownError, w)
  /\ _handle_response_aio json cb timeout w = (Raises UnknownError, w).
Proof.
  intros Hs Hok Hm. unfold _handle_response, _handle_response_aio.
  cbn [resp_json].
  by rewrite (handle_envelope_unknown_error _ _ _ _ _ Hs Hok Hm).
Qed.

Lemma handlers_unknown_error_witness :
  _handle_response
    (Response true {[ "status" := PStr "Forbidden" ]})
    (Some (Callback "cb")) (Some 60) (quiet_world (Response true ∅) [])
  = (Raises UnknownError, quiet_world (Response true ∅) [])
  /\ _handle_response_aio {[ "status" := PStr "Forbidden" ]}
       (Some (Callback "cb")) (Some 60) (quiet_world (Response true ∅) [])
     = (Raises UnknownError, quiet_world (Response true ∅) []).
Proof.
  apply (handlers_unknown_error {[ "status" := PStr "Forbidden" ]}
           (PStr "Forbidden") true (Some (Callback "cb")) (Some 60)
           (quiet_world (Response true ∅) [])).
  - reflexivity.
  - reflexivity.
  - discriminate.
Defined.

Lemma handlers_ok_without_feedback_aux (json : gmap string pyval)
  (http_ok : bool) (cb : option callback) (timeout : option Z) (w : world) :
  json !! "status" = Some (PStr "OK") ->
  json !! "feedbackId" = None \/ cb = None ->
  _handle_response_aio json cb timeout w = (Returns, w)
  /\ _handle_response (Response http_ok json) cb timeout w
     = (if http_ok then Returns else Raises HTTPError, w).
Proof.
  intros Hs Hf.
  assert (E : handle_envelope json cb timeout w = (Returns, w)).
  { unfold handle_envelope, getitem. rewrite Hs. cbn.
    destruct Hf as [-> | ->]; [done|].
    by destruct (json !! "feedbackId") as [[]|]. }
  unfold _handle_response_aio, _handle_response. cbn [resp_json resp_ok].
  rewrite E. by destruct http_ok.
Qed.

(** X13. On an envelope whose status is ["OK"], the feedback is polled
    only when the envelope holds a ['feedbackId'] and a callback was
    given: without either, [_handle_response_aio] returns at once, and
    [_handle_response] returns when the HTTP status is below 400 and
    raises the HTTP error otherwise; the world is left as it was. *)
Theorem handlers_ok_without_feedback (json : gmap string pyval)
  (http_ok : bool) (cb : option callback) (timeout : option Z) (w : world) :
  json !! "status" = Some (PStr "OK") ->
  json !! "feedbackId" = None \/ cb = None ->
  _handle_response_aio json cb timeout w = (Returns, w)
  /\ _handle_response (Response http_ok json) cb timeout w
     = (if http_ok then Returns else Raises HTTPError, w).
Proof. by apply handlers_ok_without_feedback_aux. Qed.

Lemma handlers_ok_without_feedback_witness :
  _handle_response_aio {[ "status" := PStr "OK"; "feedbackId" := PStr "abc" ]}
    None (Some 60) (quiet_world (Response true ∅) [pending_response])
  = (Returns, quiet_world (Response true ∅) [pending_response])
  /\ _handle_response
       (Response false {[ "status" := PStr "OK"; "feedbackId" := PStr "abc" ]})
       None (Some 60) (quiet_world (Response true ∅) [pending_response])
     = (if false then Returns else Raises HTTPError,
        quiet_world (Response true ∅) [pending_response]).
Proof.
  apply (handlers_ok_without_feedback
           {[ "status" := PStr "OK"; "feedbackId" := PStr "abc" ]} false None
           (Some 60) (quiet_world (Response true ∅) [pending_response])).
  - reflexivity.
  - right. reflexivity.
Defined.

(** ** The entry points: from the request to the response *)

Lemma response_eta (r : response) : Response (resp_ok r) (resp_json r) = r.
Proof. by destruct r. Qed.

(** Building the payload touches neither the response the world holds
    nor the trace. *)
Lemma generate_payload_world (key : string) (title : option string)
  (message : string) (event : option string) (actions : pyval)
  (password salt : option string) (w : world) :
  exists (payload : gmap string pyval) (w' : world),
    _generate_payload key title message event actions password salt w
    = (Ok payload, w')
    /\ send_response w' = send_response w
    /\ feedback_responses w' = feedback_responses w
    /\ clock w' = clock w
    /\ trace w' = trace w.
Proof.
  destruct (truthy_str password) eqn:E.
  - apply truthy_str_true in E as (pw & -> & Hpw).
    destruct (generate_payload_encrypted key title message event actions
                pw salt w Hpw) as (k & c & wt & _ & _ & _ & ->).
    by do 2 eexists.
  - rewrite generate_payload_plain by done. by do 2 eexists.
Qed.

(** X14. When the HTTP status of the response is below 400, the blocking
    and the suspending forms do the same: [send] and [async_send] end the
    same way in the same world, and so do [send_encrypted] and
    [async_send_encrypted], whatever the arguments and the envelope. *)
Theorem sync_and_async_agree (key password salt message title event
  : option string) (actions : pyval) (cb : option callback)
  (timeout : option Z) (w : world) :
  resp_ok (send_response w) = true ->
  send key message title event actions cb timeout w
  = async_send key message title event actions cb timeout w
  /\ send_encrypted key password salt message title event actions cb timeout w
     = async_send_encrypted key password salt message title event actions cb
         timeout w.
Proof.
  intros Hok.
  assert (H : forall (pw sl : option string),
    match _generate_payload (default EmptyString key) title
            (default EmptyString message) event actions pw sl w with
    | (Raise e, w0) => (Raises e, w0)
    | (Ok payload, w0) =>
        let '(r, w1) :=
          requests_post (SIMPLEPUSH_URL +:+ "/send") payload DEFAULT_TIMEOUT w0 in
        _handle_response r cb timeout w1
    end
    = match _generate_payload (default EmptyString key) title
              (default EmptyString message) event actions pw sl w with
      | (Raise e, w0) => (Raises e, w0)
      | (Ok payload, w0) =>
          match session_post (SIMPLEPUSH_URL +:+ "/send") payload w0 with
          | (Raise e, w1) => (Raises e, w1)
          | (Ok json, w1) => _handle_response_aio json cb timeout w1
          end
      end).
  { intros pw sl.
    destruct (generate_payload_world (default EmptyString key) title
                (default EmptyString message) event actions pw sl w)
      as (payload & w0 & -> & Hr & _).
    unfold requests_post, session_post. rewrite Hr, Hok.
    rewrite <- (response_eta (send_response w)), Hok.
    apply handle_response_ok. }
  unfold send, async_send, send_encrypted, async_send_encrypted.
  split.
  - destruct (negb (truthy_str key) || negb (truthy_str message)); [done|].
    destruct (_check_actions actions); [apply H | done].
  - destruct (negb (truthy_str key) || negb (truthy_str message)
              || negb (truthy_str password)); [done|].
    destruct (_check_actions actions); [apply H | done].
Qed.

Lemma sync_and_async_agree_witness :
  send (Some "k"%string) (Some "m"%string) None None PNone
    (Some (Callback "cb")) (Some 60)
    (quiet_world (Response true {[ "status" := PStr "OK" ]}) [])
  = async_send (Some "k"%string) (Some "m"%string) None None PNone
      (Some (Callback "cb")) (Some 60)
      (quiet_world (Response true {[ "status" := PStr "OK" ]}) [])
  /\ send_encrypted (Some "k"%string) (Some "p"%string) None (Some "m"%string)
       None None PNone (Some (Callback "cb")) (Some 60)
       (quiet_world (Response true {[ "status" := PStr "OK" ]}) [])
     = async_send_encrypted (Some "k"%string) (Some "p"%string) None
         (Some "m"%string) None None PNone (Some (Callback "cb")) (Some 60)
         (quiet_world (Response true {[ "status" := PStr "OK" ]}) []).
Proof.
  apply (sync_and_async_agree (Some "k"%string) (Some "p"%string) None
           (Some "m"%string) None None PNone (Some (Callback "cb")) (Some 60)
           (quiet_world (Response true {[ "status" := PStr "OK" ]}) [])).
  reflexivity.
Defined.

(** X15. When the HTTP status of the response is 400 or more, the
    suspending forms raise the HTTP error right after the [POST]: the
    envelope is not read (so neither [BadRequest] nor [UnknownError] is
    raised), the feedback is not polled and the callback is not called. *)
Theorem async_send_http_error (key password salt message title event
  : option string) (actions : pyval) (cb : option callback)
  (timeout : option Z) (w : world) :
  resp_ok (send_response w) = false ->
  truthy_str key = true -> truthy_str message = true ->
  _check_actions actions = Ok tt ->
  (exists w' : world,
     async_send key message title event actions cb timeout w
     = (Raises HTTPError, w')
     /\ exists payload, trace w'
        = trace w ++ [Post (SIMPLEPUSH_URL +:+ "/send") payload])
  /\ (truthy_str password = true ->
      exists w' : world,
        async_send_encrypted key password salt message title event actions cb
          timeout w
        = (Raises HTTPError, w')
        /\ exists payload, trace w'
           = trace w ++ [Post (SIMPLEPUSH_URL +:+ "/send") payload]).
Proof.
  intros Hok Hk Hm Ha.
  assert (H : forall (pw sl : option string),
    exists w' : world,
      match _generate_payload (default EmptyString key) title
              (default EmptyString message) event actions pw sl w with
      | (Raise e, w0) => (Raises e, w0)
      | (Ok payload, w0) =>
          match session_post (SIMPLEPUSH_URL +:+ "/send") payload w0 with
          | (Raise e, w1) => (Raises e, w1)
          | (Ok json, w1) => _handle_response_aio json cb timeout w1
          end
      end = (Raises HTTPError, w')
      /\ exists payload, trace w'
         = trace w ++ [Post (SIMPLEPUSH_URL +:+ "/send") payload]).
  { intros pw sl.
    destruct (generate_payload_world (default EmptyString key) title
                (default EmptyString message) event actions pw sl w)
      as (payload & w0 & -> & Hr & _ & _ & Ht).
    unfold session_post. rewrite Hr, Hok.
    eexists. split; [reflexivity|]. exists payload.
    unfold log. cbn [trace]. by rewrite Ht. }
  unfold async_send, async_send_encrypted. rewrite Hk, Hm, Ha. cbn [negb orb].
  split; [apply H|]. intros Hp. rewrite Hp. apply H.
Qed.

Lemma async_send_http_error_witness :
  (exists w' : world,
     async_send (Some "k"%string) (Some "m"%string) None None PNone None None
       (quiet_world
          (Response false
             {[ "status" := PStr "BadRequest";
                "message" := PStr "Title or message too long" ]}) [])
     = (Raises HTTPError, w')
     /\ exists payload, trace w'
        = [] ++ [Post (SIMPLEPUSH_URL +:+ "/send") payload])
  /\ (truthy_str (Some "p"%string) = true ->
      exists w' : world,
        async_send_encrypted (Some "k"%string) (Some "p"%string) None
          (Some "m"%string) None None PNone None None
          (quiet_world
             (Response false
                {[ "status" := PStr "BadRequest";
                   "message" := PStr "Title or message too long" ]}) [])
        = (Raises HTTPError, w')
        /\ exists payload, trace w'
           = [] ++ [Post (SIMPLEPUSH_URL +:+ "/send") payload]).
Proof.
  apply (async_send_http_error (Some "k"%string) (Some "p"%string) None
           (Some "m"%string) None None PNone None None
           (quiet_world
              (Response false
                 {[ "status" := PStr "BadRequest";
                    "message" := PStr "Title or message too long" ]}) []));
    reflexivity.
Defined.

(** X16. A call of [send] or [send_encrypted] with its arguments set,
    actions that pass the check, a response of HTTP status below 400 and
    an envelope of status ["OK"], and either no ['feedbackId'] in the
    envelope or no callback, returns normally after exactly one event:
    the [POST] of the payload of [_generate_payload] to the [/send]
    address. *)
Theorem send_posts_once (key password salt message title event
  : option string) (actions : pyval) (cb : option callback)
  (timeout : option Z) (w : world) :
  truthy_str key = true -> truthy_str message = true ->
  _check_actions actions = Ok tt ->
  resp_ok (send_response w) = true ->
  resp_json (send_response w) !! "status" = Some (PStr "OK") ->
  resp_json (send_response w) !! "feedbackId" = None \/ cb = None ->
  (exists (payload : gmap string pyval) (w' : world),
     (_generate_payload (default EmptyString key) title
        (default EmptyString message) event actions None None w).1 = Ok payload
     /\ send key message title event actions cb timeout w = (Returns, w')
     /\ trace w' = trace w ++ [Post "https://api.simplepush.io/send" payload])
  /\ (truthy_str password = true ->
      exists (payload : gmap string pyval) (w' : world),
        (_generate_payload (default EmptyString key) title
           (default EmptyString message) event actions password salt w).1
        = Ok payload
        /\ send_encrypted key password salt message title event actions cb
             timeout w = (Returns, w')
        /\ trace w'
           = trace w ++ [Post "https://api.simplepush.io/send" payload]).
Proof.
  intros Hk Hm Ha Hok Hs Hf.
  assert (H : forall (pw sl : option string),
    exists (payload : gmap string pyval) (w' : world),
      (_generate_payload (default EmptyString key) title
         (default EmptyString message) event actions pw sl w).1 = Ok payload
      /\ match _generate_payload (default EmptyString key) title
                 (default EmptyString message) event actions pw sl w with
         | (Raise e, w0) => (Raises e, w0)
         | (Ok payload, w0) =>
             let '(r, w1) :=
               requests_post (SIMPLEPUSH_URL +:+ "/send") payload
                 DEFAULT_TIMEOUT w0 in
             _handle_response r cb timeout w1
         end = (Returns, w')
      /\ trace w' = trace w ++ [Post "https://api.simplepush.io/send" payload]).
  { intros pw sl.
    destruct (generate_payload_world (default EmptyString key) title
                (default EmptyString message) event actions pw sl w)
      as (payload & w0 & -> & Hr & _ & _ & Ht).
    exists payload. eexists. split; [reflexivity|].
    unfold requests_post. rewrite Hr.
    rewrite <- (response_eta (send_response w)), Hok.
    destruct (handlers_ok_without_feedback_aux (resp_json (send_response w))
                true cb timeout
                (log (Post (SIMPLEPUSH_URL +:+ "/send") payload) w0) Hs Hf)
      as [_ ->].
    split; [reflexivity|]. unfold log. cbn [trace]. by rewrite Ht. }
  unfold send, send_encrypted. rewrite Hk, Hm, Ha. cbn [negb orb].
  split; [apply H|]. intros Hp. rewrite Hp. apply H.
Qed.

Lemma send_posts_once_witness :
  (exists (payload : gmap string pyval) (w' : world),
     (_generate_payload (default EmptyString (Some "k"%string)) None
        (default EmptyString (Some "m"%string)) None PNone None None
        (quiet_world
           (Response true {[ "status" := PStr "OK"; "feedbackId" := PStr "abc" ]})
           [pending_response])).1 = Ok payload
     /\ send (Some "k"%string) (Some "m"%string) None None PNone None (Some 60)
          (quiet_world
             (Response true
                {[ "status" := PStr "OK"; "feedbackId" := PStr "abc" ]})
             [pending_response]) = (Returns, w')
     /\ trace w' = [] ++ [Post "https://api.simplepush.io/send" payload])
  /\ (truthy_str (Some "p"%string) = true ->
      exists (payload : gmap string pyval) (w' : world),
        (_generate_payload (default EmptyString (Some "k"%string)) None
           (default EmptyString (Some "m"%string)) None PNone
           (Some "p"%string) None
           (quiet_world
              (Response true
                 {[ "status" := PStr "OK"; "feedbackId" := PStr "abc" ]})
              [pending_response])).1
        = Ok payload
        /\ send_encrypted (Some "k"%string) (Some "p"%string) None
             (Some "m"%string) None None PNone None (Some 60)
             (quiet_world
                (Response true
                   {[ "status" := PStr "OK"; "feedbackId" := PStr "abc" ]})
                [pending_response]) = (Returns, w')
        /\ trace w' = [] ++ [Post "https://api.simplepush.io/send" payload]).
Proof.
  apply (send_posts_once (Some "k"%string) (Some "p"%string) None
           (Some "m"%string) None None PNone None (Some 60)
           (quiet_world
              (Response true
                 {[ "status" := PStr "OK"; "feedbackId" := PStr "abc" ]})
              [pending_response])); try reflexivity.
  right. reflexivity.
Defined.

(** ** The polling loop, turn by turn *)

(** Pending responses within the timeout only add a [GET] and a sleep
    each, and a reading of the clock when a timeout is set. *)
Lemma poll_loop_pending_prefix (feedback_id : string) (cb : callback)
  (timeout : option Z) (start n : Z) (pre rest : list response) (w : world) :
  Forall (fun r => pending r = true) pre ->
  (timeout_set timeout = true ->
   forall i : nat, (i < length pre)%nat ->
                   clock w i <= start + default 0 timeout) ->
  poll_loop feedback_id cb timeout start n (pre ++ rest) w
  = poll_loop feedback_id cb timeout start n rest
      (World (entropy w)
         (fun i => clock w ((if timeout_set timeout then length pre else 0) + i)%nat)
         (send_response w) (feedback_responses w)
         (trace w
          ++ concat (replicate (length pre)
                       [Get (feedback_url feedback_id);
                        Sleep (scheduled_sleep n)]))).
Proof.
  intros Hp. revert w.
  induction Hp as [|r pre Hr _ IH]; intros w Hin.
  - cbn [app length replicate concat]. rewrite app_nil_r.
    destruct w, (timeout_set timeout); reflexivity.
  - cbn [app poll_loop]. rewrite poll_turn_pending by done.
    change (SIMPLEPUSH_URL +:+ "/1/feedback/" +:+ feedback_id)
      with (feedback_url feedback_id).
    destruct (timeout_set timeout) eqn:Eset.
    + cbn [time log fst snd clock].
      replace (clock w 0 >? start + default 0 timeout) with false.
      2:{ symmetry. rewrite Z.gtb_ltb. apply Z.ltb_ge, Hin; [done|].
          cbn [length]. lia. }
      rewrite IH.
      2:{ intros _ i Hi. cbn [clock]. apply Hin; [done|]. cbn [length]. lia. }
      f_equal. unfold log.
      cbn [entropy clock send_response feedback_responses trace length
           replicate concat].
      f_equal. rewrite <- !app_assoc. reflexivity.
    + rewrite IH by done.
      f_equal. unfold log.
      cbn [entropy clock send_response feedback_responses trace length
           replicate concat].
      f_equal. rewrite <- !app_assoc. reflexivity.
Qed.

(** The same from the entry of [_query_feedback_endpoint]. *)
Lemma query_feedback_pending_prefix (feedback_id : string) (cb : callback)
  (timeout : option Z) (pre rest : list response) (w : world) :
  feedback_responses w = pre ++ rest ->
  Forall (fun r => pending r = true) pre ->
  within_timeout timeout w (length pre) ->
  _query_feedback_endpoint feedback_id cb timeout w
  = poll_loop feedback_id cb timeout (clock w 0) 0 rest
      (after_pending feedback_id timeout (length pre) w).
Proof.
  intros Hresps Hp Hin. unfold _query_feedback_endpoint.
  cbn [time].
  set (w1 := World (entropy w) (fun i => clock w (S i)) (send_response w)
               (feedback_responses w) (trace w)).
  change (feedback_responses w1) with (feedback_responses w).
  rewrite Hresps.
  rewrite poll_loop_pending_prefix; [reflexivity | done |].
  intros Hset i Hi. subst w1. cbn [clock]. apply (Hin Hset (S i)). lia.
Qed.

(** What one turn adds to the trace: a sleep when it goes on (and then
    the response was a pending one), the call of the callback with the
    values of the response when it stops, nothing when it raises. *)
Lemma poll_turn_shape (feedback_id : string) (cb : callback)
  (timeout : option Z) (start n : Z) (resp : response) (w : world) :
  match (poll_turn feedback_id cb timeout start n resp w).1 with
  | Again =>
      pending resp = true
      /\ trace (poll_turn feedback_id cb timeout start n resp w).2
         = trace w ++ [Sleep (scheduled_sleep n)]
  | Stop =>
      exists selected selected_at delivered_at : pyval,
        resp_json resp !! "action_selected" = Some selected
        /\ resp_json resp !! "action_selected_at" = Some selected_at
        /\ resp_json resp !! "action_delivered_at" = Some delivered_at
        /\ trace (poll_turn feedback_id cb timeout start n resp w).2
           = trace w ++ [Call cb selected selected_at delivered_at feedback_id]
  | Throw _ =>
      trace (poll_turn feedback_id cb timeout start n resp w).2 = trace w
  end.
Proof.
  unfold poll_turn, pending, getitem, scheduled_sleep.
  destruct (resp_ok resp); [|done].
  destruct (resp_json resp !! "success") as [s|]; [|done].
  cbn [mbind result_bind andb].
  destruct (truthy s); [|done].
  destruct (resp_json resp !! "action_selected") as [a|]; [|done].
  destruct (truthy a).
  - destruct (resp_json resp !! "action_selected_at") as [sa|];
      destruct (resp_json resp !! "action_delivered_at") as [da|]; try done.
    cbn. by exists a, sa, da.
  - destruct timeout as [t|]; [destruct (negb (t =? 0))|]; cbn [time];
      try destruct (clock w 0 >? start + t);
      destruct (n <? 60); try destruct (n <? 260); done.
Qed.

(** A turn that raises the timeout was on a pending response, with a
    timeout set, and found the clock beyond it. *)
Lemma poll_turn_timeout_inv (feedback_id : string) (cb : callback)
  (timeout : option Z) (start n : Z) (resp : response) (w : world)
  (msg : string) :
  (poll_turn feedback_id cb timeout start n resp w).1
  = Throw (FeedbackActionTimeout msg) ->
  pending resp = true /\ timeout_set timeout = true
  /\ clock w 0 > start + default 0 timeout
  /\ msg = timeout_message feedback_id.
Proof.
  intros H.
  assert (Hp : pending resp = true).
  { revert H. unfold poll_turn, pending, getitem.
    destruct (resp_ok resp); [|done].
    destruct (resp_json resp !! "success") as [s|]; [|done].
    cbn [mbind result_bind andb].
    destruct (truthy s); [|done].
    destruct (resp_json resp !! "action_selected") as [a|]; [|done].
    destruct (truthy a); [|done].
    by destruct (resp_json resp !! "action_selected_at") as [sa|];
      destruct (resp_json resp !! "action_delivered_at") as [da|]. }
  split; [done|]. revert H. rewrite poll_turn_pending by done.
  destruct (timeout_set timeout); [|done].
  cbn [time fst snd].
  destruct (clock w 0 >? start + default 0 timeout) eqn:E; [|done].
  intros [= <-]. repeat split. by apply Z.gtb_gt.
Qed.

(** The trace of a run of the loop: turns of a [GET] and a sleep on
    pending responses, closed by nothing when the responses are used up,
    by a [GET] when the run raises, by a [GET] and the call of the
    callback when it returns. *)
Lemma poll_loop_shape (feedback_id : string) (cb : callback)
  (timeout : option Z) (start n : Z) (resps : list response) (w : world) :
  exists (k : nat) (tail : list event),
    trace (poll_loop feedback_id cb timeout start n resps w).2
    = trace w
      ++ concat (replicate k [Get (feedback_url feedback_id);
                              Sleep (scheduled_sleep n)])
      ++ tail
    /\ Forall (fun r => pending r = true) (take k resps)
    /\ match (poll_loop feedback_id cb timeout start n resps w).1 with
       | Polling => k = length resps /\ tail = []
       | Raises _ =>
           (k < length resps)%nat /\ tail = [Get (feedback_url feedback_id)]
       | Returns =>
           exists (r : response) (selected selected_at delivered_at : pyval),
             resps !! k = Some r
             /\ resp_json r !! "action_selected" = Some selected
             /\ resp_json r !! "action_selected_at" = Some selected_at
             /\ resp_json r !! "action_delivered_at" = Some delivered_at
             /\ tail = [Get (feedback_url feedback_id);
                        Call cb selected selected_at delivered_at feedback_id]
       end.
Proof.
  revert w. induction resps as [|r rest IH]; intros w.
  - exists 0%nat, []. cbn. by rewrite app_nil_r.
  - cbn [poll_loop].
    change (SIMPLEPUSH_URL +:+ "/1/feedback/" +:+ feedback_id)
      with (feedback_url feedback_id).
    pose proof (poll_turn_shape feedback_id cb timeout start n r
                  (log (Get (feedback_url feedback_id)) w)) as Hturn.
    destruct (poll_turn feedback_id cb timeout start n r
                (log (Get (feedback_url feedback_id)) w))
      as [[| |e] w2]; cbn [fst snd] in *.
    + destruct Hturn as [Hr Ht].
      destruct (IH w2) as (k & tail & Htr & Hp & Hm).
      exists (S k), tail. split; [|split].
      * rewrite Htr, Ht. unfold log. cbn [trace replicate concat].
        by rewrite <- !app_assoc.
      * cbn [take]. by constructor.
      * destruct (poll_loop feedback_id cb timeout start n rest w2).1.
        -- exact Hm.
        -- destruct Hm as [Hk ->]. split; [cbn [length]; lia | done].
        -- destruct Hm as [-> ->]. done.
    + destruct Hturn as (a & sa & da & Ha & Hsa & Hda & Ht).
      exists 0%nat. eexists. split; [|split].
      * rewrite Ht. unfold log. cbn [trace replicate concat app].
        rewrite <- app_assoc. reflexivity.
      * constructor.
      * by exists r, a, sa, da.
    + exists 0%nat. eexists. split; [|split].
      * rewrite Hturn. unfold log. cbn [trace replicate concat app].
        reflexivity.
      * constructor.
      * split; [cbn [length]; lia | done].
Qed.

(** A run of the loop that raises the timeout has a timeout set and
    found the clock beyond it on a pending response, after pending
    responses only. *)
Lemma poll_loop_timeout_inv (feedback_id : string) (cb : callback)
  (timeout : option Z) (start n : Z) (resps : list response) (w : world)
  (msg : string) :
  (poll_loop feedback_id cb timeout start n resps w).1
  = Raises (FeedbackActionTimeout msg) ->
  timeout_set timeout = true /\ msg = timeout_message feedback_id
  /\ exists k : nat,
       (k < length resps)%nat
       /\ Forall (fun r => pending r = true) (take (S k) resps)
       /\ clock w k > start + default 0 timeout
       /\ forall i : nat, (i < k)%nat -> clock w i <= start + default 0 timeout.
Proof.
  revert w. induction resps as [|r rest IH]; intros w; [done|].
  cbn [poll_loop].
  pose proof (poll_turn_shape feedback_id cb timeout start n r
                (log (Get (SIMPLEPUSH_URL +:+ "/1/feedback/" +:+ feedback_id)) w))
    as Hturn.
  pose proof (poll_turn_timeout_inv feedback_id cb timeout start n r
                (log (Get (SIMPLEPUSH_URL +:+ "/1/feedback/" +:+ feedback_id)) w)
                msg) as Hinv.
  destruct (poll_turn feedback_id cb timeout start n r
              (log (Get (SIMPLEPUSH_URL +:+ "/1/feedback/" +:+ feedback_id)) w))
    as [[| |e] w2] eqn:E; cbn [fst snd] in *; [| done |].
  - intros H. destruct Hturn as [Hr _].
    destruct (IH w2 H) as (Hset & Hmsg & k & Hk & Hp & Hlate & Hin).
    rewrite poll_turn_pending, Hset in E by done.
    cbn [time log fst snd clock] in E.
    destruct (clock w 0 >? start + default 0 timeout) eqn:Ec; [done|].
    injection E as <-. cbn [clock] in Hlate, Hin.
    split; [done|]. split; [done|]. exists (S k).
    split; [cbn [length]; lia|]. split; [by constructor|]. split; [done|].
    intros [|i] Hi.
    + rewrite Z.gtb_ltb in Ec. by apply Z.ltb_ge.
    + apply Hin. lia.
  - intros [= ->].
    destruct (Hinv eq_refl) as (Hr & Hset & Hlate & Hmsg).
    split; [done|]. split; [done|]. exists 0%nat.
    split; [cbn [length]; lia|]. split; [by repeat constructor|].
    split; [done|]. intros i Hi. lia.
Qed.

(** No event of the pending turns is a call of the callback. *)
Lemma calls_after_pending (feedback_id : string) (timeout : option Z)
  (k : nat) (w : world) :
  calls (trace (after_pending feedback_id timeout k w)) = calls (trace w).
Proof.
  unfold after_pending, calls. cbn [trace]. rewrite omap_app.
  assert (E : omap (fun e => match e with
                             | Call _ _ _ _ _ => Some e
                             | _ => None
                             end)
                (concat (replicate k [Get (feedback_url feedback_id); Sleep 1]))
              = []).
  { induction k as [|k IH]; [done|]. cbn. apply IH. }
  rewrite E. by rewrite app_nil_r.
Qed.

(** X17. When, after [k] pending responses read within the timeout, the
    service answers with an HTTP status of 400 or more, or with a
    ['success'] that is not truthy, [_query_feedback_endpoint] raises
    [FeedbackActionError("Failed to reach feedback API.")] right after
    that [GET]: the callback has not been called, and the responses that
    follow are not asked for. *)
Theorem query_feedback_failure (feedback_id : string) (cb : callback)
  (timeout : option Z) (pre : list response) (r : response)
  (rest : list response) (w : world) :
  feedback_responses w = pre ++ r :: rest ->
  Forall (fun r => pending r = true) pre ->
  within_timeout timeout w (length pre) ->
  resp_ok r = false
  \/ (exists success : pyval,
        resp_json r !! "success" = Some success /\ truthy success = false) ->
  exists w' : world,
    _query_feedback_endpoint feedback_id cb timeout w
    = (Raises (FeedbackActionError "Failed to reach feedback API."), w')
    /\ trace w'
       = trace w
         ++ concat (replicate (length pre)
                      [Get (feedback_url feedback_id); Sleep 1])
         ++ [Get (feedback_url feedback_id)].
Proof.
  intros Hresps Hp Hin Hr.
  rewrite (query_feedback_pending_prefix _ _ _ pre (r :: rest)) by done.
  cbn [poll_loop].
  assert (E : forall w0, poll_turn feedback_id cb timeout (clock w 0) 0 r w0
              = (Throw (FeedbackActionError "Failed to reach feedback API."),
                 w0)).
  { intros w0. unfold poll_turn, getitem.
    destruct Hr as [-> | (s & Hs & Ht)]; [done|].
    rewrite Hs. cbn [mbind result_bind]. rewrite Ht.
    by destruct (resp_ok r). }
  rewrite E. eexists. split; [reflexivity|].
  unfold log, after_pending. cbn [trace]. by rewrite <- app_assoc.
Qed.

Lemma query_feedback_failure_witness :
  exists w' : world,
    _query_feedback_endpoint "abc" (Callback "cb") None
      (quiet_world (Response true ∅)
         ([pending_response] ++ Response true {[ "success" := PBool false ]}
                                :: [pending_response]))
    = (Raises (FeedbackActionError "Failed to reach feedback API."), w')
    /\ trace w'
       = [] ++ concat (replicate (length [pending_response])
                         [Get (feedback_url "abc"); Sleep 1])
         ++ [Get (feedback_url "abc")].
Proof.
  apply (query_feedback_failure "abc" (Callback "cb") None [pending_response]
           (Response true {[ "success" := PBool false ]}) [pending_response]
           (quiet_world (Response true ∅)
              ([pending_response]
               ++ Response true {[ "success" := PBool false ]}
                  :: [pending_response]))).
  - reflexivity.
  - repeat constructor.
  - intros H. discriminate H.
  - right. eexists. split; reflexivity.
Defined.

(** X18. When, after [k] pending responses read within the timeout, a
    response of status below 400 reports success and a truthy
    ['action_selected'] together with both timestamps,
    [_query_feedback_endpoint] returns normally, having called the
    callback once, last, with the three values of that response and the
    feedback id; before that it sent [k + 1] [GET]s to the feedback URL
    and slept [k] times one second. *)
Theorem query_feedback_resolves (feedback_id : string) (cb : callback)
  (timeout : option Z) (pre : list response) (r : response)
  (rest : list response) (w : world)
  (success selected selected_at delivered_at : pyval) :
  feedback_responses w = pre ++ r :: rest ->
  Forall (fun r => pending r = true) pre ->
  within_timeout timeout w (length pre) ->
  resp_ok r = true ->
  resp_json r !! "success" = Some success -> truthy success = true ->
  resp_json r !! "action_selected" = Some selected -> truthy selected = true ->
  resp_json r !! "action_selected_at" = Some selected_at ->
  resp_json r !! "action_delivered_at" = Some delivered_at ->
  exists w' : world,
    _query_feedback_endpoint feedback_id cb timeout w = (Returns, w')
    /\ trace w'
       = trace w
         ++ concat (replicate (length pre)
                      [Get (feedback_url feedback_id); Sleep 1])
         ++ [Get (feedback_url feedback_id);
             Call cb selected selected_at delivered_at feedback_id]
    /\ calls (trace w')
       = calls (trace w)
         ++ [Call cb selected selected_at delivered_at feedback_id].
Proof.
  intros Hresps Hp Hin Hok Hs Hts Ha Hta Hat Hdt.
  rewrite (query_feedback_pending_prefix _ _ _ pre (r :: rest)) by done.
  cbn [poll_loop]. unfold poll_turn, getitem.
  rewrite Hok, Hs. cbn [mbind result_bind]. rewrite Hts, Ha, Hta, Hat, Hdt.
  eexists. split; [reflexivity|]. split.
  - unfold log, after_pending. cbn [trace]. by rewrite <- !app_assoc.
  - unfold log at 1. cbn [trace]. unfold calls at 1. rewrite omap_app.
    unfold log. cbn [trace]. rewrite omap_app.
    fold (calls (trace (after_pending feedback_id timeout (length pre) w))).
    rewrite calls_after_pending. cbn [omap]. by rewrite app_nil_r.
Qed.

Lemma query_feedback_resolves_witness :
  exists w' : world,
    _query_feedback_endpoint "abc" (Callback "cb") None
      (quiet_world (Response true ∅)
         ([pending_response; pending_response]
          ++ Response true
               {[ "success" := PBool true; "action_selected" := PStr "yes";
                  "action_selected_at" := PInt 100;
                  "action_delivered_at" := PInt 90 ]} :: []))
    = (Returns, w')
    /\ trace w'
       = [] ++ concat (replicate (length [pending_response; pending_response])
                         [Get (feedback_url "abc"); Sleep 1])
         ++ [Get (feedback_url "abc");
             Call (Callback "cb") (PStr "yes") (PInt 100) (PInt 90) "abc"]
    /\ calls (trace w')
       = calls []
         ++ [Call (Callback "cb") (PStr "yes") (PInt 100) (PInt 90) "abc"].
Proof.
  apply (query_feedback_resolves "abc" (Callback "cb") None
           [pending_response; pending_response]
           (Response true
              {[ "success" := PBool true; "action_selected" := PStr "yes";
                 "action_selected_at" := PInt 100;
                 "action_delivered_at" := PInt 90 ]}) []
           (quiet_world (Response true ∅)
              ([pending_response; pending_response]
               ++ Response true
                    {[ "success" := PBool true; "action_selected" := PStr "yes";
                       "action_selected_at" := PInt 100;
                       "action_delivered_at" := PInt 90 ]} :: []))
           (PBool true)); try reflexivity.
  - repeat constructor.
  - intros H. discriminate H.
Defined.

(** X19. A feedback response of status below 400 that lacks a key the
    turn subscripts is not taken as pending nor as a failure of the
    service: [_query_feedback_endpoint] raises [KeyError] with the first
    key that is missing (['success']; ['action_selected'] when success is
    reported; a timestamp when an action is selected), and the callback
    is not called, also when only ['action_delivered_at'] is missing. *)
Theorem query_feedback_missing_key (feedback_id : string) (cb : callback)
  (timeout : option Z) (pre : list response) (r : response)
  (rest : list response) (w : world) (key : string) :
  feedback_responses w = pre ++ r :: rest ->
  Forall (fun r => pending r = true) pre ->
  within_timeout timeout w (length pre) ->
  resp_ok r = true ->
  missing_key (resp_json r) key ->
  exists w' : world,
    _query_feedback_endpoint feedback_id cb timeout w
    = (Raises (KeyError key), w')
    /\ calls (trace w') = calls (trace w).
Proof.
  intros Hresps Hp Hin Hok Hmiss.
  rewrite (query_feedback_pending_prefix _ _ _ pre (r :: rest)) by done.
  cbn [poll_loop].
  assert (E : forall w0, poll_turn feedback_id cb timeout (clock w 0) 0 r w0
                         = (Throw (KeyError key), w0)).
  { intros w0. unfold poll_turn, getitem. rewrite Hok.
    destruct Hmiss as [[-> ->] | (s & -> & Hs & Hmiss)]; [done|].
    cbn [mbind result_bind]. rewrite Hs.
    destruct Hmiss as [[-> ->] | (a & -> & Ha & Hmiss)]; [done|].
    rewrite Ha.
    destruct Hmiss as [[-> ->] | (-> & [sa ->] & ->)]; [|done].
    by destruct (resp_json r !! "action_delivered_at"). }
  rewrite E. eexists. split; [reflexivity|].
  unfold log at 1. cbn [trace]. unfold calls at 1. rewrite omap_app.
  fold (calls (trace (after_pending feedback_id timeout (length pre) w))).
  rewrite calls_after_pending. cbn [omap]. by rewrite app_nil_r.
Qed.

Lemma query_feedback_missing_key_witness :
  exists w' : world,
    _query_feedback_endpoint "abc" (Callback "cb") None
      (quiet_world (Response true ∅)
         ([pending_response]
          ++ Response true
               {[ "success" := PBool true; "action_selected" := PStr "yes";
                  "action_selected_at" := PInt 100 ]} :: []))
    = (Raises (KeyError "action_delivered_at"), w')
    /\ calls (trace w') = calls [].
Proof.
  apply (query_feedback_missing_key "abc" (Callback "cb") None
           [pending_response]
           (Response true
              {[ "success" := PBool true; "action_selected" := PStr "yes";
                 "action_selected_at" := PInt 100 ]}) []
           (quiet_world (Response true ∅)
              ([pending_response]
               ++ Response true
                    {[ "success" := PBool true; "action_selected" := PStr "yes";
                       "action_selected_at" := PInt 100 ]} :: []))).
  - reflexivity.
  - repeat constructor.
  - intros H. discriminate H.
  - reflexivity.
  - right. exists (PBool true). split; [reflexivity|]. split; [reflexivity|].
    right. exists (PStr "yes"). split; [reflexivity|]. split; [reflexivity|].
    right. split; [reflexivity|]. split; [|reflexivity].
    exists (PInt 100). reflexivity.
Defined.

(** X20. Whatever the responses, the timeout and the clock, what
    [_query_feedback_endpoint] does is a number [k] of turns of one [GET]
    to the feedback URL and one sleep of one second, each on a pending
    response, then: nothing more when the responses are used up; one more
    [GET] when it raises; one more [GET] and the call of the callback,
    with the values of the response of that [GET], when it returns. So
    the callback is called at most once, as the last event, and only
    when the call returns normally. *)
Theorem query_feedback_trace_shape (feedback_id : string) (cb : callback)
  (timeout : option Z) (w : world) :
  exists (k : nat) (tail : list event),
    trace (_query_feedback_endpoint feedback_id cb timeout w).2
    = trace w
      ++ concat (replicate k [Get (feedback_url feedback_id); Sleep 1])
      ++ tail
    /\ Forall (fun r => pending r = true) (take k (feedback_responses w))
    /\ match (_query_feedback_endpoint feedback_id cb timeout w).1 with
       | Polling => k = length (feedback_responses w) /\ tail = []
       | Raises _ =>
           (k < length (feedback_responses w))%nat
           /\ tail = [Get (feedback_url feedback_id)]
       | Returns =>
           exists (r : response) (selected selected_at delivered_at : pyval),
             feedback_responses w !! k = Some r
             /\ resp_json r !! "action_selected" = Some selected
             /\ resp_json r !! "action_selected_at" = Some selected_at
             /\ resp_json r !! "action_delivered_at" = Some delivered_at
             /\ tail = [Get (feedback_url feedback_id);
                        Call cb selected selected_at delivered_at feedback_id]
       end.
Proof.
  unfold _query_feedback_endpoint. cbn [time].
  apply (poll_loop_shape feedback_id cb timeout (clock w 0) 0
           (feedback_responses w)
           (World (entropy w) (fun i => clock w (S i)) (send_response w)
              (feedback_responses w) (trace w))).
Qed.

(** X21. [_query_feedback_endpoint] raises [FeedbackActionTimeout] only
    when it is due: a timeout was given and is not 0, the message holds
    the feedback id, and on some pending response, after pending
    responses only, the clock was read more than the timeout after the
    start, all readings before being within it. *)
Theorem query_feedback_timeout_only_when_late (feedback_id : string)
  (cb : callback) (timeout : option Z) (w : world) (msg : string) :
  (_query_feedback_endpoint feedback_id cb timeout w).1
  = Raises (FeedbackActionTimeout msg) ->
  exists (t : Z) (k : nat),
    timeout = Some t /\ t <> 0
    /\ msg = ("Feedback Action ID: " +:+ feedback_id)%string
    /\ (k < length (feedback_responses w))%nat
    /\ Forall (fun r => pending r = true) (take (S k) (feedback_responses w))
    /\ clock w (S k) > clock w 0 + t
    /\ forall i : nat, (1 <= i <= k)%nat -> clock w i <= clock w 0 + t.
Proof.
  unfold _query_feedback_endpoint. cbn [time]. intros H.
  apply poll_loop_timeout_inv in H
    as (Hset & Hmsg & k & Hk & Hp & Hlate & Hin).
  cbn [clock] in Hlate, Hin.
  destruct timeout as [t|]; [|done].
  exists t, k. cbn [timeout_set default] in *.
  split; [done|]. split.
  { intros ->. done. }
  split; [done|]. split; [done|]. split; [done|]. split; [done|].
  intros [|i] Hi; [lia|]. apply Hin. lia.
Qed.

Lemma query_feedback_timeout_only_when_late_witness :
  exists (t : Z) (k : nat),
    Some 60 = Some t /\ t <> 0
    /\ "Feedback Action ID: abc"%string = ("Feedback Action ID: " +:+ "abc")%string
    /\ (k < length [pending_response; pending_response; pending_response])%nat
    /\ Forall (fun r => pending r = true)
         (take (S k) [pending_response; pending_response; pending_response])
    /\ 1000 + 40 * Z.of_nat (S k) > 1000 + 40 * Z.of_nat 0 + t
    /\ forall i : nat, (1 <= i <= k)%nat ->
                       1000 + 40 * Z.of_nat i <= 1000 + 40 * Z.of_nat 0 + t.
Proof.
  apply (query_feedback_timeout_only_when_late "abc" (Callback "cb") (Some 60)
           (World (fun _ => x00) (fun i => 1000 + 40 * Z.of_nat i)
              (Response true ∅)
              [pending_response; pending_response; pending_response] [])
           "Feedback Action ID: abc").
  vm_compute. reflexivity.
Defined.

(** ** From the request to the callback *)

(** With status ["OK"], a ['feedbackId'] that is a string and a callback,
    the handlers hand over to the polling. *)
Lemma handle_envelope_polls (json : gmap string pyval) (feedback_id : string)
  (cb : callback) (timeout : option Z) (w : world) :
  json !! "status" = Some (PStr "OK") ->
  json !! "feedbackId" = Some (PStr feedback_id) ->
  handle_envelope json (Some cb) timeout w
  = _query_feedback_endpoint feedback_id cb timeout w.
Proof.
  intros Hs Hf. unfold handle_envelope, getitem. rewrite Hs. cbn.
  by rewrite Hf.
Qed.

(** X22. From the request to the callback. With a key and a message,
    actions that pass the check, a response to the [POST] of HTTP status
    below 400 whose envelope has status ["OK"] and a ['feedbackId'], and
    a callback: when the feedback service answers [k] pending responses
    within the timeout and then one that reports success with a selected
    action and both timestamps, [send] and [async_send] return normally,
    having done, in this order, one [POST] of the payload of
    [_generate_payload] to [https://api.simplepush.io/send], [k] turns of
    a [GET] to the feedback URL and a sleep of one second, one more [GET]
    and one call of the callback with the selected action, its two
    timestamps and the feedback id; and so do [send_encrypted] and
    [async_send_encrypted] when a password is given. *)
Theorem send_then_feedback (key password salt message title event
  : option string) (actions : pyval) (cb : callback) (timeout : option Z)
  (feedback_id : string) (pre : list response) (r : response)
  (rest : list response) (w : world)
  (success selected selected_at delivered_at : pyval) :
  truthy_str key = true -> truthy_str message = true ->
  _check_actions actions = Ok tt ->
  resp_ok (send_response w) = true ->
  resp_json (send_response w) !! "status" = Some (PStr "OK") ->
  resp_json (send_response w) !! "feedbackId" = Some (PStr feedback_id) ->
  feedback_responses w = pre ++ r :: rest ->
  Forall (fun r => pending r = true) pre ->
  within_timeout timeout w (length pre) ->
  resp_ok r = true ->
  resp_json r !! "success" = Some success -> truthy success = true ->
  resp_json r !! "action_selected" = Some selected -> truthy selected = true ->
  resp_json r !! "action_selected_at" = Some selected_at ->
  resp_json r !! "action_delivered_at" = Some delivered_at ->
  let polled (payload : gmap string pyval) :=
    [Post "https://api.simplepush.io/send" payload]
    ++ concat (replicate (length pre)
                 [Get (feedback_url feedback_id); Sleep 1])
    ++ [Get (feedback_url feedback_id);
        Call cb selected selected_at delivered_at feedback_id] in
  (exists (payload : gmap string pyval) (w' : world),
     (_generate_payload (default EmptyString key) title
        (default EmptyString message) event actions None None w).1 = Ok payload
     /\ send key message title event actions (Some cb) timeout w = (Returns, w')
     /\ async_send key message title event actions (Some cb) timeout w
        = (Returns, w')
     /\ trace w' = trace w ++ polled payload)
  /\ (truthy_str password = true ->
      exists (payload : gmap string pyval) (w' : world),
        (_generate_payload (default EmptyString key) title
           (default EmptyString message) event actions password salt w).1
        = Ok payload
        /\ send_encrypted key password salt message title event actions
             (Some cb) timeout w = (Returns, w')
        /\ async_send_encrypted key password salt message title event actions
             (Some cb) timeout w = (Returns, w')
        /\ trace w' = trace w ++ polled payload).
Proof.
  intros Hk Hm Hact Hok Hs Hf Hresps Hp Hin Hrok Hsu Htsu Ha Hta Hat Hdt polled.
  assert (H : forall (pw sl : option string),
    exists (payload : gmap string pyval) (w' : world),
      (_generate_payload (default EmptyString key) title
         (default EmptyString message) event actions pw sl w).1 = Ok payload
      /\ match _generate_payload (default EmptyString key) title
                 (default EmptyString message) event actions pw sl w with
         | (Raise e, w0) => (Raises e, w0)
         | (Ok payload, w0) =>
             let '(r, w1) :=
               requests_post (SIMPLEPUSH_URL +:+ "/send") payload
                 DEFAULT_TIMEOUT w0 in
             _handle_response r (Some cb) timeout w1
         end = (Returns, w')
      /\ match _generate_payload (default EmptyString key) title
                 (default EmptyString message) event actions pw sl w with
         | (Raise e, w0) => (Raises e, w0)
         | (Ok payload, w0) =>
             match session_post (SIMPLEPUSH_URL +:+ "/send") payload w0 with
             | (Raise e, w1) => (Raises e, w1)
             | (Ok json, w1) => _handle_response_aio json (Some cb) timeout w1
             end
         end = (Returns, w')
      /\ trace w' = trace w ++ polled payload).
  { intros pw sl.
    destruct (generate_payload_world (default EmptyString key) title
                (default EmptyString message) event actions pw sl w)
      as (payload & w0 & -> & Hr & Hfr & Hc & Ht).
    exists payload.
    unfold requests_post, session_post. rewrite Hr, Hok.
    rewrite <- (response_eta (send_response w)), Hok.
    rewrite handle_response_ok. cbn [resp_json]. unfold _handle_response_aio.
    rewrite (handle_envelope_polls _ feedback_id) by done.
    set (w1 := log (Post (SIMPLEPUSH_URL +:+ "/send") payload) w0).
    assert (Hresps1 : feedback_responses w1 = pre ++ r :: rest).
    { subst w1. unfold log. cbn [feedback_responses]. by rewrite Hfr. }
    assert (Hin1 : within_timeout timeout w1 (length pre)).
    { subst w1. unfold within_timeout, log. cbn [clock]. rewrite Hc.
      exact Hin. }
    rewrite (query_feedback_pending_prefix _ _ _ pre (r :: rest)) by done.
    cbn [poll_loop]. unfold poll_turn, getitem.
    rewrite Hrok, Hsu. cbn [mbind result_bind].
    rewrite Htsu, Ha, Hta, Hat, Hdt.
    eexists. split; [reflexivity|]. split; [reflexivity|].
    split; [reflexivity|].
    subst w1 polled. unfold log, after_pending. cbn [trace]. rewrite Ht.
    change (SIMPLEPUSH_URL +:+ "/send")
      with "https://api.simplepush.io/send"%string.
    change (SIMPLEPUSH_URL +:+ "/1/feedback/" +:+ feedback_id)
      with (feedback_url feedback_id).
    by rewrite <- !app_assoc. }
  unfold send, async_send, send_encrypted, async_send_encrypted.
  rewrite Hk, Hm, Hact. cbn [negb orb]. split; [apply H|].
  intros ->. cbn [negb]. apply H.
Qed.

Lemma send_then_feedback_witness :
  let w :=
    quiet_world
      (Response true {[ "status" := PStr "OK"; "feedbackId" := PStr "abc" ]})
      ([pending_response]
       ++ Response true
            {[ "success" := PBool true; "action_selected" := PStr "yes";
               "action_selected_at" := PInt 100;
               "action_delivered_at" := PInt 90 ]} :: []) in
  let polled (payload : gmap string pyval) :=
    [Post "https://api.simplepush.io/send" payload]
    ++ concat (replicate (length [pending_response])
                 [Get (feedback_url "abc"); Sleep 1])
    ++ [Get (feedback_url "abc");
        Call (Callback "cb") (PStr "yes") (PInt 100) (PInt 90) "abc"] in
  (exists (payload : gmap string pyval) (w' : world),
     (_generate_payload (default EmptyString (Some "k"%string)) None
        (default EmptyString (Some "m"%string)) None PNone None None w).1
     = Ok payload
     /\ send (Some "k"%string) (Some "m"%string) None None PNone
          (Some (Callback "cb")) (Some 60) w = (Returns, w')
     /\ async_send (Some "k"%string) (Some "m"%string) None None PNone
          (Some (Callback "cb")) (Some 60) w = (Returns, w')
     /\ trace w' = trace w ++ polled payload)
  /\ (truthy_str (Some "p"%string) = true ->
      exists (payload : gmap string pyval) (w' : world),
        (_generate_payload (default EmptyString (Some "k"%string)) None
           (default EmptyString (Some "m"%string)) None PNone
           (Some "p"%string) None w).1
        = Ok payload
        /\ send_encrypted (Some "k"%string) (Some "p"%string) None
             (Some "m"%string) None None PNone (Some (Callback "cb"))
             (Some 60) w = (Returns, w')
        /\ async_send_encrypted (Some "k"%string) (Some "p"%string) None
             (Some "m"%string) None None PNone (Some (Callback "cb"))
             (Some 60) w = (Returns, w')
        /\ trace w' = trace w ++ polled payload).
Proof.
  intros w.
  apply (send_then_feedback (Some "k"%string) (Some "p"%string) None
           (Some "m"%string) None None PNone (Callback "cb") (Some 60) "abc"
           [pending_response]
           (Response true
              {[ "success" := PBool true; "action_selected" := PStr "yes";
                 "action_selected_at" := PInt 100;
                 "action_delivered_at" := PInt 90 ]}) [] w (PBool true)
           (PStr "yes") (PInt 100) (PInt 90)); try reflexivity.
  - repeat constructor.
  - intros _ i Hi. cbn [length] in Hi.
    assert (i = 1%nat) as -> by lia. vm_compute. discriminate.
Defined.

(** X23. The blocking and the suspending forms differ on a response of
    HTTP status 400 or more: [send] reads the envelope first and raises
    [BadRequest] on the envelope of a title or message too long, where
    [async_send] raises the HTTP error without reading it; both have sent
    the same [POST], and so for [send_encrypted] and
    [async_send_encrypted]. *)
Theorem send_reads_envelope_before_http_status (key password salt message
  title event : option string) (actions : pyval) (cb : option callback)
  (timeout : option Z) (w : world) :
  truthy_str key = true -> truthy_str message = true ->
  _check_actions actions = Ok tt ->
  resp_ok (send_response w) = false ->
  resp_json (send_response w) !! "status" = Some (PStr "BadRequest") ->
  resp_json (send_response w) !! "message"
  = Some (PStr "Title or message too long") ->
  (exists w' : world,
     send key message title event actions cb timeout w = (Raises BadRequest, w')
     /\ async_send key message title event actions cb timeout w
        = (Raises HTTPError, w'))
  /\ (truthy_str password = true ->
      exists w' : world,
        send_encrypted key password salt message title event actions cb
          timeout w = (Raises BadRequest, w')
        /\ async_send_encrypted key password salt message title event actions
             cb timeout w = (Raises HTTPError, w')).
Proof.
  intros Hk Hm Hact Hok Hs Hmsg.
  assert (H : forall (pw sl : option string),
    exists w' : world,
      match _generate_payload (default EmptyString key) title
              (default EmptyString message) event actions pw sl w with
      | (Raise e, w0) => (Raises e, w0)
      | (Ok payload, w0) =>
          let '(r, w1) :=
            requests_post (SIMPLEPUSH_URL +:+ "/send") payload
              DEFAULT_TIMEOUT w0 in
          _handle_response r cb timeout w1
      end = (Raises BadRequest, w')
      /\ match _generate_payload (default EmptyString key) title
                 (default EmptyString message) event actions pw sl w with
         | (Raise e, w0) => (Raises e, w0)
         | (Ok payload, w0) =>
             match session_post (SIMPLEPUSH_URL +:+ "/send") payload w0 with
             | (Raise e, w1) => (Raises e, w1)
             | (Ok json, w1) => _handle_response_aio json cb timeout w1
             end
         end = (Raises HTTPError, w')).
  { intros pw sl.
    destruct (generate_payload_world (default EmptyString key) title
                (default EmptyString message) event actions pw sl w)
      as (payload & w0 & -> & Hr & _).
    unfold requests_post, session_post, _handle_response. rewrite Hr, Hok.
    rewrite (handle_envelope_bad_request _ _ _ _ Hs Hmsg).
    by eexists. }
  unfold send, async_send, send_encrypted, async_send_encrypted.
  rewrite Hk, Hm, Hact. cbn [negb orb]. split; [apply H|].
  intros ->. cbn [negb]. apply H.
Qed.

Lemma send_reads_envelope_before_http_status_witness :
  let w :=
    quiet_world
      (Response false
         {[ "status" := PStr "BadRequest";
            "message" := PStr "Title or message too long" ]}) [] in
  (exists w' : world,
     send (Some "k"%string) (Some "m"%string) None None PNone None (Some 60) w
     = (Raises BadRequest, w')
     /\ async_send (Some "k"%string) (Some "m"%string) None None PNone None
          (Some 60) w = (Raises HTTPError, w'))
  /\ (truthy_str (Some "p"%string) = true ->
      exists w' : world,
        send_encrypted (Some "k"%string) (Some "p"%string) None
          (Some "m"%string) None None PNone None (Some 60) w
        = (Raises BadRequest, w')
        /\ async_send_encrypted (Some "k"%string) (Some "p"%string) None
             (Some "m"%string) None None PNone None (Some 60) w
           = (Raises HTTPError, w')).
Proof.
  intros w.
  apply (send_reads_envelope_before_http_status (Some "k"%string)
           (Some "p"%string) None (Some "m"%string) None None PNone None
           (Some 60) w); reflexivity.
Defined.

(** X24. Under one key and one IV, [_encrypt] never gives two
    different texts the same ciphertext. *)
Theorem encrypt_injective (key iv : list byte) (data1 data2 : string)
  (ciphertext1 ciphertext2 : string) :
  data1 <> data2 ->
  _encrypt key iv data1 = Ok ciphertext1 ->
  _encrypt key iv data2 = Ok ciphertext2 ->
  ciphertext1 <> ciphertext2.
Proof.
  intros Hne H1 H2 Heq. subst ciphertext2. apply Hne.
  destruct (aes_round_keys key) as [rks|e] eqn:Hk.
  2:{ unfold _encrypt in H1. by rewrite Hk in H1. }
  destruct (cbc_iv iv) as [prev|e] eqn:Hiv.
  2:{ unfold _encrypt in H1. by rewrite Hk, Hiv in H1. }
  destruct (decrypt_encrypt key iv rks prev data1 Hk Hiv) as (c1 & E1 & D1).
  destruct (decrypt_encrypt key iv rks prev data2 Hk Hiv) as (c2 & E2 & D2).
  rewrite H1 in E1. rewrite H2 in E2.
  injection E1 as <-. injection E2 as <-. congruence.
Qed.

Lemma encrypt_injective_witness :
  _encrypt (default [] (fromhex "000102030405060708090A0B0C0D0E0F"))
    (default [] (fromhex "101112131415161718191A1B1C1D1E1F")) "hello"
  = Ok "MvbW6h7Ihy3rzOqFltnDww=="%string
  /\ _encrypt (default [] (fromhex "000102030405060708090A0B0C0D0E0F"))
       (default [] (fromhex "101112131415161718191A1B1C1D1E1F")) "world"
     = Ok "Fbz2Eu8tViQpAauC5SB4sQ=="%string
  /\ "MvbW6h7Ihy3rzOqFltnDww=="%string <> "Fbz2Eu8tViQpAauC5SB4sQ=="%string.
Proof.
  split; [vm_compute; reflexivity|]. split; [vm_compute; reflexivity|].
  apply (encrypt_injective
           (default [] (fromhex "000102030405060708090A0B0C0D0E0F"))
           (default [] (fromhex "101112131415161718191A1B1C1D1E1F"))
           "hello" "world").
  - discriminate.
  - vm_compute. reflexivity.
  - vm_compute. reflexivity.
Defined.
